(** * pdfrename: content-based renaming of PDF files

    A shallow embedding of [rename_pdfs.py] (pattern variant) and
    [renamepdf.py] (service variant), and the properties of their
    sanitizer, name derivation and collision-safe rename loop, of the
    move to another folder and of the prompts that start a run.

    Python [str] values are modelled as lists of characters.  A character
    is a code point below 256 (Rocq's [ascii]); the character tables used
    by [str.strip], [str.lower], [str.splitlines] and by the regular
    expression classes [\s], [\d], [\w] are Python's Unicode tables
    restricted to that range. *)

From Stdlib Require Import Ascii String List Arith Bool Lia.
From stdpp Require Import base option list gmap strings pretty.

Local Open Scope nat_scope.
Local Open Scope list_scope.

Abbreviation str := (list ascii).

(** String literals of the source, as character lists. *)
Definition py (s : string) : str := list_ascii_of_string s.

(** ** Character tables *)

Definition code (c : ascii) : nat := nat_of_ascii c.

Definition between (lo hi : nat) (c : ascii) : bool :=
  (lo <=? code c) && (code c <=? hi).

Definition is_char (a c : ascii) : bool := Ascii.eqb a c.

(** [str.isspace], also the class [\s] of a [str] pattern. *)
Definition is_space (c : ascii) : bool :=
  between 9 13 c || between 28 32 c || (code c =? 133) || (code c =? 160).

(** The class [\d] of a [str] pattern: decimal digits. *)
Definition is_digit (c : ascii) : bool := between 48 57 c.

Definition is_upper (c : ascii) : bool := between 65 90 c.
Definition is_lower (c : ascii) : bool := between 97 122 c.

(** [str.isalnum]: letters, decimal digits and other numeric characters. *)
Definition is_alnum (c : ascii) : bool :=
  is_digit c || is_upper c || is_lower c
  || (code c =? 170) || between 178 179 c || (code c =? 181)
  || between 185 186 c || between 188 190 c
  || between 192 214 c || between 216 246 c || between 248 255 c.

(** The class [\w] of a [str] pattern. *)
Definition is_word (c : ascii) : bool := is_alnum c || is_char "_" c.

(** [str.lower] on one character. *)
Definition lower_char (c : ascii) : ascii :=
  if is_upper c || between 192 214 c || between 216 222 c
  then ascii_of_nat (code c + 32) else c.

Definition lower (s : str) : str := map lower_char s.

(** ** String primitives of Python *)

Fixpoint lstrip (p : ascii -> bool) (s : str) : str :=
  match s with
  | c :: s' => if p c then lstrip p s' else s
  | [] => []
  end.

Definition rstrip (p : ascii -> bool) (s : str) : str :=
  rev (lstrip p (rev s)).

(** [s.strip()] is [strip is_space s]; [s.strip(chars)] is
    [strip (one_of chars) s]. *)
Definition strip (p : ascii -> bool) (s : str) : str := rstrip p (lstrip p s).

Definition one_of (chars : str) (c : ascii) : bool := existsb (is_char c) chars.

(** [sub in s] for a one-character [sub]. *)
Definition contains (c : ascii) (s : str) : bool := existsb (is_char c) s.

(** [s.replace(a, b)] for one-character [a] and [b]. *)
Definition replace (a b : ascii) (s : str) : str :=
  map (fun c => if is_char a c then b else c) s.

(** [s.split(sep)] for a one-character [sep]: the pieces between
    occurrences of [sep], never an empty list. *)
Fixpoint split (sep : ascii) (s : str) : list str :=
  match s with
  | [] => [[]]
  | c :: s' =>
      if is_char sep c then [] :: split sep s'
      else match split sep s' with
           | piece :: pieces => (c :: piece) :: pieces
           | [] => [[c]]
           end
  end.

(** [sep.join(parts)]. *)
Fixpoint join (sep : str) (parts : list str) : str :=
  match parts with
  | [] => []
  | [p] => p
  | p :: ps => p ++ sep ++ join sep ps
  end.

(** [s.endswith(suffix)]. *)
Definition endswith (suffix s : str) : bool :=
  bool_decide (drop (length s - length suffix) s = suffix).

(** [f"{n}"] for a non-negative integer. *)
Definition decimal (n : nat) : str := py (pretty n).

(** ** Regular expressions

    The fragment of Python's [re] that the two scripts use, with the
    backtracking semantics of the library: alternatives are tried left to
    right, repetitions are greedy, and the first success wins. *)

Module Re.

Inductive regex : Type :=
| Eps                                                  (* the empty pattern *)
| Cls (p : ascii -> bool)                              (* one character of a class *)
| Seq (a b : regex)                                    (* [ab] *)
| Alt (a b : regex)                                    (* [a|b] *)
| Rep (p : ascii -> bool) (lo : nat) (hi : option nat) (* class repeated [{lo,hi}] *)
| Grp (n : nat) (a : regex)                            (* capture group [n] *)
| Bnd.                                                 (* [\b] *)

Definition Opt (a : regex) : regex := Alt a Eps.
Definition Star (p : ascii -> bool) : regex := Rep p 0 None.
Definition Plus (p : ascii -> bool) : regex := Rep p 1 None.
Definition Times (p : ascii -> bool) (n : nat) : regex := Rep p n (Some n).

(** A literal string; under [re.IGNORECASE] a letter matches both cases. *)
Definition fold_case (c : ascii) : ascii :=
  if is_upper c then ascii_of_nat (code c + 32) else c.

Fixpoint Lit (s : str) : regex :=
  match s with
  | [] => Eps
  | [c] => Cls (is_char c)
  | c :: s' => Seq (Cls (is_char c)) (Lit s')
  end.

Fixpoint LitI (s : str) : regex :=
  match s with
  | [] => Eps
  | [c] => Cls (fun x => is_char (fold_case c) (fold_case x))
  | c :: s' => Seq (Cls (fun x => is_char (fold_case c) (fold_case x))) (LitI s')
  end.

Fixpoint Alts (rs : list regex) : regex :=
  match rs with
  | [] => Cls (fun _ => false)
  | [r] => r
  | r :: rs' => Alt r (Alts rs')
  end.

Fixpoint Seqs (rs : list regex) : regex :=
  match rs with
  | [] => Eps
  | [r] => r
  | r :: rs' => Seq r (Seqs rs')
  end.

Definition captures := list (nat * str).

(** A word boundary between the character before the position and the
    one after it. *)
Definition boundary (prev : option ascii) (rest : str) : bool :=
  let before := match prev with Some c => is_word c | None => false end in
  let after := match rest with c :: _ => is_word c | [] => false end in
  xorb before after.

Definition more (hi : option nat) : bool :=
  match hi with Some 0 => false | _ => true end.

Section Exec.
Context {R : Type}.

(** Greedy repetition of a class: take one more character when allowed
    and fall back to stopping here when the rest of the pattern fails.
    [prev] is the character before the current position and [pos] the
    number of characters taken since the start of the match. *)
Fixpoint rep (p : ascii -> bool) (lo : nat) (hi : option nat)
    (prev : option ascii) (pos : nat) (rest : str)
    (k : option ascii -> nat -> str -> option R) {struct rest} : option R :=
  let stop := match lo with 0 => k prev pos rest | S _ => None end in
  match rest with
  | c :: rest' =>
      if p c && more hi then
        match rep p (pred lo) (pred <$> hi) (Some c) (S pos) rest' k with
        | Some r => Some r
        | None => stop
        end
      else stop
  | [] => stop
  end.

(** The matcher in continuation-passing style: [k] is the rest of the
    pattern. *)
Fixpoint exec (r : regex) (prev : option ascii) (pos : nat) (rest : str)
    (caps : captures)
    (k : option ascii -> nat -> str -> captures -> option R) : option R :=
  match r with
  | Eps => k prev pos rest caps
  | Cls p =>
      match rest with
      | c :: rest' => if p c then k (Some c) (S pos) rest' caps else None
      | [] => None
      end
  | Seq a b =>
      exec a prev pos rest caps
           (fun prev' pos' rest' caps' => exec b prev' pos' rest' caps' k)
  | Alt a b =>
      match exec a prev pos rest caps k with
      | Some x => Some x
      | None => exec b prev pos rest caps k
      end
  | Rep p lo hi =>
      rep p lo hi prev pos rest (fun prev' pos' rest' => k prev' pos' rest' caps)
  | Grp n a =>
      exec a prev pos rest caps (fun prev' pos' rest' caps' =>
        k prev' pos' rest' ((n, take (pos' - pos) rest) :: caps'))
  | Bnd => if boundary prev rest then k prev pos rest caps else None
  end.
End Exec.

(** A match object: [group(0)], its length, the captured groups, and the
    text after the match. *)
Record match_obj : Type := Match {
  whole : str;
  width : nat;
  groups : captures;
  tail_of : str
}.

Definition mk_match (rest : str) (pos' : nat) (rest' : str) (caps : captures)
    : match_obj :=
  Match (take pos' rest) pos' caps rest'.

(** [m.group(n)] for [n >= 1]; the patterns of this program set their
    group on every path, so the default is never reached. *)
Definition group (n : nat) (m : match_obj) : str :=
  match find (fun '(i, _) => i =? n) (groups m) with
  | Some (_, s) => s
  | None => []
  end.

(** A match starting exactly at the current position. *)
Definition match_here (r : regex) (prev : option ascii) (rest : str) : option match_obj :=
  exec r prev 0 rest [] (fun _ pos' rest' caps => Some (mk_match rest pos' rest' caps)).

(** [re.search]: the leftmost position with a match. *)
Fixpoint search_from (r : regex) (prev : option ascii) (rest : str) : option match_obj :=
  match match_here r prev rest with
  | Some m => Some m
  | None =>
      match rest with
      | c :: rest' => search_from r (Some c) rest'
      | [] => None
      end
  end.

Definition search (r : regex) (text : str) : option match_obj :=
  search_from r None text.

(** [re.match]: a match at the start of the text. *)
Definition match_ (r : regex) (text : str) : option match_obj :=
  match_here r None text.

(** [re.fullmatch]: a match of the whole text. *)
Definition fullmatch (r : regex) (text : str) : option match_obj :=
  exec r None 0 text [] (fun _ pos' rest' caps =>
    match rest' with
    | [] => Some (mk_match text pos' rest' caps)
    | _ :: _ => None
    end).

(** [re.sub(r, repl, text)] for a pattern that matches no empty string:
    every leftmost non-overlapping match is replaced by [repl].  [skip]
    counts the characters of the current match still to be dropped. *)
Fixpoint sub_from (r : regex) (repl : str) (skip : nat)
    (prev : option ascii) (rest : str) : str :=
  match rest with
  | [] => []
  | c :: rest' =>
      match skip with
      | S n => sub_from r repl n (Some c) rest'
      | 0 =>
          match width <$> match_here r prev rest with
          | Some (S n) => repl ++ sub_from r repl n (Some c) rest'
          | _ => c :: sub_from r repl 0 (Some c) rest'
          end
      end
  end.

Definition sub (r : regex) (repl : str) (text : str) : str :=
  sub_from r repl 0 None text.

End Re.

(** ** [sanitize_filename] (identical in both scripts) *)

(** The characters of the class in the first substitution: backslash,
    slash, colon, star, question mark, double quote, angle brackets, bar. *)
Definition invalid_chars : str :=
  py "\/:*?" ++ ["034"%char] ++ py "<>|".

Definition re_invalid : Re.regex := Re.Cls (one_of invalid_chars).

(** The pattern [__+]. *)
Definition re_underscores : Re.regex :=
  Re.Seq (Re.Cls (is_char "_")) (Re.Plus (is_char "_")).

Definition sanitize_filename (name : str) : str :=
  let sanitized := Re.sub re_invalid (py "_") name in
  let sanitized := Re.sub re_underscores (py "_") sanitized in
  let sanitized := strip (one_of (py " _")) sanitized in
  if 200 <? length sanitized then take 200 sanitized else sanitized.

(** *** Shape predicates on names *)

Definition is_sep (c : ascii) : bool := one_of (py " _") c.

Definition starts_with_sep (s : str) : bool :=
  match s with c :: _ => is_sep c | [] => false end.

Definition ends_with_sep (s : str) : bool := starts_with_sep (rev s).

Fixpoint has_double_underscore (s : str) : bool :=
  match s with
  | c :: s' =>
      (is_char "_" c && match s' with d :: _ => is_char "_" d | [] => false end)
      || has_double_underscore s'
  | [] => false
  end.

Definition has_invalid_char (s : str) : bool := existsb (one_of invalid_chars) s.

(** ** Closed forms used in the proofs about the sanitizer *)

(** Length of the leading run of characters of a class. *)
Fixpoint run (p : ascii -> bool) (s : str) : nat :=
  match s with
  | c :: s' => if p c then S (run p s') else 0
  | [] => 0
  end.

(** Every maximal run of underscores becomes one underscore; [in_run]
    says that the previous character was an underscore already kept. *)
Fixpoint squeeze (in_run : bool) (s : str) : str :=
  match s with
  | [] => []
  | c :: s' =>
      if is_char "_" c
      then if in_run then squeeze true s' else c :: squeeze true s'
      else c :: squeeze false s'
  end.

Definition replace_invalid (s : str) : str :=
  map (fun c => if one_of invalid_chars c then "_"%char else c) s.

(** The trimmed text before truncation. *)
Definition trimmed (name : str) : str :=
  strip is_sep (squeeze false (replace_invalid name)).

(** ** Patterns that cannot match without a character of a class *)

Definition all_chars : list ascii := map ascii_of_nat (seq 0 256).

(** Every character of class [p] is of class [q]. *)
Definition class_within (p q : ascii -> bool) : bool :=
  forallb (fun c => implb (p c) (q c)) all_chars.

(** [needs q r]: every way through [r] takes a character of class [q]. *)
Fixpoint needs (q : ascii -> bool) (r : Re.regex) : bool :=
  match r with
  | Re.Eps | Re.Bnd => false
  | Re.Cls p => class_within p q
  | Re.Seq a b => needs q a || needs q b
  | Re.Alt a b => needs q a && needs q b
  | Re.Rep p lo _ => negb (lo =? 0) && class_within p q
  | Re.Grp _ a => needs q a
  end.

(** A character that is not white space. *)
Definition is_graphic (c : ascii) : bool := negb (is_space c).

(** ** [datetime.strptime] and [strftime]

    The part of Python's [_strptime] that the date normalisation uses: the
    format is turned into a regular expression (matched without regard to
    case), the data must match it entirely, and the fields must form a
    date of the calendar. *)

Module Datetime.

Record date : Type := Date { year : nat; month : nat; day : nat }.

Inductive directive : Type :=
| DY                 (* %Y *)
| Dm                 (* %m *)
| Dd                 (* %d *)
| DB                 (* %B *)
| DLit (c : ascii)   (* any other character *)
| DSpace.            (* white space in the format *)

(** Group numbers standing for the named groups Y, m, d and B. *)
Definition gY : nat := 1.
Definition gm : nat := 2.
Definition gd : nat := 3.
Definition gB : nat := 4.

(** Full month names of the C locale, in calendar order. *)
Definition month_names : list str :=
  map py ["january"; "february"; "march"; "april"; "may"; "june"; "july";
          "august"; "september"; "october"; "november"; "december"].

(** The alternation for %B lists the names longest first. *)
Definition month_names_by_length : list str :=
  map py ["september"; "february"; "november"; "december"; "january";
          "october"; "august"; "march"; "april"; "june"; "july"; "may"].

Definition directive_regex (d : directive) : Re.regex :=
  match d with
  | DY => Re.Grp gY (Re.Seqs [Re.Cls is_digit; Re.Cls is_digit;
                              Re.Cls is_digit; Re.Cls is_digit])
  | Dm => Re.Grp gm (Re.Alts [
            Re.Seq (Re.Cls (is_char "1")) (Re.Cls (between 48 50));
            Re.Seq (Re.Cls (is_char "0")) (Re.Cls (between 49 57));
            Re.Cls (between 49 57)])
  | Dd => Re.Grp gd (Re.Alts [
            Re.Seq (Re.Cls (is_char "3")) (Re.Cls (between 48 49));
            Re.Seq (Re.Cls (between 49 50)) (Re.Cls is_digit);
            Re.Seq (Re.Cls (is_char "0")) (Re.Cls (between 49 57));
            Re.Cls (between 49 57);
            Re.Seq (Re.Cls (is_char " ")) (Re.Cls (between 49 57))])
  | DB => Re.Grp gB (Re.Alts (map Re.LitI month_names_by_length))
  | DLit c => Re.LitI [c]
  | DSpace => Re.Plus is_space
  end.

Definition format_regex (fmt : list directive) : Re.regex :=
  Re.Seqs (map directive_regex fmt).

(** [int(s)] for a field matched above: digits, possibly after a space. *)
Definition int (s : str) : nat :=
  fold_left (fun n c => if is_digit c then 10 * n + (code c - 48) else n) s 0.

Definition find_group (n : nat) (m : Re.match_obj) : option str :=
  snd <$> find (fun '(i, _) => i =? n) (Re.groups m).

(** Position of a month name in [month_names], counted from 1. *)
Fixpoint index_of (s : str) (names : list str) (i : nat) : option nat :=
  match names with
  | [] => None
  | n :: names' => if bool_decide (n = s) then Some i else index_of s names' (S i)
  end.

Definition is_leap (y : nat) : bool :=
  (y mod 4 =? 0) && (negb (y mod 100 =? 0) || (y mod 400 =? 0)).

Definition days_in_month (y m : nat) : nat :=
  match m with
  | 2 => if is_leap y then 29 else 28
  | 4 | 6 | 9 | 11 => 30
  | _ => 31
  end.

Definition valid_date (d : date) : bool :=
  (1 <=? year d) && (year d <=? 9999) &&
  (1 <=? month d) && (month d <=? 12) &&
  (1 <=? day d) && (day d <=? days_in_month (year d) (month d)).

(** [datetime.strptime(data, fmt)]; [None] stands for [ValueError]. *)
Definition strptime (data : str) (fmt : list directive) : option date :=
  match Re.match_ (format_regex fmt) data with
  | None => None
  | Some m =>
      match Re.tail_of m with
      | _ :: _ => None
      | [] =>
          let y := match find_group gY m with Some s => int s | None => 1900 end in
          let mo :=
            match find_group gB m with
            | Some s => default 1 (index_of (map Re.fold_case s) month_names 1)
            | None => match find_group gm m with Some s => int s | None => 1 end
            end in
          let d := match find_group gd m with Some s => int s | None => 1 end in
          let dt := Date y mo d in
          if valid_date dt then Some dt else None
      end
  end.

(** A number in decimal, padded with zeros to [width] digits. *)
Definition zero_pad (width n : nat) : str :=
  let s := decimal n in repeat "0"%char (width - length s) ++ s.

(** [dt.strftime('%Y-%m-%d')].  The year is printed as CPython on glibc
    prints it, without padding: years from 1000 on have their four
    digits, earlier years come out shorter (other C libraries pad them
    with zeros). *)
Definition strftime_Ymd (dt : date) : str :=
  decimal (year dt) ++ py "-" ++ zero_pad 2 (month dt) ++ py "-" ++ zero_pad 2 (day dt).

(** The four formats of the program. *)
Definition fmt_Ymd : list directive := [DY; DLit "-"; Dm; DLit "-"; Dd].
Definition fmt_mdY : list directive := [Dm; DLit "-"; Dd; DLit "-"; DY].
Definition fmt_dmY : list directive := [Dd; DLit "-"; Dm; DLit "-"; DY].
Definition fmt_BdY : list directive := [DB; DSpace; Dd; DLit ","; DSpace; DY].

End Datetime.

(** ** The file system and the rename loop shared by both scripts

    A file system maps a path to a directory or to a PDF file.  A file is
    abstracted to what [pypdf] reads from it: the text of its pages, or
    nothing when the reader raises.  Paths are compared as strings (POSIX
    [os.path.join]; no links, no normalisation). *)

Module Fs.

Inductive node : Type :=
| Dir
| File (pages : option (list str)).

Definition slash : ascii := "/"%char.

(** [os.path.exists]. *)
Definition exists_ (fs : gmap str node) (path : str) : bool :=
  match fs !! path with Some _ => true | None => false end.

(** [os.path.isdir]. *)
Definition isdir (fs : gmap str node) (path : str) : bool :=
  match fs !! path with Some Dir => true | _ => false end.

(** [os.path.join(a, b)]. *)
Definition path_join (a b : str) : str :=
  match b with
  | c :: _ => if is_char slash c then b
              else if bool_decide (a = []) || endswith [slash] a then a ++ b
              else a ++ [slash] ++ b
  | [] => if bool_decide (a = []) || endswith [slash] a then a ++ b
          else a ++ [slash] ++ b
  end.

(** The name of [path] inside the directory with prefix [pre], when
    [path] lies directly in it. *)
Definition child_name (pre path : str) : option str :=
  let name := drop (length pre) path in
  if bool_decide (take (length pre) path = pre)
     && negb (bool_decide (name = [])) && negb (contains slash name)
  then Some name else None.

(** [os.listdir(folder)]: the entries directly inside [folder], in the
    order of the map (Python leaves the order unspecified). *)
Definition listdir (fs : gmap str node) (folder : str) : list str :=
  omap (child_name (path_join folder [])) ((map_to_list fs).*1).

(** [os.rename(src, dst)] for a regular file [src]; [None] stands for
    [OSError].  An existing file at [dst] is replaced, as POSIX does. *)
Definition rename (fs : gmap str node) (src dst : str) : option (gmap str node) :=
  match fs !! src with
  | Some (File pages) =>
      match fs !! dst with
      | Some Dir => None
      | _ => Some (<[dst := File pages]> (delete src fs))
      end
  | _ => None
  end.

(** What the loops print about a file. *)
Inductive message : Type :=
| SkippedNoText (filename : str)
| NoNameFound (filename : str)
| UnsupportedCharacters
| AlreadyNamed (filename : str)
| WouldRename (new_filename : str)
| Renamed (filename new_filename : str)
| RenameFailed (filename new_filename : str).

(** The state threaded through a run: the file system, the messages
    printed so far (latest first) and the three counters. *)
Record run : Type := Run {
  files : gmap str node;
  printed : list message;
  pdf_files_found : nat;
  renamed_count : nat;
  skipped_count : nat
}.

Definition start (fs : gmap str node) : run := Run fs [] 0 0 0.

Definition found (st : run) : run :=
  Run (files st) (printed st) (S (pdf_files_found st)) (renamed_count st) (skipped_count st).

Definition skipped (msg : message) (st : run) : run :=
  Run (files st) (msg :: printed st) (pdf_files_found st) (renamed_count st)
      (S (skipped_count st)).

Definition renamed (msg : message) (fs : gmap str node) (st : run) : run :=
  Run fs (msg :: printed st) (pdf_files_found st) (S (renamed_count st))
      (skipped_count st).

(** The file name tried at [counter]: base, underscore, counter, extension. *)
Definition numbered (base : str) (counter : nat) : str :=
  (base ++ py "_" ++ decimal counter) ++ py ".pdf".

(** The loop condition: the proposed path is an entry of the file system
    and is not the file itself. *)
Definition taken (fs : gmap str node) (old_file_path new_file_path : str) : bool :=
  exists_ fs new_file_path && negb (bool_decide (new_file_path = old_file_path)).

(** The loop [while os.path.exists(new_file_path) and new_file_path !=
    old_file_path], entered with the first proposal; it yields the final
    [new_filename] and [new_file_path].  [fuel] bounds the number of
    iterations; [None] means that the bound was too small. *)
Fixpoint collision_loop (fuel : nat) (fs : gmap str node)
    (folder_path old_file_path base : str) (counter : nat)
    (new_filename new_file_path : str) : option (str * str) :=
  if taken fs old_file_path new_file_path then
    match fuel with
    | 0 => None
    | S fuel' =>
        let new_filename := numbered base counter in
        let new_file_path := path_join folder_path new_filename in
        collision_loop fuel' fs folder_path old_file_path base (S counter)
                       new_filename new_file_path
    end
  else Some (new_filename, new_file_path).

(** The plan for one file: the first proposal is the base with the
    extension; one iteration per entry of the file system, and one more,
    are always enough (see [resolve_collisions_total]). *)
Definition resolve_collisions (fs : gmap str node)
    (folder_path old_file_path base : str) : option (str * str) :=
  let new_filename := base ++ py ".pdf" in
  let new_file_path := path_join folder_path new_filename in
  collision_loop (S (size fs)) fs folder_path old_file_path base 1
                 new_filename new_file_path.

(** The end of the loop body in both scripts: nothing to do, a dry-run
    report, or the rename. *)
Definition finish_file (dry_run : bool) (filename old_file_path : str)
    (plan : str * str) (st : run) : run :=
  let '(new_filename, new_file_path) := plan in
  if bool_decide (new_file_path = old_file_path) then
    skipped (AlreadyNamed filename) st
  else if dry_run then
    renamed (WouldRename new_filename) (files st) st
  else
    match rename (files st) old_file_path new_file_path with
    | Some fs' => renamed (Renamed filename new_filename) fs' st
    | None => skipped (RenameFailed filename new_filename) st
    end.

(** [filename.lower().endswith('.pdf')]. *)
Definition is_pdf (filename : str) : bool := endswith (py ".pdf") (lower filename).

End Fs.

(** What a run may change: [keeps dry_run st st'] says that the file
    system is untouched in a dry run and keeps its number of entries in
    any run. *)
Definition keeps (dry_run : bool) (st st' : Fs.run) : Prop :=
  size (Fs.files st') = size (Fs.files st) /\
  (dry_run = true -> Fs.files st' = Fs.files st).

(** ** rename_pdfs.py: the pattern strategy *)

Module RenamePdfs.

Import Fs.

(** The class [[A-Za-z0-9-]]. *)
Definition ident_char (c : ascii) : bool :=
  is_upper c || is_lower c || is_digit c || is_char "-" c.

(** The class [[#:]]. *)
Definition hash_or_colon (c : ascii) : bool := one_of (py "#:") c.

(** The class [[-./]]. *)
Definition date_sep (c : ascii) : bool := one_of (py "-./") c.

(** The tail shared by the identifier patterns after the label and the
    first white space. *)
Definition ident_tail : list Re.regex :=
  [Re.Opt (Re.Cls hash_or_colon); Re.Star is_space; Re.Grp 1 (Re.Plus ident_char)].

(** The list [invoice_patterns]; all three are searched with
    [re.IGNORECASE]. *)
Definition invoice_patterns : list (Re.regex * str) :=
  [ (Re.Seqs (Re.Alt (Re.LitI (py "invoice")) (Re.LitI (py "inv"))
              :: Re.Star is_space :: ident_tail), py "Invoice");
    (Re.Seqs (Re.Alt (Re.LitI (py "order")) (Re.LitI (py "po"))
              :: Re.Star is_space :: ident_tail), py "Order");
    (Re.Seqs (Re.LitI (py "Ref") :: ident_tail), py "Ref") ].

(** The pattern of the year test on an identifier: four digits. *)
Definition re_year : Re.regex := Re.Times is_digit 4.

Definition month_abbrev (short rest : string) : Re.regex :=
  Re.Seq (Re.Lit (py short)) (Re.Opt (Re.Lit (py rest))).

(** The list [date_patterns], searched with case respected. *)
Definition date_patterns : list Re.regex :=
  [ Re.Seqs [Re.Bnd;
             Re.Grp 1 (Re.Seqs [Re.Times is_digit 4; Re.Cls date_sep;
                                Re.Rep is_digit 1 (Some 2); Re.Cls date_sep;
                                Re.Rep is_digit 1 (Some 2)]);
             Re.Bnd];
    Re.Seqs [Re.Bnd;
             Re.Grp 1 (Re.Seqs [Re.Rep is_digit 1 (Some 2); Re.Cls date_sep;
                                Re.Rep is_digit 1 (Some 2); Re.Cls date_sep;
                                Re.Rep is_digit 2 (Some 4)]);
             Re.Bnd];
    Re.Seqs [Re.Bnd;
             Re.Grp 1 (Re.Alts [month_abbrev "Jan" "uary"; month_abbrev "Feb" "ruary";
                                month_abbrev "Mar" "ch"; month_abbrev "Apr" "il";
                                Re.Lit (py "May"); month_abbrev "Jun" "e";
                                month_abbrev "Jul" "y"; month_abbrev "Aug" "ust";
                                month_abbrev "Sep" "tember"; month_abbrev "Oct" "ober";
                                month_abbrev "Nov" "ember"; month_abbrev "Dec" "ember"]);
             Re.Plus is_space; Re.Rep is_digit 1 (Some 2); Re.Lit (py ",");
             Re.Plus is_space; Re.Times is_digit 4; Re.Bnd] ].

(** The loop over [invoice_patterns]: the first pattern whose identifier
    is longer than three characters and not a bare year gives the part. *)
Fixpoint find_identifier (patterns : list (Re.regex * str)) (text_content : str)
    : list str :=
  match patterns with
  | [] => []
  | (pattern, prefix) :: patterns' =>
      match Re.search pattern text_content with
      | Some m =>
          let part := strip is_space (Re.group 1 m) in
          if (3 <? length part) && negb (bool_decide (is_Some (Re.fullmatch re_year part)))
          then [prefix ++ py "-" ++ part]
          else find_identifier patterns' text_content
      | None => find_identifier patterns' text_content
      end
  end.

(** The body of the [try] block of the date loop.  The outer [None]
    stands for an exception; the inner one for [dt_obj = None]. *)
Definition normalize_date (m : Re.match_obj) : option (option Datetime.date) :=
  let g1 := Re.group 1 m in
  if contains "-" g1 || contains "." g1 then
    if length (hd [] (split "-" g1)) =? 4 then
      Some <$> Datetime.strptime g1 Datetime.fmt_Ymd
    else
      match Datetime.strptime g1 Datetime.fmt_mdY with
      | Some dt => Some (Some dt)
      | None => Some <$> Datetime.strptime g1 Datetime.fmt_dmY
      end
  else if contains "," (Re.whole m) then
    Some <$> Datetime.strptime (Re.whole m) Datetime.fmt_BdY
  else Some None.

(** [match.group(0).replace('/', '-').replace('.', '-')]. *)
Definition basic_conversion (m : Re.match_obj) : str :=
  replace "." "-" (replace "/" "-" (Re.whole m)).

(** The loop over [date_patterns].  A pattern whose match is normalised
    (or needs no normalisation) ends the loop; after an exception the raw
    match is kept and the loop goes on to the next pattern. *)
Fixpoint find_date (patterns : list Re.regex) (text_content : str)
    (found_date : option str) : option str :=
  match patterns with
  | [] => found_date
  | pattern :: patterns' =>
      match Re.search pattern text_content with
      | Some m =>
          match normalize_date m with
          | Some (Some dt_obj) => Some (Datetime.strftime_Ymd dt_obj)
          | Some None => Some (basic_conversion m)
          | None => find_date patterns' text_content (Some (basic_conversion m))
          end
      | None => find_date patterns' text_content found_date
      end
  end.

(** Truth value of an optional string: set and not empty. *)
Definition truthy (s : option str) : bool :=
  match s with Some (_ :: _) => true | _ => false end.

Definition newline : ascii := "010"%char.

Definition generate_new_name_from_content (text_content : str) : option str :=
  match text_content with
  | [] => None
  | _ :: _ =>
      let new_name_parts := find_identifier invoice_patterns text_content in
      let found_date := find_date date_patterns text_content None in
      let new_name_parts :=
        if truthy found_date then new_name_parts ++ [default [] found_date]
        else new_name_parts in
      let finish (parts : list str) :=
        Some (sanitize_filename (replace " " "_" (join (py "_") parts))) in
      match new_name_parts with
      | [] =>
          let first_line := hd [] (split newline (strip is_space text_content)) in
          match first_line with
          | _ :: _ =>
              let generic_title := strip is_space (take 50 first_line) in
              match generic_title with
              | _ :: _ => finish [generic_title]
              | [] => finish []
              end
          | [] => None
          end
      | _ :: _ => finish new_name_parts
      end
  end.

(** [extract_text_from_pdf]: the text of the first six pages; [None]
    when the file cannot be read. *)
Definition extract_text_from_pdf (fs : gmap str node) (pdf_path : str) : option str :=
  match fs !! pdf_path with
  | Some (File (Some pages)) => Some (concat (take 6 pages))
  | _ => None
  end.

(** The body of the loop of [rename_pdf_files_in_folder] for one entry
    of the listing. *)
Definition process_file (folder_path : str) (dry_run : bool) (filename : str)
    (st : run) : option run :=
  if is_pdf filename then
    let st := found st in
    let old_file_path := path_join folder_path filename in
    match extract_text_from_pdf (files st) old_file_path with
    | None => Some (skipped (SkippedNoText filename) st)
    | Some text_content =>
        match generate_new_name_from_content text_content with
        | None => Some (skipped (NoNameFound filename) st)
        | Some new_name_base =>
            plan ← resolve_collisions (files st) folder_path old_file_path new_name_base;
            Some (finish_file dry_run filename old_file_path plan st)
        end
    end
  else Some st.

Fixpoint process_files (folder_path : str) (dry_run : bool) (listing : list str)
    (st : run) : option run :=
  match listing with
  | [] => Some st
  | filename :: listing' =>
      st' ← process_file folder_path dry_run filename st;
      process_files folder_path dry_run listing' st'
  end.

(** [rename_pdf_files_in_folder]: nothing happens when the folder is not
    a directory; otherwise the listing is taken once and processed. *)
Definition rename_pdf_files_in_folder (fs : gmap str node) (folder_path : str)
    (dry_run : bool) : option run :=
  if isdir fs folder_path
  then process_files folder_path dry_run (listdir fs folder_path) (start fs)
  else Some (start fs).

End RenamePdfs.

(** ** renamepdf.py: the service and last-line strategies *)

Module RenamePdf.

Import Fs.

(** The class [[A-Za-z0-9 _]]. *)
Definition name_char (c : ascii) : bool :=
  is_upper c || is_lower c || is_digit c || is_char " " c || is_char "_" c.

Definition re_valid : Re.regex := Re.Plus name_char.

Definition is_valid_filename (name : str) : bool :=
  bool_decide (is_Some (Re.fullmatch re_valid name)).

(** [extract_text_from_pdf]: the text of all pages; [None] when the
    file cannot be read. *)
Definition extract_text_from_pdf (fs : gmap str node) (pdf_path : str) : option str :=
  match fs !! pdf_path with
  | Some (File (Some pages)) => Some (concat pages)
  | _ => None
  end.

(** The line boundaries of [str.splitlines]. *)
Definition is_linebreak (c : ascii) : bool :=
  between 10 13 c || between 28 30 c || (code c =? 133).

(** [str.splitlines]: [line] is the current line, reversed; a line feed
    right after a carriage return belongs to the same boundary. *)
Fixpoint splitlines_from (line : str) (after_cr : bool) (s : str) : list str :=
  match s with
  | [] => match line with [] => [] | _ :: _ => [rev line] end
  | c :: s' =>
      if is_char "010" c && after_cr then splitlines_from [] false s'
      else if is_linebreak c then rev line :: splitlines_from [] (is_char "013" c) s'
      else splitlines_from (c :: line) false s'
  end.

Definition splitlines (s : str) : list str := splitlines_from [] false s.

Definition nonempty (s : str) : bool :=
  match s with [] => false | _ :: _ => true end.

Definition get_last_line (text : str) : option str :=
  let lines := map (strip is_space)
                   (filter (fun line => nonempty (strip is_space line) = true)
                           (splitlines text)) in
  match last lines with
  | None => None
  | Some line => Some (sanitize_filename line)
  end.

(** The completion service: given the prompt text it answers with the
    content of the first choice, or fails ([None]: any exception). *)
Definition service : Type := str -> option str.

(** [get_title_via_chatgpt]; [client] is the module's [CLIENT], absent
    when the key is not configured. *)
Definition get_title_via_chatgpt (client : option service) (text : str) : option str :=
  match client with
  | None => None
  | Some create =>
      let trimmed := take 4000 text in
      match create trimmed with
      | Some content => Some (sanitize_filename (strip is_space content))
      | None => None
      end
  end.

(** The body of the loop of [rename_pdfs_in_folder] for one entry of the
    listing. *)
Definition process_file (client : option service) (folder_path : str)
    (dry_run : bool) (filename : str) (st : run) : option run :=
  if is_pdf filename then
    let st := found st in
    let old_file_path := path_join folder_path filename in
    match extract_text_from_pdf (files st) old_file_path with
    | None | Some [] => Some (skipped (SkippedNoText filename) st)
    | Some ((_ :: _) as text_content) =>
        match get_title_via_chatgpt client text_content with
        | None | Some [] => Some (skipped (NoNameFound filename) st)
        | Some ((_ :: _) as title) =>
            if negb (is_valid_filename title) then
              Some (skipped UnsupportedCharacters st)
            else
              plan ← resolve_collisions (files st) folder_path old_file_path title;
              Some (finish_file dry_run filename old_file_path plan st)
        end
    end
  else Some st.

Fixpoint process_files (client : option service) (folder_path : str)
    (dry_run : bool) (listing : list str) (st : run) : option run :=
  match listing with
  | [] => Some st
  | filename :: listing' =>
      st' ← process_file client folder_path dry_run filename st;
      process_files client folder_path dry_run listing' st'
  end.

Definition rename_pdfs_in_folder (client : option service) (fs : gmap str node)
    (folder_path : str) (dry_run : bool) : option run :=
  if isdir fs folder_path
  then process_files client folder_path dry_run (listdir fs folder_path) (start fs)
  else Some (start fs).

End RenamePdf.

(** ** renamepdf.py: moving the files to another folder

    As above a path is the string that names it: two spellings of one
    directory (with and without a trailing slash, or with a dot
    component) are two keys.  No call fails for lack of permission. *)

Module RenamePdfMove.

Import Fs.

(** [s.rfind(c)]: the position of the last [c] in [s]. *)
Fixpoint rfind_from (c : ascii) (s : str) (i : nat) (found : option nat) : option nat :=
  match s with
  | [] => found
  | d :: s' => rfind_from c s' (S i) (if is_char c d then Some i else found)
  end.

Definition rfind (c : ascii) (s : str) : option nat := rfind_from c s 0 None.

Definition is_dot (c : ascii) : bool := is_char "." c.

(** [os.path.splitext]: the extension starts at the last dot of the
    last component, unless only dots come before it in that component. *)
Definition splitext (p : str) : str * str :=
  let start := match rfind slash p with Some i => S i | None => 0 end in
  match rfind "." p with
  | Some dot =>
      if (start <=? dot)
         && existsb (fun c => negb (is_dot c)) (take (dot - start) (drop start p))
      then (take dot p, drop dot p)
      else (p, [])
  | None => (p, [])
  end.

(** [os.path.split]: everything up to the last slash, without trailing
    slashes unless it is the root, and the last component. *)
Definition split_path (p : str) : str * str :=
  let i := match rfind slash p with Some j => S j | None => 0 end in
  let head := take i p in
  let tail := drop i p in
  (if RenamePdf.nonempty head && negb (forallb (is_char slash) head)
   then rstrip (is_char slash) head else head,
   tail).

(** The root directory, which always exists. *)
Definition is_root (p : str) : bool :=
  RenamePdf.nonempty p && forallb (is_char slash) p.

Definition path_exists (fs : gmap str node) (p : str) : bool := exists_ fs p || is_root p.
Definition path_isdir (fs : gmap str node) (p : str) : bool := isdir fs p || is_root p.

(** The directory that must exist for [name] to be created; the empty
    one stands for the working directory, which exists. *)
Definition parent (name : str) : str :=
  let '(head, tail) := split_path name in
  if RenamePdf.nonempty tail then head else fst (split_path head).

(** [os.mkdir(name)]; [None] stands for [OSError]. *)
Definition mkdir (fs : gmap str node) (name : str) : option (gmap str node) :=
  if negb (RenamePdf.nonempty name) || path_exists fs name then None
  else if negb (RenamePdf.nonempty (parent name)) || path_isdir fs (parent name)
       then Some (<[name := Dir]> fs)
       else None.

(** [os.makedirs(name, exist_ok=True)]: the file system it leaves and
    whether it returned without an exception.  The recursion is on the
    head of the path, which is shorter than the path; [fuel] bounds it. *)
Fixpoint makedirs (fuel : nat) (fs : gmap str node) (name : str)
    : gmap str node * bool :=
  let '(head, tail) := split_path name in
  let '(head, tail) :=
    if RenamePdf.nonempty tail then (head, tail) else split_path head in
  let descend :=
    RenamePdf.nonempty head && RenamePdf.nonempty tail && negb (path_exists fs head) in
  let '(fs1, ok) :=
    if descend
    then match fuel with S fuel' => makedirs fuel' fs head | 0 => (fs, false) end
    else (fs, true) in
  if negb ok then (fs1, false)
  else if descend && bool_decide (tail = py ".") then (fs1, true)
  else match mkdir fs1 name with
       | Some fs2 => (fs2, true)
       | None => (fs1, path_isdir fs1 name)
       end.

(** Whether [path] lies in the directory [dir] or below it. *)
Definition below (dir path : str) : bool :=
  bool_decide (take (S (length dir)) path = dir ++ [slash]).

(** The file system after the directory [src] and all that it holds
    went to [dst]. *)
Definition move_tree (fs : gmap str node) (src dst : str) : gmap str node :=
  list_to_map
    (map (fun entry : str * node =>
            (if bool_decide (fst entry = src) then dst
             else if below src (fst entry) then dst ++ drop (length src) (fst entry)
             else fst entry,
             snd entry))
         (map_to_list fs)).

(** [shutil.move(src, dst)] for a destination that is no entry, which is
    all the loop below asks for (it leaves its [while] only then); any
    other destination is refused.  [None] stands for an exception. *)
Definition shutil_move (fs : gmap str node) (src dst : str) : option (gmap str node) :=
  if exists_ fs dst then None
  else match fs !! src with
       | Some (File pages) => Some (<[dst := File pages]> (delete src fs))
       | Some Dir =>
           if bool_decide (dst = src) || below src dst then None
           else Some (move_tree fs src dst)
       | None => None
       end.

(** The name tried at [counter]: the stem, an underscore, the counter
    and the extension. *)
Definition suffixed (filename : str) (counter : nat) : str :=
  let '(name, ext) := splitext filename in
  name ++ py "_" ++ decimal counter ++ ext.

(** The loop [while os.path.exists(dest_path)]; [None] means that the
    fuel was too small. *)
Fixpoint dest_loop (fuel : nat) (fs : gmap str node) (dest_folder filename : str)
    (counter : nat) (dest_path : str) : option str :=
  if exists_ fs dest_path then
    match fuel with
    | 0 => None
    | S fuel' =>
        dest_loop fuel' fs dest_folder filename (S counter)
                  (path_join dest_folder (suffixed filename counter))
    end
  else Some dest_path.

(** The state of the move loop: the file system, [moved_count] and the
    names whose move failed (latest first). *)
Record moving : Type := Moving {
  entries : gmap str node;
  moved_count : nat;
  failed : list str
}.

(** The body of the loop for one entry of the listing. *)
Definition move_file (src_folder dest_folder filename : str) (st : moving)
    : option moving :=
  if negb (is_pdf filename) then Some st
  else
    let src_path := path_join src_folder filename in
    dest_path ← dest_loop (S (size (entries st))) (entries st) dest_folder filename 1
                          (path_join dest_folder filename);
    match shutil_move (entries st) src_path dest_path with
    | Some fs' => Some (Moving fs' (S (moved_count st)) (failed st))
    | None => Some (Moving (entries st) (moved_count st) (filename :: failed st))
    end.

Fixpoint move_files (src_folder dest_folder : str) (listing : list str) (st : moving)
    : option moving :=
  match listing with
  | [] => Some st
  | filename :: listing' =>
      st' ← move_file src_folder dest_folder filename st;
      move_files src_folder dest_folder listing' st'
  end.

(** How a call of [move_pdfs_to_folder] ends. *)
Inductive move_result : Type :=
| CreationFailed (fs : gmap str node)   (* the destination could not be made *)
| ListingRaised (fs : gmap str node)    (* [os.listdir] raised: not caught *)
| Moved (st : moving).

Definition move_pdfs_to_folder (fs : gmap str node) (src_folder dest_folder : str)
    : option move_result :=
  let '(fs1, ok) :=
    if path_isdir fs dest_folder then (fs, true)
    else makedirs (length dest_folder) fs dest_folder in
  if negb ok then Some (CreationFailed fs1)
  else if negb (path_isdir fs1 src_folder) then Some (ListingRaised fs1)
  else Moved <$> move_files src_folder dest_folder (listdir fs1 src_folder)
                            (Moving fs1 0 []).

End RenamePdfMove.

(** ** The two scripts run from the command line

    The answers typed at the prompts are given as a list, one line per
    call of [input]; a call beyond the list raises [EOFError], which ends
    the script. *)

Module Scripts.

(** How a script ends. *)
Inductive ending : Type :=
| Finished
| InputEnded       (* [input] raised at the end of the answers *)
| ListingRaised.   (* [os.listdir] raised inside the move *)

(** What a script did: the file system it leaves, the calls of the
    folder-renaming operation with their [dry_run] argument and final
    state, the call of [move_pdfs_to_folder] if any, and its end. *)
Record session : Type := Session {
  disk : gmap str Fs.node;
  calls : list (bool * Fs.run);
  move : option RenamePdfMove.move_result;
  finish : ending
}.

(** [input(...).strip().lower()]. *)
Definition normalized (answer : str) : str := lower (strip is_space answer).

(** The [__main__] block of rename_pdfs.py. *)
Definition rename_pdfs_main (answers : list str) (fs : gmap str Fs.node)
    : option session :=
  match answers with
  | [] => Some (Session fs [] None InputEnded)
  | folder_line :: answers =>
      let folder := strip is_space folder_line in
      match answers with
      | [] => Some (Session fs [] None InputEnded)
      | dry_run_choice :: answers =>
          let perform_dry_run := negb (bool_decide (normalized dry_run_choice = py "n")) in
          first ← RenamePdfs.rename_pdf_files_in_folder fs folder perform_dry_run;
          if perform_dry_run then
            match answers with
            | [] => Some (Session (Fs.files first) [(true, first)] None InputEnded)
            | final_action :: _ =>
                if bool_decide (normalized final_action = py "y") then
                  second ← RenamePdfs.rename_pdf_files_in_folder (Fs.files first) folder false;
                  Some (Session (Fs.files second) [(true, first); (false, second)]
                                None Finished)
                else Some (Session (Fs.files first) [(true, first)] None Finished)
            end
          else Some (Session (Fs.files first) [(false, first)] None Finished)
      end
  end.

(** The end of the [__main__] block of renamepdf.py: the question about
    moving, asked only when [actually_renamed] is set. *)
Definition offer_move (answers : list str) (folder : str) (fs : gmap str Fs.node)
    (done : list (bool * Fs.run)) : option session :=
  match answers with
  | [] => Some (Session fs done None InputEnded)
  | move_choice :: answers =>
      if bool_decide (normalized move_choice = py "y") then
        match answers with
        | [] => Some (Session fs done None InputEnded)
        | destination_line :: _ =>
            let destination := strip is_space destination_line in
            result ← RenamePdfMove.move_pdfs_to_folder fs folder destination;
            match result with
            | RenamePdfMove.Moved st =>
                Some (Session (RenamePdfMove.entries st) done (Some result) Finished)
            | RenamePdfMove.CreationFailed fs' =>
                Some (Session fs' done (Some result) Finished)
            | RenamePdfMove.ListingRaised fs' =>
                Some (Session fs' done (Some result) ListingRaised)
            end
        end
      else Some (Session fs done None Finished)
  end.

(** The [__main__] block of renamepdf.py. *)
Definition renamepdf_main (client : option RenamePdf.service) (answers : list str)
    (fs : gmap str Fs.node) : option session :=
  match answers with
  | [] => Some (Session fs [] None InputEnded)
  | folder_line :: answers =>
      let folder := strip is_space folder_line in
      match answers with
      | [] => Some (Session fs [] None InputEnded)
      | dry_run_choice :: answers =>
          let perform_dry_run := negb (bool_decide (normalized dry_run_choice = py "n")) in
          first ← RenamePdf.rename_pdfs_in_folder client fs folder perform_dry_run;
          if perform_dry_run then
            match answers with
            | [] => Some (Session (Fs.files first) [(true, first)] None InputEnded)
            | final_action :: answers =>
                if bool_decide (normalized final_action = py "y") then
                  second ← RenamePdf.rename_pdfs_in_folder client (Fs.files first) folder false;
                  offer_move answers folder (Fs.files second)
                             [(true, first); (false, second)]
                else Some (Session (Fs.files first) [(true, first)] None Finished)
            end
          else offer_move answers folder (Fs.files first) [(false, first)]
      end
  end.

End Scripts.

(** ** What one turn of the rename loops may do

    [file_step folder filename st st1]: an entry that is not a PDF name
    leaves the state alone; a PDF name is counted once as found and once
    as renamed or skipped, prints one message, and either leaves the file
    system alone or moves the readable file of that name to a path that
    was no entry. *)
Definition file_step (folder_path filename : str) (st st1 : Fs.run) : Prop :=
  if Fs.is_pdf filename then
    Fs.pdf_files_found st1 = S (Fs.pdf_files_found st) /\
    Fs.renamed_count st1 + Fs.skipped_count st1
      = S (Fs.renamed_count st + Fs.skipped_count st) /\
    length (Fs.printed st1) = S (length (Fs.printed st)) /\
    (Fs.files st1 = Fs.files st \/
     exists new_file_path pages,
       Fs.files st !! Fs.path_join folder_path filename = Some (Fs.File (Some pages)) /\
       Fs.files st !! new_file_path = None /\
       Fs.files st1 = <[new_file_path := Fs.File (Some pages)]>
                        (delete (Fs.path_join folder_path filename) (Fs.files st)))
  else st1 = st.

Inductive file_steps (folder_path : str) : list str -> Fs.run -> Fs.run -> Prop :=
| steps_done st : file_steps folder_path [] st st
| steps_next filename listing st st1 st2 :
    file_step folder_path filename st st1 ->
    file_steps folder_path listing st1 st2 ->
    file_steps folder_path (filename :: listing) st st2.

(** The number of PDF names in a listing. *)
Definition count_pdf (listing : list str) : nat :=
  length (filter (fun filename => Fs.is_pdf filename = true) listing).

(** ** What creating a folder may do

    One file system holds all of another, and nothing more than new
    directories. *)
Definition grown (fs fs1 : gmap str Fs.node) : Prop :=
  (forall q n, fs !! q = Some n -> fs1 !! q = Some n) /\
  (forall q n, fs1 !! q = Some n -> fs !! q = Some n \/ n = Fs.Dir).

(** * Sample inputs *)

(** A name of 201 characters: 199 letters, a space and a letter. *)
Definition long_name : str := repeat "a"%char 199 ++ py " b".

(** A document whose identifier fills the first 199 characters of the
    derived name, so that the joining underscore is the 200th. *)
Definition long_invoice_text : str :=
  py "Invoice #" ++ repeat "A"%char 191 ++ py " 2023-01-02".

(** A folder with one scanned document whose only text is a rule of
    underscores. *)
Definition ruled_fs : gmap str Fs.node :=
  <[py "/docs" := Fs.Dir]>
    (<[py "/docs/scan.pdf" := Fs.File (Some [py "____"])]> ∅).

(** A folder with two documents, a file that already has the name the
    service suggests, and a page-less file. *)
Definition reports_fs : gmap str Fs.node :=
  <[py "/docs" := Fs.Dir]>
    (<[py "/docs/a.pdf" := Fs.File (Some [py "first report"])]>
       (<[py "/docs/b.pdf" := Fs.File (Some [py "second report"])]>
          (<[py "/docs/Report.pdf" := Fs.File (Some [py "old report"])]>
             (<[py "/docs/empty.pdf" := Fs.File (Some [[]; []])]> ∅)))).

(** The twelve months by number, with the names as documents spell
    them. *)
Definition calendar : list (nat * str) :=
  [(1, py "January"); (2, py "February"); (3, py "March"); (4, py "April");
   (5, py "May"); (6, py "June"); (7, py "July"); (8, py "August");
   (9, py "September"); (10, py "October"); (11, py "November");
   (12, py "December")].

(** The date loop on a sentence with a date in the form Month DD, YYYY
    gives the same date in the form YYYY-MM-DD. *)
Definition long_date_normalized (y : nat) (entry : nat * str) (d : nat) : bool :=
  bool_decide
    (RenamePdfs.find_date RenamePdfs.date_patterns
       (py "Signed on " ++ snd entry ++ py " " ++ decimal d ++ py ", " ++ decimal y) None
     = Some (decimal y ++ py "-" ++ Datetime.zero_pad 2 (fst entry)
               ++ py "-" ++ Datetime.zero_pad 2 d)).

(** A folder with two documents and nothing else. *)
Definition pair_fs : gmap str Fs.node :=
  <[py "/docs" := Fs.Dir]>
    (<[py "/docs/a.pdf" := Fs.File (Some [py "first report"])]>
       (<[py "/docs/b.pdf" := Fs.File (Some [py "second report"])]> ∅)).

(** A service that calls every document Report, and one that answers
    with a hyphenated title. *)
Definition report_service : RenamePdf.service := fun _ => Some (py " Report ").
Definition hyphen_service : RenamePdf.service := fun _ => Some (py "Q3-Report").

(** A folder whose two documents have the same text, and a folder whose
    document already carries the name derived from its text. *)
Definition twin_fs : gmap str Fs.node :=
  <[py "/docs" := Fs.Dir]>
    (<[py "/docs/a.pdf" := Fs.File (Some [py "Quarterly Report"])]>
       (<[py "/docs/b.pdf" := Fs.File (Some [py "Quarterly Report"])]> ∅)).

Definition named_fs : gmap str Fs.node :=
  <[py "/docs" := Fs.Dir]>
    (<[py "/docs/Quarterly_Report.pdf" := Fs.File (Some [py "Quarterly Report"])]> ∅).

(** A source folder with three PDF files (one of them a dot file, one
    with an upper-case extension) and a destination that already holds
    a file of the first name. *)
Definition move_fs : gmap str Fs.node :=
  <[py "/docs" := Fs.Dir]>
    (<[py "/docs/a.pdf" := Fs.File (Some [py "x"])]>
       (<[py "/docs/.pdf" := Fs.File None]>
          (<[py "/docs/b.PDF" := Fs.File (Some [])]>
             (<[py "/out" := Fs.Dir]>
                (<[py "/out/a.pdf" := Fs.File None]> ∅))))).

(** * Checks on concrete inputs *)

Example sanitize_ex1 :
  sanitize_filename (py "  __a//b::c__ ") = py "a_b_c".
Proof. vm_compute. reflexivity. Qed.

Example strptime_ex1 :
  Datetime.strptime (py "2023-01-02") Datetime.fmt_Ymd = Some (Datetime.Date 2023 1 2).
Proof. vm_compute. reflexivity. Qed.

Example strptime_ex2 :
  Datetime.strptime (py "March 3, 2024") Datetime.fmt_BdY = Some (Datetime.Date 2024 3 3).
Proof. vm_compute. reflexivity. Qed.

Example strptime_ex3 : Datetime.strptime (py "2023-02-30") Datetime.fmt_Ymd = None.
Proof. vm_compute. reflexivity. Qed.

Example strptime_ex4 :
  Datetime.strptime (py "13-01-2024") Datetime.fmt_mdY = None /\
  Datetime.strptime (py "13-01-2024") Datetime.fmt_dmY = Some (Datetime.Date 2024 1 13).
Proof. vm_compute. split; reflexivity. Qed.

Example strftime_ex1 : Datetime.strftime_Ymd (Datetime.Date 2024 3 3) = py "2024-03-03".
Proof. vm_compute. reflexivity. Qed.

Example generate_ex1 :
  RenamePdfs.generate_new_name_from_content (py "Invoice #A1234 dated 2023-01-02")
  = Some (py "Invoice-A1234_2023-01-02").
Proof. vm_compute. reflexivity. Qed.

Example generate_ex2 :
  RenamePdfs.generate_new_name_from_content (py "Signed on March 3, 2024")
  = Some (py "2024-03-03").
Proof. vm_compute. reflexivity. Qed.

Example generate_ex3 :
  RenamePdfs.generate_new_name_from_content (py "Invoice due 2023-11-05")
  = Some (py "2023-11-05").
Proof. vm_compute. reflexivity. Qed.

Example generate_ex4 :
  RenamePdfs.generate_new_name_from_content (py "____") = Some [].
Proof. vm_compute. reflexivity. Qed.

Example generate_ex5 :
  RenamePdfs.generate_new_name_from_content (py "Quarterly report: Q3/2024 results")
  = Some (py "Quarterly_report_Q3_2024_results").
Proof. vm_compute. reflexivity. Qed.

Example generate_ex6 :
  RenamePdfs.generate_new_name_from_content
    (py "1999-12-31 Invoice #A1234 dated 2023-01-02")
  = Some (py "Invoice-A1234_1999-12-31").
Proof. vm_compute. reflexivity. Qed.

Example generate_ex7 :
  RenamePdfs.generate_new_name_from_content (py "PO: 2024 paid 13/01/2024 Mar 3, 2024")
  = Some (py "13-01-2024").
Proof. vm_compute. reflexivity. Qed.

Example splitlines_ex1 :
  RenamePdf.splitlines (py "a" ++ ["013"; "010"]%char ++ py "b" ++ ["010"; "010"]%char ++ py "c" ++ ["010"]%char)
  = [py "a"; py "b"; []; py "c"].
Proof. vm_compute. reflexivity. Qed.

Example get_last_line_ex1 :
  RenamePdf.get_last_line (py "Title" ++ ["010"]%char ++ py "  Page 3 of 7  " ++ ["010"; "010"]%char)
  = Some (py "Page 3 of 7").
Proof. vm_compute. reflexivity. Qed.

Example is_valid_ex1 :
  RenamePdf.is_valid_filename (py "Acme Corp Bridge_2") = true /\
  RenamePdf.is_valid_filename (py "Acme-Corp") = false /\
  RenamePdf.is_valid_filename [] = false.
Proof. vm_compute. repeat split; reflexivity. Qed.

Example run_ex1 :
  (fun st => (Fs.printed st, Fs.pdf_files_found st, Fs.renamed_count st, Fs.skipped_count st))
    <$> RenamePdf.process_files (Some report_service) (py "/docs") false
          [py "a.pdf"; py "b.pdf"; py "Report.pdf"; py "empty.pdf"; py "notes.txt"]
          (Fs.start reports_fs)
  = Some ([Fs.SkippedNoText (py "empty.pdf"); Fs.AlreadyNamed (py "Report.pdf");
           Fs.Renamed (py "b.pdf") (py "Report_2.pdf");
           Fs.Renamed (py "a.pdf") (py "Report_1.pdf")], 4, 2, 2).
Proof. vm_compute. reflexivity. Qed.

Example run_ex2 :
  (fun st => (Fs.files st !! py "/docs/a.pdf", Fs.files st !! py "/docs/b.pdf",
              Fs.files st !! py "/docs/Report.pdf",
              Fs.files st !! py "/docs/Report_1.pdf",
              Fs.files st !! py "/docs/Report_2.pdf", size (Fs.files st)))
    <$> RenamePdf.process_files (Some report_service) (py "/docs") false
          [py "a.pdf"; py "b.pdf"] (Fs.start reports_fs)
  = Some (None, None,
          Some (Fs.File (Some [py "old report"])),
          Some (Fs.File (Some [py "first report"])),
          Some (Fs.File (Some [py "second report"])), 5).
Proof. vm_compute. reflexivity. Qed.

Example run_ex3 :
  (fun st => (Fs.printed st, Fs.files st !! py "/docs/Report.pdf",
              Fs.files st !! py "/docs/Report_1.pdf", size (Fs.files st)))
    <$> RenamePdf.process_files (Some report_service) (py "/docs") false
          [py "a.pdf"; py "b.pdf"] (Fs.start pair_fs)
  = Some ([Fs.Renamed (py "b.pdf") (py "Report_1.pdf");
           Fs.Renamed (py "a.pdf") (py "Report.pdf")],
          Some (Fs.File (Some [py "first report"])),
          Some (Fs.File (Some [py "second report"])), 3).
Proof. vm_compute. reflexivity. Qed.

Example generate_long_ex :
  RenamePdfs.generate_new_name_from_content long_invoice_text
  = Some (py "Invoice-" ++ repeat "A"%char 191 ++ py "_").
Proof. vm_compute. reflexivity. Qed.

(** * Properties *)

(** ** Lemmas on the string primitives *)

Lemma is_char_true a c : is_char a c = true <-> a = c.
Proof. unfold is_char. apply Ascii.eqb_eq. Qed.

Lemma is_char_refl a : is_char a a = true.
Proof. apply is_char_true. reflexivity. Qed.

Lemma lstrip_suffix p s : exists pre, s = pre ++ lstrip p s /\ forallb p pre = true.
Proof.
  induction s as [|c s IH]; simpl.
  - exists []. split; reflexivity.
  - destruct (p c) eqn:Hc.
    + destruct IH as (pre & Hs & Hp). exists (c :: pre). simpl.
      rewrite Hc, Hp. split; [congruence | reflexivity].
    + exists []. split; reflexivity.
Qed.

Lemma lstrip_head p s c t : lstrip p s = c :: t -> p c = false.
Proof.
  induction s as [|d s IH]; simpl; [discriminate|].
  destruct (p d) eqn:Hd; [exact IH|]. intros [= -> _]. exact Hd.
Qed.

Lemma lstrip_id p s :
  match s with c :: _ => p c = false | [] => True end -> lstrip p s = s.
Proof. destruct s as [|c s]; simpl; [reflexivity|]. intros ->. reflexivity. Qed.

Lemma lstrip_all p s : forallb p s = true -> lstrip p s = [].
Proof.
  induction s as [|c s IH]; simpl; [reflexivity|].
  destruct (p c); simpl; [exact IH | discriminate].
Qed.

Lemma lstrip_nil_all p s : lstrip p s = [] -> forallb p s = true.
Proof.
  induction s as [|c s IH]; simpl; [reflexivity|].
  destruct (p c); simpl; [exact IH | discriminate].
Qed.

Lemma rstrip_prefix p s : exists suf, s = rstrip p s ++ suf /\ forallb p suf = true.
Proof.
  unfold rstrip. destruct (lstrip_suffix p (rev s)) as (pre & Hs & Hp).
  exists (rev pre). split.
  - rewrite <- rev_app_distr, <- Hs, rev_involutive. reflexivity.
  - rewrite forallb_forall in *. intros x Hx. apply Hp. apply in_rev. exact Hx.
Qed.

Lemma rstrip_last s : starts_with_sep (rev (rstrip is_sep s)) = false.
Proof.
  unfold rstrip. rewrite rev_involutive.
  destruct (lstrip is_sep (rev s)) as [|c t] eqn:E; [reflexivity|].
  simpl. eapply lstrip_head. exact E.
Qed.

Lemma rstrip_id p s :
  match rev s with c :: _ => p c = false | [] => True end -> rstrip p s = s.
Proof. intros H. unfold rstrip. rewrite lstrip_id by exact H. apply rev_involutive. Qed.

Lemma rstrip_keeps_head p s c :
  rstrip p (c :: s) = [] \/ exists t', rstrip p (c :: s) = c :: t'.
Proof.
  destruct (rstrip_prefix p (c :: s)) as (suf & Hs & _).
  destruct (rstrip p (c :: s)) as [|d t'] eqn:E; [left; reflexivity|].
  right. exists t'. simpl in Hs. congruence.
Qed.

Lemma strip_sublist p s : exists pre suf, s = pre ++ strip p s ++ suf.
Proof.
  unfold strip. destruct (lstrip_suffix p s) as (pre & Hs & _).
  destruct (rstrip_prefix p (lstrip p s)) as (suf & Ht & _).
  exists pre, suf. rewrite <- Ht. exact Hs.
Qed.

Lemma strip_no_leading s : starts_with_sep (strip is_sep s) = false.
Proof.
  unfold strip. destruct (lstrip is_sep s) as [|c t] eqn:E; [reflexivity|].
  destruct (rstrip_keeps_head is_sep t c) as [-> | (t' & ->)]; [reflexivity|].
  simpl. eapply lstrip_head. exact E.
Qed.

Lemma strip_no_trailing s : ends_with_sep (strip is_sep s) = false.
Proof. unfold strip, ends_with_sep. apply rstrip_last. Qed.

Lemma strip_id s :
  starts_with_sep s = false -> ends_with_sep s = false -> strip is_sep s = s.
Proof.
  intros H1 H2. unfold strip. rewrite lstrip_id.
  - apply rstrip_id. unfold ends_with_sep, starts_with_sep in H2.
    destruct (rev s); [exact I | exact H2].
  - destruct s; [exact I | exact H1].
Qed.

(** ** The two substitutions of the sanitizer, in closed form *)

Lemma run_le p s : run p s <= length s.
Proof. induction s as [|c s IH]; simpl; [lia|]. destruct (p c); simpl; lia. Qed.

(** An unbounded greedy repetition followed by nothing that can fail
    takes the whole leading run. *)
Lemma rep_unbounded_total {R} p lo prev pos rest (f : nat -> str -> R) :
  Re.rep p lo None prev pos rest (fun _ n r => Some (f n r)) =
  if lo <=? run p rest
  then Some (f (pos + run p rest) (drop (run p rest) rest)) else None.
Proof.
  revert lo prev pos. induction rest as [|c rest IH]; intros lo prev pos; simpl.
  - destruct lo; [rewrite Nat.add_0_r|]; reflexivity.
  - destruct (p c) eqn:Hc; simpl.
    + rewrite IH. replace (S pos + run p rest) with (pos + S (run p rest)) by lia.
      destruct lo as [|lo]; simpl; [reflexivity|].
      destruct (Nat.leb_spec lo (run p rest)) as [E|E]; reflexivity.
    + destruct lo; [rewrite Nat.add_0_r|]; reflexivity.
Qed.

Lemma sub_invalid_spec s : Re.sub re_invalid (py "_") s = replace_invalid s.
Proof.
  unfold Re.sub. generalize (@None ascii) as prev.
  induction s as [|c s IH]; intros prev; [reflexivity|].
  cbn [Re.sub_from]. unfold Re.match_here, re_invalid, replace_invalid.
  cbn [Re.exec map]. fold (replace_invalid s).
  destruct (one_of invalid_chars c) eqn:Hc.
  - cbn [fmap option_fmap option_map Re.width Re.mk_match].
    rewrite IH. reflexivity.
  - cbn [fmap option_fmap option_map]. rewrite IH. reflexivity.
Qed.

Lemma match_underscores prev c s :
  Re.width <$> Re.match_here re_underscores prev (c :: s) =
  if is_char "_" c && (1 <=? run (is_char "_") s)
  then Some (S (run (is_char "_") s)) else None.
Proof.
  unfold Re.match_here, re_underscores, Re.Plus. cbn [Re.exec].
  destruct (is_char "_" c); [|reflexivity].
  rewrite (rep_unbounded_total (is_char "_") 1 (Some c) 1 s
             (fun n r => Re.mk_match (c :: s) n r [])).
  rewrite andb_true_l. destruct (1 <=? run (is_char "_") s); reflexivity.
Qed.

Lemma sub_from_underscores s :
  (forall prev, Re.sub_from re_underscores (py "_") 0 prev s = squeeze false s) /\
  (forall prev, Re.sub_from re_underscores (py "_") (run (is_char "_") s) prev s
                = squeeze true s).
Proof.
  induction s as [|c s [IH0 IHrun]]; [split; reflexivity|].
  assert (H0 : forall prev,
    Re.sub_from re_underscores (py "_") 0 prev (c :: s) = squeeze false (c :: s)).
  { intros prev. cbn [Re.sub_from]. rewrite match_underscores. cbn [squeeze].
    destruct (is_char "_" c) eqn:Hc; cbn [andb].
    - apply is_char_true in Hc. subst c.
      destruct (run (is_char "_") s) as [|n] eqn:Hn; cbn [Nat.leb].
      + cbn [app py list_ascii_of_string]. rewrite IHrun. reflexivity.
      + cbn [app py list_ascii_of_string]. rewrite IHrun. reflexivity.
    - rewrite IH0. reflexivity. }
  split; [exact H0|].
  intros prev. cbn [run squeeze]. destruct (is_char "_" c) eqn:Hc.
  - cbn [Re.sub_from]. apply IHrun.
  - rewrite H0. cbn [squeeze]. rewrite Hc. reflexivity.
Qed.

Lemma sub_underscores_spec s : Re.sub re_underscores (py "_") s = squeeze false s.
Proof. apply sub_from_underscores. Qed.

(** The sanitizer with the substitutions in closed form. *)
Lemma sanitize_filename_unfold name :
  sanitize_filename name =
  let t := strip is_sep (squeeze false (replace_invalid name)) in
  if 200 <? length t then take 200 t else t.
Proof.
  unfold sanitize_filename. rewrite sub_invalid_spec, sub_underscores_spec.
  reflexivity.
Qed.

(** ** What the sanitizer guarantees *)

Lemma existsb_false_app {A} (p : A -> bool) (l1 l2 : list A) :
  existsb p (l1 ++ l2) = false <-> existsb p l1 = false /\ existsb p l2 = false.
Proof. rewrite existsb_app. apply orb_false_iff. Qed.

Lemma replace_invalid_clean s : has_invalid_char (replace_invalid s) = false.
Proof.
  unfold has_invalid_char, replace_invalid.
  induction s as [|c s IH]; [reflexivity|]. cbn [map existsb]. rewrite IH.
  destruct (one_of invalid_chars c) eqn:Hc; [reflexivity|]. rewrite Hc. reflexivity.
Qed.

Lemma replace_invalid_id s : has_invalid_char s = false -> replace_invalid s = s.
Proof.
  unfold has_invalid_char, replace_invalid.
  induction s as [|c s IH]; [reflexivity|]. cbn [map existsb].
  intros [Hc Hs]%orb_false_iff. rewrite Hc, IH by exact Hs. reflexivity.
Qed.

Lemma squeeze_existsb p b s : existsb p s = false -> existsb p (squeeze b s) = false.
Proof.
  revert b. induction s as [|c s IH]; intros b; [reflexivity|]. cbn [squeeze existsb].
  intros [Hc Hs]%orb_false_iff.
  destruct (is_char "_" c), b; cbn [existsb]; rewrite ?Hc; cbn [orb]; auto.
Qed.

Lemma squeeze_no_double b s :
  has_double_underscore (squeeze b s) = false /\
  (b = true -> match squeeze b s with c :: _ => is_char "_" c = false | [] => True end).
Proof.
  revert b. induction s as [|c s IH]; intros b; [split; [reflexivity | intros; exact I]|].
  cbn [squeeze]. destruct (is_char "_" c) eqn:Hc.
  - destruct (IH true) as [Hd Hh]. specialize (Hh eq_refl).
    destruct b; [split; [exact Hd | intros _; exact Hh]|].
    split; [|discriminate]. cbn [has_double_underscore]. rewrite Hd, Hc.
    destruct (squeeze true s) as [|d t]; [reflexivity|]. rewrite Hh. reflexivity.
  - destruct (IH false) as [Hd _]. split; [|intros _; exact Hc].
    cbn [has_double_underscore]. rewrite Hd, Hc. reflexivity.
Qed.

Lemma squeeze_id s : has_double_underscore s = false -> squeeze false s = s.
Proof.
  induction s as [|c s IH]; [reflexivity|]. cbn [squeeze has_double_underscore].
  intros [Hc Hs]%orb_false_iff. destruct (is_char "_" c) eqn:E.
  - f_equal. destruct s as [|d t]; [reflexivity|]. cbn [andb] in Hc.
    cbn [squeeze]. rewrite Hc. f_equal.
    specialize (IH Hs). cbn [squeeze] in IH. rewrite Hc in IH. congruence.
  - f_equal. exact (IH Hs).
Qed.

Lemma has_double_app s t :
  has_double_underscore (s ++ t) = false ->
  has_double_underscore s = false /\ has_double_underscore t = false.
Proof.
  induction s as [|c s IH]; [intros H; split; [reflexivity | exact H]|].
  cbn [app has_double_underscore]. intros [Hc Hs]%orb_false_iff.
  destruct (IH Hs) as [H1 H2]. split; [|exact H2]. rewrite H1, orb_false_r.
  destruct (is_char "_" c); [|reflexivity]. cbn [andb] in *.
  destruct s as [|d s']; [reflexivity | exact Hc].
Qed.

Lemma has_double_take n s :
  has_double_underscore s = false -> has_double_underscore (take n s) = false.
Proof. intros H. rewrite <- (take_drop n s) in H. apply has_double_app in H. tauto. Qed.

Lemma starts_with_sep_take n s :
  starts_with_sep s = false -> starts_with_sep (take n s) = false.
Proof. destruct s, n; simpl; auto. Qed.

Lemma trimmed_clean name :
  has_invalid_char (trimmed name) = false /\
  has_double_underscore (trimmed name) = false /\
  starts_with_sep (trimmed name) = false /\
  ends_with_sep (trimmed name) = false.
Proof.
  unfold trimmed.
  destruct (strip_sublist is_sep (squeeze false (replace_invalid name)))
    as (pre & suf & E).
  pose proof (squeeze_existsb (one_of invalid_chars) false _
                (replace_invalid_clean name)) as Hi.
  pose proof (proj1 (squeeze_no_double false (replace_invalid name))) as Hd.
  rewrite E in Hi, Hd.
  apply existsb_false_app in Hi as [_ Hi]. apply existsb_false_app in Hi as [Hi _].
  apply has_double_app in Hd as [_ Hd]. apply has_double_app in Hd as [Hd _].
  repeat split; auto using strip_no_leading, strip_no_trailing.
Qed.

Lemma squeeze_length b s : length (squeeze b s) <= length s.
Proof.
  revert b. induction s as [|c s IH]; intros b; [reflexivity|].
  cbn [squeeze]. pose proof (IH true). pose proof (IH false).
  destruct (is_char "_" c), b; cbn [length]; lia.
Qed.

Lemma trimmed_length name : length (trimmed name) <= length name.
Proof.
  unfold trimmed.
  destruct (strip_sublist is_sep (squeeze false (replace_invalid name)))
    as (pre & suf & E).
  pose proof (squeeze_length false (replace_invalid name)) as Hs.
  apply (f_equal length) in E. rewrite !length_app in E.
  unfold replace_invalid in Hs at 2. rewrite length_map in Hs. lia.
Qed.

Lemma sanitize_filename_trimmed name :
  sanitize_filename name = take 200 (trimmed name).
Proof.
  rewrite sanitize_filename_unfold. fold (trimmed name). cbv zeta.
  destruct (Nat.ltb_spec 200 (length (trimmed name))); [reflexivity|].
  symmetry. apply take_ge. lia.
Qed.

Lemma sanitize_no_invalid name : has_invalid_char (sanitize_filename name) = false.
Proof.
  rewrite sanitize_filename_trimmed.
  destruct (trimmed_clean name) as (H & _). unfold has_invalid_char in *.
  rewrite <- (take_drop 200 (trimmed name)) in H.
  apply existsb_false_app in H. tauto.
Qed.

Lemma sanitize_no_double name : has_double_underscore (sanitize_filename name) = false.
Proof.
  rewrite sanitize_filename_trimmed. apply has_double_take, trimmed_clean.
Qed.

Lemma sanitize_no_leading name : starts_with_sep (sanitize_filename name) = false.
Proof.
  rewrite sanitize_filename_trimmed. apply starts_with_sep_take, trimmed_clean.
Qed.

Lemma sanitize_length name : length (sanitize_filename name) <= 200.
Proof. rewrite sanitize_filename_trimmed, length_take. lia. Qed.

Lemma sanitize_no_trailing name :
  length (trimmed name) <= 200 -> ends_with_sep (sanitize_filename name) = false.
Proof.
  intros H. rewrite sanitize_filename_trimmed, take_ge by lia. apply trimmed_clean.
Qed.

(** A name already in sanitized shape is left alone. *)
Lemma sanitize_fixed t :
  has_invalid_char t = false -> has_double_underscore t = false ->
  starts_with_sep t = false -> ends_with_sep t = false -> length t <= 200 ->
  sanitize_filename t = t.
Proof.
  intros Hi Hd Hl Ht Hn. rewrite sanitize_filename_trimmed. unfold trimmed.
  rewrite replace_invalid_id, squeeze_id, strip_id by assumption.
  apply take_ge. lia.
Qed.

(** Sanitizing twice changes the result exactly when the first result
    ends with a space or an underscore. *)
Lemma sanitize_twice name :
  sanitize_filename (sanitize_filename name) = sanitize_filename name <->
  ends_with_sep (sanitize_filename name) = false.
Proof.
  split.
  - intros H. rewrite <- H. apply sanitize_no_trailing.
    etransitivity; [apply trimmed_length | apply sanitize_length].
  - intros H. apply sanitize_fixed;
      auto using sanitize_no_invalid, sanitize_no_double, sanitize_no_leading,
                 sanitize_length.
Qed.

(** ** The collision loop *)

Lemma py_inj s1 s2 : py s1 = py s2 -> s1 = s2.
Proof.
  unfold py. intros H. apply (f_equal string_of_list_ascii) in H.
  rewrite !string_of_list_ascii_of_string in H. exact H.
Qed.

Lemma decimal_inj c1 c2 : decimal c1 = decimal c2 -> c1 = c2.
Proof. unfold decimal. intros H%py_inj. exact (pretty_nat_inj _ _ H). Qed.

Lemma numbered_inj base c1 c2 : Fs.numbered base c1 = Fs.numbered base c2 -> c1 = c2.
Proof.
  unfold Fs.numbered. intros H. apply app_inv_tail in H.
  do 2 apply app_inv_head in H. apply decimal_inj. exact H.
Qed.

(** Joining a folder with a non-empty name puts a prefix before the name
    that depends only on the folder and on the first character. *)
Lemma path_join_prefix a c :
  exists pre, forall b, Fs.path_join a (c :: b) = pre ++ c :: b.
Proof.
  unfold Fs.path_join. destruct (is_char Fs.slash c).
  - exists []. reflexivity.
  - destruct (bool_decide (a = []) || endswith [Fs.slash] a).
    + exists a. reflexivity.
    + exists (a ++ [Fs.slash]). intros b. rewrite <- app_assoc. reflexivity.
Qed.

Lemma numbered_head base : exists c, forall n, exists b, Fs.numbered base n = c :: b.
Proof.
  unfold Fs.numbered. destruct base as [|c base].
  - exists "_"%char. intros n. eexists. reflexivity.
  - exists c. intros n. eexists. reflexivity.
Qed.

Lemma candidate_inj folder base c1 c2 :
  Fs.path_join folder (Fs.numbered base c1) = Fs.path_join folder (Fs.numbered base c2) ->
  c1 = c2.
Proof.
  destruct (numbered_head base) as (c & Hc).
  destruct (path_join_prefix folder c) as (pre & Hpre).
  destruct (Hc c1) as (b1 & E1), (Hc c2) as (b2 & E2).
  rewrite E1, E2, !Hpre, <- E1, <- E2. intros H%app_inv_head.
  eapply numbered_inj. exact H.
Qed.

Lemma exists_dom (fs : gmap str Fs.node) path :
  Fs.exists_ fs path = true <-> path ∈ dom fs.
Proof.
  unfold Fs.exists_. rewrite elem_of_dom.
  destruct (fs !! path) as [n|]; split; intros H.
  - exists n. reflexivity.
  - reflexivity.
  - discriminate.
  - destruct H as [n Hn]. discriminate.
Qed.

(** Among the first [size fs + 1] numbered candidates one is not an
    entry of the file system. *)
Lemma free_candidate (fs : gmap str Fs.node) folder base :
  exists c, 1 <= c <= S (size fs) /\
            Fs.exists_ fs (Fs.path_join folder (Fs.numbered base c)) = false.
Proof.
  set (cand := fun c => Fs.path_join folder (Fs.numbered base c)).
  set (l := seq 1 (S (size fs))).
  destruct (decide (Exists (fun c => Fs.exists_ fs (cand c) = false) l)) as [He|Hn].
  - apply Exists_exists in He as (c & Hin & Hc). exists c. split; [|exact Hc].
    apply elem_of_seq in Hin. lia.
  - exfalso. apply not_Exists_Forall in Hn; [|intros c; apply _].
    assert (Hsub : list_to_set (cand <$> l) ⊆ dom fs).
    { intros p Hp. apply elem_of_list_to_set, list_elem_of_fmap in Hp as (c & -> & Hc).
      rewrite Forall_forall in Hn. specialize (Hn c Hc). cbn in Hn.
      apply exists_dom. destruct (Fs.exists_ fs (cand c)); [reflexivity | contradiction]. }
    apply subseteq_size in Hsub. rewrite size_dom in Hsub.
    rewrite size_list_to_set in Hsub.
    + rewrite length_fmap in Hsub. unfold l in Hsub. rewrite length_seq in Hsub. lia.
    + apply NoDup_fmap_2; [|apply NoDup_seq].
      intros c1 c2 H. eapply candidate_inj. exact H.
Qed.

(** The loop, run with enough fuel to reach a free candidate, stops on
    its current proposal when that is not taken, and otherwise on the
    first numbered candidate from [counter] on that is not taken. *)
Lemma collision_loop_spec fs folder old base fuel counter name path free :
  counter <= free < counter + fuel ->
  Fs.taken fs old (Fs.path_join folder (Fs.numbered base free)) = false ->
  exists name' path',
    Fs.collision_loop fuel fs folder old base counter name path = Some (name', path') /\
    Fs.taken fs old path' = false /\
    ((Fs.taken fs old path = false /\ name' = name /\ path' = path) \/
     (Fs.taken fs old path = true /\
      exists c, counter <= c /\ name' = Fs.numbered base c /\
                path' = Fs.path_join folder name' /\
                forall j, counter <= j < c ->
                          Fs.taken fs old (Fs.path_join folder (Fs.numbered base j)) = true)).
Proof.
  revert counter name path.
  induction fuel as [|fuel IH]; intros counter name path Hrange Hfree; [lia|].
  cbn [Fs.collision_loop].
  destruct (Fs.taken fs old path) eqn:Hp.
  - destruct (decide (counter = free)) as [->|Hne].
    + eexists _, _. split.
      { destruct fuel; cbn [Fs.collision_loop]; rewrite Hfree; reflexivity. }
      split; [exact Hfree|]. right. split; [reflexivity|].
      exists free. repeat split; [lia | intros j Hj; lia].
    + destruct (IH (S counter) (Fs.numbered base counter)
                   (Fs.path_join folder (Fs.numbered base counter)))
        as (name' & path' & Hrun & Hfree' & Hshape); [lia | exact Hfree |].
      exists name', path'. split; [exact Hrun|]. split; [exact Hfree'|].
      right. split; [reflexivity|].
      destruct Hshape as [(Hc & -> & ->) | (Hc & c & Hle & -> & -> & Hall)].
      * exists counter. repeat split; [lia | intros j Hj; lia].
      * exists c. repeat split; [lia|].
        intros j Hj. destruct (decide (j = counter)) as [->|]; [exact Hc|].
        apply Hall. lia.
  - eexists _, _. split; [reflexivity|]. split; [exact Hp|].
    left. repeat split.
Qed.

Lemma taken_false fs old path :
  Fs.taken fs old path = false <-> path = old \/ Fs.exists_ fs path = false.
Proof.
  unfold Fs.taken. destruct (Fs.exists_ fs path); cbn [andb].
  - rewrite negb_false_iff, bool_decide_eq_true. split; [auto|].
    intros [H|H]; [exact H | discriminate].
  - split; auto.
Qed.

(** The plan of a file always exists: the loop ends within its fuel. *)
Lemma resolve_collisions_spec fs folder old base :
  exists name path,
    Fs.resolve_collisions fs folder old base = Some (name, path) /\
    path = Fs.path_join folder name /\
    Fs.taken fs old path = false /\
    ((Fs.taken fs old (Fs.path_join folder (base ++ py ".pdf")) = false /\
      name = base ++ py ".pdf") \/
     (Fs.taken fs old (Fs.path_join folder (base ++ py ".pdf")) = true /\
      exists c, 1 <= c /\ name = Fs.numbered base c /\
                forall j, 1 <= j < c ->
                          Fs.taken fs old (Fs.path_join folder (Fs.numbered base j)) = true)).
Proof.
  destruct (free_candidate fs folder base) as (c & Hc & Hfree).
  destruct (collision_loop_spec fs folder old base (S (size fs)) 1
              (base ++ py ".pdf") (Fs.path_join folder (base ++ py ".pdf")) c)
    as (name & path & Hrun & Hfree' & Hshape); [lia | |].
  { apply taken_false. right. exact Hfree. }
  exists name, path. split; [exact Hrun|].
  destruct Hshape as [(H0 & -> & ->) | (H0 & c' & Hle & -> & -> & Hall)].
  - split; [reflexivity|]. split; [exact Hfree'|]. left. split; [exact H0 | reflexivity].
  - split; [reflexivity|]. split; [exact Hfree'|]. right. split; [exact H0|].
    exists c'. repeat split; [exact Hle | exact Hall].
Qed.

(** Renaming onto a path that is not an entry keeps every other entry. *)
Lemma rename_keeps_others fs old new fs' :
  Fs.exists_ fs new = false -> Fs.rename fs old new = Some fs' ->
  size fs' = size fs /\
  forall q n, q <> old -> fs !! q = Some n -> fs' !! q = Some n.
Proof.
  unfold Fs.exists_, Fs.rename. intros Hnew.
  destruct (fs !! old) as [[|pages]|] eqn:Hold; try discriminate.
  destruct (fs !! new) as [n|] eqn:Hn; [discriminate|]. intros [= <-].
  split.
  - rewrite map_size_insert_None by (rewrite lookup_delete_ne; congruence).
    rewrite map_size_delete_Some by eauto.
    assert (size fs <> 0) by (apply map_size_ne_0_lookup_2 with old; eauto). lia.
  - intros q n Hq Hl. rewrite lookup_insert_ne by congruence.
    rewrite lookup_delete_ne by congruence. exact Hl.
Qed.

(** ** Whole runs *)

Lemma finish_file_dry filename old plan st :
  Fs.files (Fs.finish_file true filename old plan st) = Fs.files st.
Proof.
  unfold Fs.finish_file. destruct plan as [name path].
  destruct (bool_decide (path = old)); reflexivity.
Qed.

Lemma finish_file_size dry_run filename old name path st :
  Fs.taken (Fs.files st) old path = false ->
  size (Fs.files (Fs.finish_file dry_run filename old (name, path) st))
  = size (Fs.files st).
Proof.
  intros Hfree. unfold Fs.finish_file.
  destruct (bool_decide (path = old)) eqn:Hp; [reflexivity|].
  destruct dry_run; [reflexivity|].
  destruct (Fs.rename (Fs.files st) old path) as [fs'|] eqn:Hren; [|reflexivity].
  apply taken_false in Hfree as [->|Hfree].
  - apply bool_decide_eq_false in Hp. contradiction.
  - cbn. eapply rename_keeps_others; eassumption.
Qed.

Ltac same_files := eexists; split; [reflexivity | split; reflexivity].

Lemma keeps_refl dry_run st : keeps dry_run st st.
Proof. split; reflexivity. Qed.

Lemma keeps_trans dry_run st1 st2 st3 :
  keeps dry_run st1 st2 -> keeps dry_run st2 st3 -> keeps dry_run st1 st3.
Proof.
  intros [H1 H2] [H3 H4]. split; [congruence|].
  intros H. rewrite H4, H2 by exact H. reflexivity.
Qed.

Lemma keeps_plan dry_run fs folder filename old base st :
  Fs.files st = fs ->
  exists st',
    (plan ← Fs.resolve_collisions fs folder old base;
     Some (Fs.finish_file dry_run filename old plan st)) = Some st' /\
    keeps dry_run st st'.
Proof.
  intros <-.
  destruct (resolve_collisions_spec (Fs.files st) folder old base)
    as (name & path & -> & _ & Hfree & _).
  eexists. split; [reflexivity|]. split.
  - apply finish_file_size. exact Hfree.
  - intros ->. apply finish_file_dry.
Qed.

Lemma pattern_process_file_keeps folder dry_run filename st :
  exists st', RenamePdfs.process_file folder dry_run filename st = Some st' /\
              keeps dry_run st st'.
Proof.
  unfold RenamePdfs.process_file.
  destruct (Fs.is_pdf filename); [|same_files].
  cbv zeta.
  destruct (RenamePdfs.extract_text_from_pdf _ _) as [text|];
    [|same_files].
  destruct (RenamePdfs.generate_new_name_from_content text) as [base|];
    [|same_files].
  destruct (keeps_plan dry_run (Fs.files (Fs.found st)) folder filename
              (Fs.path_join folder filename) base (Fs.found st) eq_refl)
    as (st' & Hrun & Hk).
  exists st'. split; [exact Hrun | exact Hk].
Qed.

Lemma service_process_file_keeps client folder dry_run filename st :
  exists st', RenamePdf.process_file client folder dry_run filename st = Some st' /\
              keeps dry_run st st'.
Proof.
  unfold RenamePdf.process_file.
  destruct (Fs.is_pdf filename); [|same_files].
  cbv zeta.
  destruct (RenamePdf.extract_text_from_pdf _ _) as [[|c text]|];
    try same_files.
  destruct (RenamePdf.get_title_via_chatgpt client (c :: text)) as [[|d title]|];
    try same_files.
  destruct (RenamePdf.is_valid_filename (d :: title)); cbn [negb];
    [|same_files].
  destruct (keeps_plan dry_run (Fs.files (Fs.found st)) folder filename
              (Fs.path_join folder filename) (d :: title) (Fs.found st) eq_refl)
    as (st' & Hrun & Hk).
  exists st'. split; [exact Hrun | exact Hk].
Qed.

Lemma pattern_process_files_keeps folder dry_run listing st :
  exists st', RenamePdfs.process_files folder dry_run listing st = Some st' /\
              keeps dry_run st st'.
Proof.
  revert st. induction listing as [|filename listing IH]; intros st.
  - exists st. split; [reflexivity | apply keeps_refl].
  - cbn [RenamePdfs.process_files].
    destruct (pattern_process_file_keeps folder dry_run filename st) as (st1 & -> & H1).
    destruct (IH st1) as (st2 & H & H2). exists st2. split; [exact H|].
    eapply keeps_trans; eassumption.
Qed.

Lemma service_process_files_keeps client folder dry_run listing st :
  exists st', RenamePdf.process_files client folder dry_run listing st = Some st' /\
              keeps dry_run st st'.
Proof.
  revert st. induction listing as [|filename listing IH]; intros st.
  - exists st. split; [reflexivity | apply keeps_refl].
  - cbn [RenamePdf.process_files].
    destruct (service_process_file_keeps client folder dry_run filename st)
      as (st1 & -> & H1).
    destruct (IH st1) as (st2 & H & H2). exists st2. split; [exact H|].
    eapply keeps_trans; eassumption.
Qed.

(** Every run ends, and no run, dry or live, loses an entry of the file
    system: a rename never lands on an existing file. *)
Lemma runs_keep_entry_count client fs folder dry_run :
  (exists st, RenamePdfs.rename_pdf_files_in_folder fs folder dry_run = Some st /\
              size (Fs.files st) = size fs) /\
  (exists st, RenamePdf.rename_pdfs_in_folder client fs folder dry_run = Some st /\
              size (Fs.files st) = size fs).
Proof.
  unfold RenamePdfs.rename_pdf_files_in_folder, RenamePdf.rename_pdfs_in_folder.
  destruct (Fs.isdir fs folder).
  - split.
    + destruct (pattern_process_files_keeps folder dry_run
                  (Fs.listdir fs folder) (Fs.start fs)) as (st & H & Hk & _).
      exists st. split; [exact H | exact Hk].
    + destruct (service_process_files_keeps client folder dry_run
                  (Fs.listdir fs folder) (Fs.start fs)) as (st & H & Hk & _).
      exists st. split; [exact H | exact Hk].
  - split; exists (Fs.start fs); split; reflexivity.
Qed.

(** *** C1 *)

(** C1. For every base name and every file system, the collision loop
    ends and yields a path that is the original path or is not an entry
    of the file system.  The first proposal (base plus extension) is kept
    when it is not taken; otherwise the result is the base with the
    suffix [_c] for the least [c >= 1] whose path is not taken, all
    smaller suffixes being taken.  A rename onto the resulting path
    leaves every other entry of the file system in place, and a whole
    run of either script, dry or live, ends with as many entries as it
    started with: no rename lands on an existing file. *)
Theorem collision_loop_yields_free_path
    (fs : gmap str Fs.node) (folder_path old_file_path base : str) :
  exists new_filename new_file_path,
    Fs.resolve_collisions fs folder_path old_file_path base
      = Some (new_filename, new_file_path) /\
    new_file_path = Fs.path_join folder_path new_filename /\
    (new_file_path = old_file_path \/ Fs.exists_ fs new_file_path = false) /\
    ((Fs.taken fs old_file_path (Fs.path_join folder_path (base ++ py ".pdf")) = false /\
      new_filename = base ++ py ".pdf") \/
     (Fs.taken fs old_file_path (Fs.path_join folder_path (base ++ py ".pdf")) = true /\
      exists counter,
        1 <= counter /\ new_filename = Fs.numbered base counter /\
        forall j, 1 <= j < counter ->
          Fs.exists_ fs (Fs.path_join folder_path (Fs.numbered base j)) = true /\
          Fs.path_join folder_path (Fs.numbered base j) <> old_file_path)) /\
    (forall fs',
        new_file_path <> old_file_path ->
        Fs.rename fs old_file_path new_file_path = Some fs' ->
        size fs' = size fs /\
        forall q n, q <> old_file_path -> fs !! q = Some n -> fs' !! q = Some n) /\
    (forall client dry_run,
        (exists st, RenamePdfs.rename_pdf_files_in_folder fs folder_path dry_run = Some st /\
                    size (Fs.files st) = size fs) /\
        (exists st, RenamePdf.rename_pdfs_in_folder client fs folder_path dry_run = Some st /\
                    size (Fs.files st) = size fs)).
Proof.
  destruct (resolve_collisions_spec fs folder_path old_file_path base)
    as (name & path & Hrun & Hpath & Hfree & Hshape).
  exists name, path. split; [exact Hrun|]. split; [exact Hpath|].
  apply taken_false in Hfree. split; [exact Hfree|]. split.
  - destruct Hshape as [H | (H0 & c & Hle & Hname & Hall)]; [left; exact H|].
    right. split; [exact H0|]. exists c. repeat split; try assumption.
    + specialize (Hall j H). unfold Fs.taken in Hall.
      apply andb_true_iff in Hall. tauto.
    + specialize (Hall j H). unfold Fs.taken in Hall.
      apply andb_true_iff in Hall as [_ Hne].
      apply negb_true_iff, bool_decide_eq_false in Hne. exact Hne.
  - split.
    + intros fs' Hne Hren. destruct Hfree as [->|Hfree]; [contradiction|].
      eapply rename_keeps_others; eassumption.
    + intros client dry_run. apply runs_keep_entry_count.
Qed.

(** *** C2 *)

(** C2. With [dry_run] true, a call to the folder-renaming operation of
    either script ends and leaves the file system exactly as it was,
    whatever the folder holds, in whatever order its entries are listed
    and however many renames are planned and reported. *)
Theorem dry_run_leaves_file_system_unchanged :
  (forall fs folder_path,
      exists st, RenamePdfs.rename_pdf_files_in_folder fs folder_path true = Some st /\
                 Fs.files st = fs) /\
  (forall client fs folder_path,
      exists st, RenamePdf.rename_pdfs_in_folder client fs folder_path true = Some st /\
                 Fs.files st = fs) /\
  (forall folder_path listing st,
      exists st', RenamePdfs.process_files folder_path true listing st = Some st' /\
                  Fs.files st' = Fs.files st) /\
  (forall client folder_path listing st,
      exists st', RenamePdf.process_files client folder_path true listing st = Some st' /\
                  Fs.files st' = Fs.files st).
Proof.
  assert (H3 : forall folder_path listing st,
      exists st', RenamePdfs.process_files folder_path true listing st = Some st' /\
                  Fs.files st' = Fs.files st).
  { intros folder listing st.
    destruct (pattern_process_files_keeps folder true listing st) as (st' & H & _ & Hk).
    exists st'. split; [exact H | exact (Hk eq_refl)]. }
  assert (H4 : forall client folder_path listing st,
      exists st', RenamePdf.process_files client folder_path true listing st = Some st' /\
                  Fs.files st' = Fs.files st).
  { intros client folder listing st.
    destruct (service_process_files_keeps client folder true listing st)
      as (st' & H & _ & Hk).
    exists st'. split; [exact H | exact (Hk eq_refl)]. }
  repeat split; try assumption.
  - intros fs folder. unfold RenamePdfs.rename_pdf_files_in_folder.
    destruct (Fs.isdir fs folder); [apply (H3 folder _ (Fs.start fs))|].
    exists (Fs.start fs). split; reflexivity.
  - intros client fs folder. unfold RenamePdf.rename_pdfs_in_folder.
    destruct (Fs.isdir fs folder); [apply (H4 client folder _ (Fs.start fs))|].
    exists (Fs.start fs). split; reflexivity.
Qed.

(** ** The character-class check of the service variant *)

Lemma rep_to_end {R} p lo prev pos rest (k : option ascii -> nat -> str -> option R) :
  (forall prev' n, is_Some (k prev' n [])) ->
  (forall prev' n c r, k prev' n (c :: r) = None) ->
  is_Some (Re.rep p lo None prev pos rest k)
  <-> forallb p rest = true /\ lo <= length rest.
Proof.
  intros Hend Hmore.
  revert lo prev pos. induction rest as [|c rest IH]; intros lo prev pos.
  - cbn. destruct lo; split.
    + intros _. split; [reflexivity | lia].
    + intros _. apply Hend.
    + intros [x Hx]. discriminate.
    + intros [_ H]. lia.
  - cbn [Re.rep forallb length Re.more]. destruct (p c) eqn:Hc; cbn [andb].
    + specialize (IH (pred lo) (Some c) (S pos)).
      change (pred <$> None) with (@None nat).
      destruct (Re.rep p (pred lo) None (Some c) (S pos) rest k) as [x|] eqn:E.
      * split; [|intros _; eexists; reflexivity].
        intros _. destruct IH as [IH _].
        destruct IH as [H1 H2]; [eexists; reflexivity|]. split; [exact H1 | lia].
      * split.
        -- rewrite Hmore. destruct lo; intros [x Hx]; discriminate.
        -- intros [H1 H2]. destruct IH as [_ IH].
           destruct IH as [x Hx]; [split; [exact H1 | lia]|]. discriminate.
    + split.
      * rewrite Hmore. destruct lo; intros [x Hx]; discriminate.
      * intros [H _]. discriminate.
Qed.

Lemma is_valid_filename_spec name :
  RenamePdf.is_valid_filename name = true <->
  name <> [] /\ forallb RenamePdf.name_char name = true.
Proof.
  unfold RenamePdf.is_valid_filename, Re.fullmatch, RenamePdf.re_valid, Re.Plus.
  rewrite bool_decide_eq_true. cbn [Re.exec].
  rewrite rep_to_end; [| intros; eexists; reflexivity | reflexivity].
  destruct name; cbn [length]; split; intros [H1 H2]; split; auto; try lia; congruence.
Qed.

(** ** The claims about the sanitizer *)

(** C3. Sanitizing is not idempotent on [long_name]: the first pass trims
    and then cuts at 200 characters, which leaves the space of position
    200 at the end; the second pass trims that space away. *)
Theorem sanitize_twice_differs_after_truncation :
  sanitize_filename long_name = repeat "a"%char 199 ++ py " " /\
  sanitize_filename (sanitize_filename long_name) = repeat "a"%char 199 /\
  sanitize_filename (sanitize_filename long_name) <> sanitize_filename long_name.
Proof.
  assert (H1 : sanitize_filename long_name = repeat "a"%char 199 ++ py " ")
    by (vm_compute; reflexivity).
  assert (H2 : sanitize_filename (sanitize_filename long_name) = repeat "a"%char 199)
    by (vm_compute; reflexivity).
  split; [exact H1 | split; [exact H2 |]].
  rewrite H2, H1. intros H. apply (f_equal length) in H.
  rewrite length_app, !repeat_length in H. cbn in H. lia.
Qed.

(** C4. On [long_name], of 201 characters, the sanitizer returns 200
    characters that end with a space: the cut at 200 comes after the
    trimming and is not followed by another one.  The other parts of the
    claim hold there. *)
Theorem sanitize_truncation_leaves_trailing_space :
  length long_name = 201 /\
  sanitize_filename long_name = repeat "a"%char 199 ++ py " " /\
  ends_with_sep (sanitize_filename long_name) = true /\
  length (sanitize_filename long_name) = 200 /\
  has_invalid_char (sanitize_filename long_name) = false /\
  has_double_underscore (sanitize_filename long_name) = false /\
  starts_with_sep (sanitize_filename long_name) = false.
Proof. vm_compute. repeat split; reflexivity. Qed.

(** The shape that every result of the sanitizer has. *)
Lemma sanitize_shape name :
  has_invalid_char (sanitize_filename name) = false /\
  has_double_underscore (sanitize_filename name) = false /\
  starts_with_sep (sanitize_filename name) = false /\
  length (sanitize_filename name) <= 200 /\
  (length name <= 200 -> ends_with_sep (sanitize_filename name) = false).
Proof.
  repeat split;
    auto using sanitize_no_invalid, sanitize_no_double, sanitize_no_leading,
               sanitize_length.
  intros H. apply sanitize_no_trailing. pose proof (trimmed_length name). lia.
Qed.

(** ** The claims about the derived names *)

Lemma generate_is_sanitized text name :
  RenamePdfs.generate_new_name_from_content text = Some name ->
  exists raw, name = sanitize_filename raw.
Proof.
  unfold RenamePdfs.generate_new_name_from_content.
  destruct text as [|c text]; [discriminate|]. cbv zeta.
  set (parts := if RenamePdfs.truthy _ then _ else _).
  destruct parts as [|part parts'].
  - destruct (hd [] _) as [|d line]; [discriminate|].
    destruct (strip is_space (take 50 (d :: line))); intros [= <-]; eexists; reflexivity.
  - intros [= <-]. eexists. reflexivity.
Qed.

Lemma get_last_line_is_sanitized text name :
  RenamePdf.get_last_line text = Some name -> exists raw, name = sanitize_filename raw.
Proof.
  unfold RenamePdf.get_last_line. destruct (last _); [|discriminate].
  intros [= <-]. eexists. reflexivity.
Qed.

Lemma get_title_is_sanitized client text title :
  RenamePdf.get_title_via_chatgpt client text = Some title ->
  exists raw, title = sanitize_filename raw.
Proof.
  unfold RenamePdf.get_title_via_chatgpt. destruct client as [create|]; [|discriminate].
  destruct (create _); [|discriminate]. intros [= <-]. eexists. reflexivity.
Qed.

(** C5, counterexample. The pattern strategy and the last-line strategy
    yield names with a hyphen, which is no letter, digit, space or
    underscore. *)
Lemma candidate_name_with_hyphen :
  RenamePdfs.generate_new_name_from_content (py "Invoice #A1234 dated 2023-01-02")
    = Some (py "Invoice-A1234_2023-01-02") /\
  forallb RenamePdf.name_char (py "Invoice-A1234_2023-01-02") = false /\
  RenamePdf.get_last_line (py "Q3-Report") = Some (py "Q3-Report") /\
  forallb RenamePdf.name_char (py "Q3-Report") = false.
Proof. vm_compute. repeat split; reflexivity. Qed.

(** C5, amended. A name that the service variant accepts (returned by
    [get_title_via_chatgpt] and passing [is_valid_filename]) is not
    empty, consists of letters, digits, spaces and underscores, has at
    most 200 characters, does not start with a space or an underscore and
    has no two underscores in a row.  A name of the pattern or last-line
    strategy has at most 200 characters, none of the nine characters the
    sanitizer replaces, no leading space or underscore and no two
    underscores in a row. *)
Theorem candidate_name_shape (name : str) :
  (forall client text,
      RenamePdf.get_title_via_chatgpt client text = Some name ->
      RenamePdf.is_valid_filename name = true ->
      name <> [] /\ forallb RenamePdf.name_char name = true /\
      length name <= 200 /\ starts_with_sep name = false /\
      has_double_underscore name = false) /\
  (forall text,
      RenamePdfs.generate_new_name_from_content text = Some name \/
      RenamePdf.get_last_line text = Some name ->
      length name <= 200 /\ has_invalid_char name = false /\
      starts_with_sep name = false /\ has_double_underscore name = false).
Proof.
  split.
  - intros client text (raw & ->)%get_title_is_sanitized Hvalid.
    apply is_valid_filename_spec in Hvalid as [Hne Hall].
    destruct (sanitize_shape raw) as (_ & Hd & Hl & Hn & _). auto.
  - intros text [(raw & ->)%generate_is_sanitized | (raw & ->)%get_last_line_is_sanitized];
      destruct (sanitize_shape raw) as (Hi & Hd & Hl & Hn & _); auto.
Qed.

Lemma candidate_name_shape_witness :
  (py "Acme Bridge" <> [] /\ forallb RenamePdf.name_char (py "Acme Bridge") = true /\
   length (py "Acme Bridge") <= 200 /\ starts_with_sep (py "Acme Bridge") = false /\
   has_double_underscore (py "Acme Bridge") = false).
Proof.
  apply (proj1 (candidate_name_shape (py "Acme Bridge"))
           (Some (fun _ => Some (py " Acme Bridge?"))) (py "some text")).
  - vm_compute. reflexivity.
  - vm_compute. reflexivity.
Defined.



(** C7. The date found in [Invoice due 2023-11-05] is [2023-11-05], and
    the date found in [Signed on March 3, 2024] is [2024-03-03]; they are
    also the names derived from these texts.  The conversion of the form
    Month DD, YYYY holds for each of the twelve month names and each day
    from 1 to 28 of the year 2024. *)
Theorem date_extraction_normalizes_examples :
  RenamePdfs.find_date RenamePdfs.date_patterns (py "Invoice due 2023-11-05") None
    = Some (py "2023-11-05") /\
  RenamePdfs.find_date RenamePdfs.date_patterns (py "Signed on March 3, 2024") None
    = Some (py "2024-03-03") /\
  RenamePdfs.generate_new_name_from_content (py "Invoice due 2023-11-05")
    = Some (py "2023-11-05") /\
  RenamePdfs.generate_new_name_from_content (py "Signed on March 3, 2024")
    = Some (py "2024-03-03") /\
  forallb (fun entry => forallb (long_date_normalized 2024 entry) (seq 1 28))
          calendar = true.
Proof. vm_compute. repeat split; reflexivity. Qed.

(** ** Texts of white space match no pattern of the program *)

Lemma in_all_chars c : In c all_chars.
Proof.
  unfold all_chars. rewrite <- (ascii_nat_embedding c). apply in_map.
  apply in_seq. pose proof (nat_ascii_bounded c). lia.
Qed.

Lemma class_within_spec p q c : class_within p q = true -> p c = true -> q c = true.
Proof.
  unfold class_within. rewrite forallb_forall. intros H Hp.
  specialize (H c (in_all_chars c)). rewrite Hp in H. exact H.
Qed.

Section Blocked.
Context {R : Type} (q : ascii -> bool).

Lemma rep_blocked p lo hi prev pos rest (k : option ascii -> nat -> str -> option R) :
  existsb q rest = false ->
  (forall prev' pos' rest', existsb q rest' = false -> k prev' pos' rest' = None) ->
  Re.rep p lo hi prev pos rest k = None.
Proof.
  intros Hrest Hk. revert lo hi prev pos.
  induction rest as [|c rest IH]; intros lo hi prev pos; cbn [Re.rep].
  - destruct lo; [apply Hk; reflexivity | reflexivity].
  - cbn [existsb] in Hrest. apply orb_false_iff in Hrest as [Hc Hrest].
    rewrite (IH Hrest).
    assert (Hstop : match lo with 0 => k prev pos (c :: rest) | S _ => None end = None).
    { destruct lo; [|reflexivity]. apply Hk. cbn [existsb]. rewrite Hc. exact Hrest. }
    rewrite Hstop. destruct (p c && Re.more hi); reflexivity.
Qed.

Lemma exec_blocked r : forall prev pos rest caps
    (k : option ascii -> nat -> str -> Re.captures -> option R),
  existsb q rest = false ->
  (forall prev' pos' rest' caps',
      existsb q rest' = false -> k prev' pos' rest' caps' = None) ->
  Re.exec r prev pos rest caps k = None.
Proof.
  induction r as [|p|a IHa b IHb|a IHa b IHb|p lo hi|n a IHa|];
    intros prev pos rest caps k Hrest Hk; cbn [Re.exec].
  - apply Hk. exact Hrest.
  - destruct rest as [|c rest]; [reflexivity|].
    cbn [existsb] in Hrest. apply orb_false_iff in Hrest as [_ Hrest].
    destruct (p c); [apply Hk; exact Hrest | reflexivity].
  - apply IHa; [exact Hrest|]. intros prev' pos' rest' caps' Hrest'.
    apply IHb; assumption.
  - rewrite IHa by assumption. apply IHb; assumption.
  - apply rep_blocked; [exact Hrest|]. intros. apply Hk. assumption.
  - apply IHa; [exact Hrest|]. intros. apply Hk. assumption.
  - destruct (Re.boundary prev rest); [apply Hk; exact Hrest | reflexivity].
Qed.

Lemma exec_needs r : forall prev pos rest caps
    (k : option ascii -> nat -> str -> Re.captures -> option R),
  needs q r = true -> existsb q rest = false ->
  Re.exec r prev pos rest caps k = None.
Proof.
  induction r as [|p|a IHa b IHb|a IHa b IHb|p lo hi|n a IHa|];
    intros prev pos rest caps k Hneeds Hrest; cbn [needs] in Hneeds;
    cbn [Re.exec]; try discriminate.
  - destruct rest as [|c rest]; [reflexivity|].
    cbn [existsb] in Hrest. apply orb_false_iff in Hrest as [Hc _].
    destruct (p c) eqn:Hp; [|reflexivity].
    rewrite (class_within_spec p q c Hneeds Hp) in Hc. discriminate.
  - apply orb_true_iff in Hneeds as [Ha|Hb].
    + apply IHa; assumption.
    + apply exec_blocked; [exact Hrest|]. intros. apply IHb; assumption.
  - apply andb_true_iff in Hneeds as [Ha Hb].
    rewrite IHa by assumption. apply IHb; assumption.
  - apply andb_true_iff in Hneeds as [Hlo Hp].
    destruct lo as [|lo]; [discriminate|].
    destruct rest as [|c rest]; cbn [Re.rep]; [reflexivity|].
    cbn [existsb] in Hrest. apply orb_false_iff in Hrest as [Hc _].
    destruct (p c) eqn:Hpc; [|reflexivity].
    rewrite (class_within_spec p q c Hp Hpc) in Hc. discriminate.
  - apply IHa; assumption.
Qed.
End Blocked.

Lemma search_needs q r prev rest :
  needs q r = true -> existsb q rest = false -> Re.search_from r prev rest = None.
Proof.
  intros Hneeds. revert prev. induction rest as [|c rest IH]; intros prev Hrest;
    cbn [Re.search_from]; unfold Re.match_here; rewrite (exec_needs q) by assumption.
  - reflexivity.
  - cbn [existsb] in Hrest. apply orb_false_iff in Hrest as [_ Hrest]. apply IH. exact Hrest.
Qed.

Lemma blank_no_graphic text : forallb is_space text = true -> existsb is_graphic text = false.
Proof.
  induction text as [|c text IH]; [reflexivity|]. cbn [forallb existsb].
  intros [Hc Ht]%andb_true_iff. unfold is_graphic at 1. rewrite Hc, IH by exact Ht.
  reflexivity.
Qed.

Lemma find_identifier_blank text :
  forallb is_space text = true ->
  RenamePdfs.find_identifier RenamePdfs.invoice_patterns text = [].
Proof.
  intros H%blank_no_graphic. unfold RenamePdfs.invoice_patterns.
  cbn [RenamePdfs.find_identifier]. unfold Re.search.
  rewrite !(search_needs is_graphic) by (exact H || (vm_compute; reflexivity)).
  reflexivity.
Qed.

Lemma find_date_blank text :
  forallb is_space text = true ->
  RenamePdfs.find_date RenamePdfs.date_patterns text None = None.
Proof.
  intros H%blank_no_graphic. unfold RenamePdfs.date_patterns.
  cbn [RenamePdfs.find_date]. unfold Re.search.
  rewrite !(search_needs is_graphic) by (exact H || (vm_compute; reflexivity)).
  reflexivity.
Qed.

Lemma rstrip_nil p s : rstrip p s = [] -> forallb p s = true.
Proof.
  unfold rstrip. intros H. apply (f_equal (@rev ascii)) in H.
  rewrite rev_involutive in H. cbn in H. apply lstrip_nil_all in H.
  rewrite forallb_forall in *. intros x Hx. apply H. apply in_rev in Hx. exact Hx.
Qed.

Lemma strip_nil p s : strip p s = [] <-> forallb p s = true.
Proof.
  unfold strip. split.
  - intros H%rstrip_nil. destruct (lstrip p s) as [|c t] eqn:E.
    + apply lstrip_nil_all. exact E.
    + apply lstrip_head in E. cbn [forallb] in H. rewrite E in H. discriminate.
  - intros H. rewrite lstrip_all by exact H. reflexivity.
Qed.

Lemma strip_head p s c t : strip p s = c :: t -> p c = false.
Proof.
  unfold strip. destruct (lstrip p s) as [|d u] eqn:E; [discriminate|].
  destruct (rstrip_keeps_head p u d) as [-> | (t' & ->)]; [discriminate|].
  intros [= <- _]. eapply lstrip_head. exact E.
Qed.

Lemma split_head sep c s :
  is_char sep c = false -> exists piece, hd [] (split sep (c :: s)) = c :: piece.
Proof.
  intros H. cbn [split]. rewrite H. destruct (split sep s); eexists; reflexivity.
Qed.

Lemma generate_none_iff text :
  RenamePdfs.generate_new_name_from_content text = None <->
  forallb is_space text = true.
Proof.
  split.
  - unfold RenamePdfs.generate_new_name_from_content.
    destruct text as [|c text]; [reflexivity|]. cbv zeta.
    set (parts := if RenamePdfs.truthy _ then _ else _).
    destruct parts as [|part parts']; [|discriminate].
    destruct (strip is_space (c :: text)) as [|d line] eqn:E.
    + intros _. apply strip_nil. exact E.
    + apply strip_head in E.
      destruct (split_head RenamePdfs.newline d line) as (piece & ->).
      { destruct (is_char RenamePdfs.newline d) eqn:Hd; [|reflexivity].
        apply is_char_true in Hd. subst d. discriminate E. }
      destruct (strip is_space (take 50 (d :: piece))); discriminate.
  - intros H. unfold RenamePdfs.generate_new_name_from_content.
    destruct text as [|c text]; [reflexivity|].
    rewrite find_identifier_blank, find_date_blank by exact H. cbv zeta.
    cbn [RenamePdfs.truthy]. rewrite (proj2 (strip_nil is_space (c :: text)) H).
    reflexivity.
Qed.

(** *** C10 *)

(** C10. The pattern strategy returns [None] exactly on the texts that
    are empty or made of white space only.  On the text [____] it returns
    the empty string; the caller tests for [None] only, so it goes on
    with an empty base and proposes the file name [.pdf]. *)
Theorem generate_none_exactly_on_blank_text :
  (forall text,
      RenamePdfs.generate_new_name_from_content text = None <->
      forallb is_space text = true) /\
  RenamePdfs.generate_new_name_from_content (py "____") = Some [] /\
  RenamePdfs.generate_new_name_from_content
    (py "____" ++ [RenamePdfs.newline] ++ py "Scanned by office") = Some [] /\
  (Fs.printed <$> RenamePdfs.rename_pdf_files_in_folder ruled_fs (py "/docs") true)
    = Some [Fs.WouldRename (py ".pdf")] /\
  ((fun st => (Fs.printed st, Fs.files st !! py "/docs/scan.pdf",
               Fs.files st !! py "/docs/.pdf"))
     <$> RenamePdfs.rename_pdf_files_in_folder ruled_fs (py "/docs") false)
    = Some ([Fs.Renamed (py "scan.pdf") (py ".pdf")], None,
            Some (Fs.File (Some [py "____"]))).
Proof.
  split; [exact generate_none_iff|]. vm_compute. repeat split; reflexivity.
Qed.

(** ** The claims about skipped files *)

(** C8. Empty text gives no name under each strategy: the pattern
    strategy and the last-line strategy return [None] on the empty
    string, and the loop of the service variant skips a file whose
    extracted text is empty before it would ask the service, whatever
    the service is.  The loop of the pattern variant skips such a file
    as well, for want of a name. *)
Theorem empty_text_yields_no_name :
  RenamePdfs.generate_new_name_from_content [] = None /\
  RenamePdf.get_last_line [] = None /\
  (forall client folder_path dry_run filename st,
      Fs.is_pdf filename = true ->
      RenamePdf.extract_text_from_pdf (Fs.files st) (Fs.path_join folder_path filename)
        = Some [] ->
      RenamePdf.process_file client folder_path dry_run filename st
        = Some (Fs.skipped (Fs.SkippedNoText filename) (Fs.found st))) /\
  (forall folder_path dry_run filename st,
      Fs.is_pdf filename = true ->
      RenamePdfs.extract_text_from_pdf (Fs.files st) (Fs.path_join folder_path filename)
        = Some [] ->
      RenamePdfs.process_file folder_path dry_run filename st
        = Some (Fs.skipped (Fs.NoNameFound filename) (Fs.found st))).
Proof.
  split; [reflexivity|]. split; [reflexivity|]. split.
  - intros client folder dry_run filename st Hpdf Htext.
    unfold RenamePdf.process_file. rewrite Hpdf. cbv zeta.
    change (Fs.files (Fs.found st)) with (Fs.files st). rewrite Htext. reflexivity.
  - intros folder dry_run filename st Hpdf Htext.
    unfold RenamePdfs.process_file. rewrite Hpdf. cbv zeta.
    change (Fs.files (Fs.found st)) with (Fs.files st). rewrite Htext. reflexivity.
Qed.

Lemma empty_text_yields_no_name_witness :
  RenamePdf.process_file (Some report_service) (py "/docs") false (py "empty.pdf")
    (Fs.start reports_fs)
  = Some (Fs.skipped (Fs.SkippedNoText (py "empty.pdf")) (Fs.found (Fs.start reports_fs))).
Proof.
  apply (proj1 (proj2 (proj2 empty_text_yields_no_name))).
  - vm_compute. reflexivity.
  - vm_compute. reflexivity.
Defined.

(** C9. [is_valid_filename] holds exactly for the non-empty names made
    of letters, digits, spaces and underscores, so a name with any other
    character is refused; the sanitizer leaves a hyphen in place, and the
    hyphenated title is refused.  In the loop of the service variant a
    non-empty sanitized title goes on to the rename plan when it is
    valid; when it is not, the file is counted as skipped and the loop
    goes on with the remaining files. *)
Theorem service_title_accepted_iff_valid :
  (forall name,
      RenamePdf.is_valid_filename name = true <->
      name <> [] /\ forallb RenamePdf.name_char name = true) /\
  (forall name c,
      In c name -> RenamePdf.name_char c = false ->
      RenamePdf.is_valid_filename name = false) /\
  (sanitize_filename (py "Q3-Report") = py "Q3-Report" /\
   RenamePdf.is_valid_filename (py "Q3-Report") = false) /\
  (forall client folder_path dry_run filename listing st text title,
      Fs.is_pdf filename = true ->
      RenamePdf.extract_text_from_pdf (Fs.files st) (Fs.path_join folder_path filename)
        = Some text ->
      text <> [] ->
      RenamePdf.get_title_via_chatgpt client text = Some title ->
      title <> [] ->
      (RenamePdf.is_valid_filename title = true ->
       RenamePdf.process_file client folder_path dry_run filename st
       = (plan ← Fs.resolve_collisions (Fs.files st) folder_path
                   (Fs.path_join folder_path filename) title;
          Some (Fs.finish_file dry_run filename (Fs.path_join folder_path filename)
                               plan (Fs.found st)))) /\
      (RenamePdf.is_valid_filename title = false ->
       RenamePdf.process_files client folder_path dry_run (filename :: listing) st
       = RenamePdf.process_files client folder_path dry_run listing
           (Fs.skipped Fs.UnsupportedCharacters (Fs.found st)))).
Proof.
  split; [exact is_valid_filename_spec|]. split; [|split].
  - intros name c Hin Hc.
    destruct (RenamePdf.is_valid_filename name) eqn:E; [|reflexivity].
    apply is_valid_filename_spec in E as [_ Hall].
    rewrite forallb_forall in Hall. rewrite (Hall c Hin) in Hc. discriminate.
  - vm_compute. split; reflexivity.
  - intros client folder dry_run filename listing st text title
           Hpdf Htext Hne Htitle Hne'.
    assert (Hfile : RenamePdf.process_file client folder dry_run filename st =
      if negb (RenamePdf.is_valid_filename title)
      then Some (Fs.skipped Fs.UnsupportedCharacters (Fs.found st))
      else plan ← Fs.resolve_collisions (Fs.files st) folder
                    (Fs.path_join folder filename) title;
           Some (Fs.finish_file dry_run filename (Fs.path_join folder filename)
                                plan (Fs.found st))).
    { unfold RenamePdf.process_file. rewrite Hpdf. cbv zeta.
      change (Fs.files (Fs.found st)) with (Fs.files st). rewrite Htext.
      destruct text as [|c text]; [contradiction|]. rewrite Htitle.
      destruct title as [|d title]; [contradiction|]. reflexivity. }
    split; intros Hvalid.
    + rewrite Hfile, Hvalid. reflexivity.
    + cbn [RenamePdf.process_files]. rewrite Hfile, Hvalid. reflexivity.
Qed.

Lemma service_title_accepted_iff_valid_witness :
  RenamePdf.process_files (Some hyphen_service) (py "/docs") false
    [py "a.pdf"; py "notes.txt"] (Fs.start reports_fs)
  = Some (Fs.skipped Fs.UnsupportedCharacters (Fs.found (Fs.start reports_fs))).
Proof.
  rewrite (proj2 (proj2 (proj2 (proj2 service_title_accepted_iff_valid))
                    (Some hyphen_service) (py "/docs") false (py "a.pdf")
                    [py "notes.txt"] (Fs.start reports_fs)
                    (py "first report") (py "Q3-Report")
                    ltac:(vm_compute; reflexivity) ltac:(vm_compute; reflexivity)
                    ltac:(discriminate) ltac:(vm_compute; reflexivity)
                    ltac:(discriminate)) ltac:(vm_compute; reflexivity)).
  vm_compute. reflexivity.
Defined.

(** * Further properties of the two scripts *)

(** ** The sanitizer *)

Lemma squeeze_in b s c : In c (squeeze b s) -> In c s.
Proof.
  revert b. induction s as [|d s IH]; intros b; [intros []|]. cbn [squeeze].
  destruct (is_char "_" d), b; cbn [In]; intros H;
    try (destruct H as [H|H]; [left; exact H|]); right; eapply IH; exact H.
Qed.

Lemma squeeze_forallb_sep b s :
  forallb is_sep (squeeze b s) = forallb is_sep s.
Proof.
  revert b. induction s as [|d s IH]; intros b; [reflexivity|]. cbn [squeeze].
  destruct (is_char "_" d) eqn:Hd.
  - apply is_char_true in Hd. subst d. destruct b; cbn [forallb]; rewrite IH; reflexivity.
  - cbn [forallb]. rewrite IH. reflexivity.
Qed.

Lemma replace_invalid_in s c :
  In c (replace_invalid s) ->
  one_of invalid_chars c = false /\ (c = "_"%char \/ In c s).
Proof.
  unfold replace_invalid. intros (d & Hd & Hin)%in_map_iff.
  destruct (one_of invalid_chars d) eqn:E; subst c.
  - split; [reflexivity | left; reflexivity].
  - split; [exact E | right; exact Hin].
Qed.

Lemma trimmed_in name c : In c (trimmed name) -> In c (squeeze false (replace_invalid name)).
Proof.
  unfold trimmed. intros H.
  destruct (strip_sublist is_sep (squeeze false (replace_invalid name))) as (pre & suf & E).
  rewrite E. apply in_or_app. right. apply in_or_app. left. exact H.
Qed.

Lemma take_in {A} n (l : list A) x : In x (take n l) -> In x l.
Proof. intros H. rewrite <- (take_drop n l). apply in_or_app. left. exact H. Qed.

(** X1. Whatever the input, the result of the sanitizer has none of the
    nine replaced characters, no two underscores in a row, no leading
    space or underscore, at most 200 characters and never more characters
    than the input; each of its characters is an underscore or a
    character of the input. *)
Theorem sanitize_filename_result_shape (name : str) :
  has_invalid_char (sanitize_filename name) = false /\
  has_double_underscore (sanitize_filename name) = false /\
  starts_with_sep (sanitize_filename name) = false /\
  length (sanitize_filename name) <= 200 /\
  length (sanitize_filename name) <= length name /\
  (forall c, In c (sanitize_filename name) -> c = "_"%char \/ In c name).
Proof.
  destruct (sanitize_shape name) as (Hi & Hd & Hl & Hn & _).
  repeat split; try assumption.
  - rewrite sanitize_filename_trimmed, length_take.
    pose proof (trimmed_length name). lia.
  - intros c Hc. rewrite sanitize_filename_trimmed in Hc.
    apply take_in, trimmed_in, squeeze_in, replace_invalid_in in Hc. tauto.
Qed.

(** X2. On a name of at most 200 characters the result of the sanitizer
    does not end with a space or an underscore, and sanitizing it again
    changes nothing. *)
Theorem sanitize_filename_short_input (name : str) :
  length name <= 200 ->
  ends_with_sep (sanitize_filename name) = false /\
  sanitize_filename (sanitize_filename name) = sanitize_filename name.
Proof.
  intros H.
  assert (Ht : ends_with_sep (sanitize_filename name) = false).
  { apply sanitize_no_trailing. pose proof (trimmed_length name). lia. }
  split; [exact Ht|]. apply sanitize_twice. exact Ht.
Qed.

Lemma sanitize_filename_short_input_witness :
  ends_with_sep (sanitize_filename (py " Q3/Report__final_ ")) = false /\
  sanitize_filename (sanitize_filename (py " Q3/Report__final_ "))
  = sanitize_filename (py " Q3/Report__final_ ").
Proof. apply sanitize_filename_short_input. vm_compute. lia. Defined.

(** X3. A name that is already clean (none of the nine characters, no
    two underscores in a row, no space or underscore at either end, at
    most 200 characters) is returned as it is. *)
Theorem sanitize_filename_keeps_clean_name (name : str) :
  has_invalid_char name = false ->
  has_double_underscore name = false ->
  starts_with_sep name = false ->
  ends_with_sep name = false ->
  length name <= 200 ->
  sanitize_filename name = name.
Proof. apply sanitize_fixed. Qed.

Lemma sanitize_filename_keeps_clean_name_witness :
  sanitize_filename (py "Invoice-A1234_2023-01-02") = py "Invoice-A1234_2023-01-02".
Proof.
  apply sanitize_filename_keeps_clean_name; vm_compute; first [reflexivity | lia].
Defined.

Lemma replace_invalid_forallb_sep s :
  forallb is_sep (replace_invalid s)
  = forallb (fun c => is_sep c || one_of invalid_chars c) s.
Proof.
  unfold replace_invalid. induction s as [|c s IH]; [reflexivity|].
  cbn [map forallb]. rewrite IH. f_equal.
  destruct (one_of invalid_chars c); [rewrite orb_true_r | rewrite orb_false_r]; reflexivity.
Qed.

(** X4. The sanitizer returns the empty string exactly for the names
    made only of spaces, underscores and the nine replaced characters
    (the empty name among them). *)
Theorem sanitize_filename_empty_iff (name : str) :
  sanitize_filename name = [] <->
  forallb (fun c => is_sep c || one_of invalid_chars c) name = true.
Proof.
  rewrite sanitize_filename_trimmed.
  assert (Htake : take 200 (trimmed name) = [] <-> trimmed name = []).
  { destruct (trimmed name); cbn; split; intros H; congruence. }
  rewrite Htake. unfold trimmed. rewrite strip_nil, squeeze_forallb_sep.
  rewrite replace_invalid_forallb_sep. reflexivity.
Qed.

(** ** The last-line strategy *)

Lemma linebreak_is_space c : RenamePdf.is_linebreak c = true -> is_space c = true.
Proof.
  destruct c as [b0 b1 b2 b3 b4 b5 b6 b7].
  destruct b0, b1, b2, b3, b4, b5, b6, b7; vm_compute; congruence.
Qed.

Lemma forallb_rev {A} (p : A -> bool) l : forallb p (rev l) = forallb p l.
Proof.
  induction l as [|x l IH]; [reflexivity|]. cbn [rev forallb].
  rewrite forallb_app, IH. cbn [forallb]. rewrite andb_true_r. apply andb_comm.
Qed.

(** The lines of a text are all blank exactly when the text is: the
    line under construction is empty after a carriage return. *)
Lemma splitlines_from_blank s : forall line after_cr,
  (after_cr = true -> line = []) ->
  (forallb (fun l => forallb is_space l) (RenamePdf.splitlines_from line after_cr s)
   = forallb is_space line && forallb is_space s).
Proof.
  induction s as [|c s IH]; intros line after_cr Hinv; cbn [RenamePdf.splitlines_from].
  - destruct line as [|d line]; [reflexivity|].
    cbn [forallb]. rewrite forallb_rev. cbn [forallb]. rewrite !andb_true_r. reflexivity.
  - destruct (is_char "010" c && after_cr) eqn:E1.
    + apply andb_true_iff in E1 as [Hc ->]. rewrite (Hinv eq_refl).
      apply is_char_true in Hc. subst c. rewrite IH by reflexivity. reflexivity.
    + destruct (RenamePdf.is_linebreak c) eqn:E2.
      * cbn [forallb]. rewrite forallb_rev, IH by (intros _; reflexivity).
        rewrite (linebreak_is_space c E2). reflexivity.
      * rewrite IH by discriminate. cbn [forallb].
        destruct (is_space c), (forallb is_space line); reflexivity.
Qed.

Lemma filter_nil_forallb {A} (p : A -> bool) (l : list A) :
  filter (fun x => p x = true) l = [] <-> forallb (fun x => negb (p x)) l = true.
Proof.
  induction l as [|x l IH]; [split; reflexivity|].
  rewrite filter_cons. cbn [forallb]. destruct (p x) eqn:E.
  - rewrite decide_True by reflexivity. cbn. split; discriminate.
  - rewrite decide_False by discriminate. cbn. exact IH.
Qed.

Lemma last_map_none {A B} (f : A -> B) (l : list A) :
  last (map f l) = None <-> l = [].
Proof.
  destruct l as [|x l]; [split; reflexivity|]. split; [|discriminate].
  intros E. exfalso. revert x E. induction l as [|y l IH]; intros x E; [discriminate|].
  apply (IH y). exact E.
Qed.

(** X5. The last-line strategy finds no name exactly on the texts that
    are empty or made of white space only. *)
Theorem get_last_line_none_iff_blank (text : str) :
  RenamePdf.get_last_line text = None <-> forallb is_space text = true.
Proof.
  unfold RenamePdf.get_last_line.
  set (kept := filter _ (RenamePdf.splitlines text)).
  pose proof (last_map_none (strip is_space) kept) as H.
  destruct (last (map (strip is_space) kept)) as [found|] eqn:E.
  - split; [discriminate|]. intros Hb. exfalso.
    assert (Hk : kept = []).
    { unfold kept. apply filter_nil_forallb.
      unfold RenamePdf.splitlines.
      pose proof (splitlines_from_blank text [] false ltac:(discriminate)) as Hs.
      rewrite Hb in Hs. cbn [forallb andb] in Hs.
      rewrite forallb_forall in *. intros l Hl. specialize (Hs l Hl).
      rewrite (proj2 (strip_nil is_space l) Hs). reflexivity. }
    apply H in Hk. congruence.
  - split; [|reflexivity]. intros _.
    assert (Hk : kept = []) by (apply H; reflexivity).
    unfold kept in Hk. apply filter_nil_forallb in Hk.
    pose proof (splitlines_from_blank text [] false ltac:(discriminate)) as Hs.
    cbn [forallb andb] in Hs. fold (RenamePdf.splitlines text) in Hs. rewrite <- Hs.
    rewrite forallb_forall in *. intros l Hl. specialize (Hk l Hl).
    apply strip_nil. destruct (strip is_space l); [reflexivity | discriminate].
Qed.

Lemma splitlines_from_line l : forall line,
  existsb RenamePdf.is_linebreak l = false ->
  RenamePdf.splitlines_from line false l
  = match rev line ++ l with [] => [] | _ :: _ => [rev line ++ l] end.
Proof.
  induction l as [|c l IH]; intros line Hl; cbn [RenamePdf.splitlines_from].
  - rewrite app_nil_r. destruct line as [|d line]; [reflexivity|].
    destruct (rev (d :: line)) eqn:E; [|reflexivity].
    apply (f_equal (@length ascii)) in E. rewrite length_rev in E. discriminate.
  - cbn [existsb] in Hl. apply orb_false_iff in Hl as [Hc Hl].
    rewrite andb_false_r, Hc, IH by exact Hl. cbn [rev]. rewrite <- app_assoc. cbn [app].
    destruct (rev line ++ c :: l) eqn:E; [|reflexivity].
    apply (f_equal (@length ascii)) in E. rewrite length_app in E. cbn in E. lia.
Qed.

Lemma splitlines_from_newline s : forall line after_cr,
  exists lines, forall rest,
    RenamePdf.splitlines_from line after_cr (s ++ RenamePdfs.newline :: rest)
    = lines ++ RenamePdf.splitlines_from [] false rest.
Proof.
  induction s as [|c s IH]; intros line after_cr.
  - destruct after_cr.
    + exists []. intros rest. reflexivity.
    + exists [rev line]. intros rest. reflexivity.
  - cbn [app RenamePdf.splitlines_from].
    destruct (is_char "010" c && after_cr).
    + apply IH.
    + destruct (RenamePdf.is_linebreak c).
      * destruct (IH [] (is_char "013" c)) as (lines & H).
        exists (rev line :: lines). intros rest. rewrite H. reflexivity.
      * apply IH.
Qed.

(** X6. When a text ends with a line feed followed by a line that has
    no line boundary in it and is not blank, the last-line strategy
    returns that line, stripped and sanitized, whatever comes before. *)
Theorem get_last_line_takes_final_line (text line : str) :
  existsb RenamePdf.is_linebreak line = false ->
  forallb is_space line = false ->
  RenamePdf.get_last_line (text ++ RenamePdfs.newline :: line)
  = Some (sanitize_filename (strip is_space line)).
Proof.
  intros Hbreak Hblank. unfold RenamePdf.get_last_line, RenamePdf.splitlines.
  destruct (splitlines_from_newline text [] false) as (lines & ->).
  rewrite splitlines_from_line by exact Hbreak. cbn [rev app].
  destruct line as [|c line]; [discriminate|].
  rewrite filter_app, filter_cons, filter_nil.
  assert (Hkeep : RenamePdf.nonempty (strip is_space (c :: line)) = true).
  { destruct (strip is_space (c :: line)) eqn:E; [|reflexivity].
    apply strip_nil in E. congruence. }
  rewrite decide_True by exact Hkeep.
  rewrite map_app. cbn [map]. rewrite last_snoc. reflexivity.
Qed.

Lemma get_last_line_takes_final_line_witness :
  RenamePdf.get_last_line
    (py "Acme Corp" ++ RenamePdfs.newline :: py "  Bridge survey 2024 ")
  = Some (sanitize_filename (strip is_space (py "  Bridge survey 2024 "))).
Proof.
  apply (get_last_line_takes_final_line (py "Acme Corp") (py "  Bridge survey 2024 "));
    vm_compute; reflexivity.
Defined.

(** ** The rename loops, one file at a time *)

Lemma rename_spec fs old new fs' :
  Fs.rename fs old new = Some fs' ->
  exists pages, fs !! old = Some (Fs.File pages) /\
                fs' = <[new := Fs.File pages]> (delete old fs).
Proof.
  unfold Fs.rename. destruct (fs !! old) as [[|pages]|]; try discriminate.
  destruct (fs !! new) as [[|p]|]; try discriminate; intros [= <-]; eauto.
Qed.

Lemma exists_false fs path : Fs.exists_ fs path = false <-> fs !! path = None.
Proof. unfold Fs.exists_. destruct (fs !! path); split; congruence. Qed.

(** The end of a turn, for a plan whose path is not taken. *)
Lemma finish_file_step dry_run folder filename name path pages st :
  Fs.is_pdf filename = true ->
  Fs.files st !! Fs.path_join folder filename = Some (Fs.File (Some pages)) ->
  Fs.taken (Fs.files st) (Fs.path_join folder filename) path = false ->
  file_step folder filename st
    (Fs.finish_file dry_run filename (Fs.path_join folder filename) (name, path)
                    (Fs.found st)).
Proof.
  intros Hpdf Hold Hfree. unfold file_step. rewrite Hpdf. unfold Fs.finish_file.
  destruct (bool_decide (path = Fs.path_join folder filename)) eqn:Hp;
    [cbn; repeat split; auto; lia|].
  destruct dry_run; [cbn; repeat split; auto; lia|].
  change (Fs.files (Fs.found st)) with (Fs.files st).
  destruct (Fs.rename (Fs.files st) (Fs.path_join folder filename) path)
    as [fs'|] eqn:Hren; [|cbn; repeat split; auto; lia].
  cbn. repeat split; try lia. right.
  apply rename_spec in Hren as (pages' & Hold' & ->).
  rewrite Hold in Hold'. injection Hold' as <-.
  apply taken_false in Hfree as [->|Hfree].
  - apply bool_decide_eq_false in Hp. contradiction.
  - exists path, pages. repeat split; [exact Hold | apply exists_false; exact Hfree].
Qed.

Lemma skipped_step folder filename msg st :
  Fs.is_pdf filename = true ->
  file_step folder filename st (Fs.skipped msg (Fs.found st)).
Proof. intros H. unfold file_step. rewrite H. cbn. repeat split; auto; lia. Qed.

Lemma pattern_extract_file fs path text :
  RenamePdfs.extract_text_from_pdf fs path = Some text ->
  exists pages, fs !! path = Some (Fs.File (Some pages)) /\ text = concat (take 6 pages).
Proof.
  unfold RenamePdfs.extract_text_from_pdf.
  destruct (fs !! path) as [[|[pages|]]|]; try discriminate. intros [= <-]. eauto.
Qed.

Lemma service_extract_file fs path text :
  RenamePdf.extract_text_from_pdf fs path = Some text ->
  exists pages, fs !! path = Some (Fs.File (Some pages)) /\ text = concat pages.
Proof.
  unfold RenamePdf.extract_text_from_pdf.
  destruct (fs !! path) as [[|[pages|]]|]; try discriminate. intros [= <-]. eauto.
Qed.

Lemma plan_step dry_run folder filename base pages st :
  Fs.is_pdf filename = true ->
  Fs.files st !! Fs.path_join folder filename = Some (Fs.File (Some pages)) ->
  exists st1,
    (plan ← Fs.resolve_collisions (Fs.files st) folder (Fs.path_join folder filename) base;
     Some (Fs.finish_file dry_run filename (Fs.path_join folder filename) plan
                          (Fs.found st))) = Some st1 /\
    file_step folder filename st st1.
Proof.
  intros Hpdf Hold.
  destruct (resolve_collisions_spec (Fs.files st) folder (Fs.path_join folder filename) base)
    as (name & path & -> & _ & Hfree & _).
  eexists. split; [reflexivity|]. eapply finish_file_step; eassumption.
Qed.

Lemma pattern_process_file_step folder dry_run filename st :
  exists st1, RenamePdfs.process_file folder dry_run filename st = Some st1 /\
              file_step folder filename st st1.
Proof.
  unfold RenamePdfs.process_file.
  destruct (Fs.is_pdf filename) eqn:Hpdf;
    [|exists st; split; [reflexivity | unfold file_step; rewrite Hpdf; reflexivity]].
  cbv zeta. change (Fs.files (Fs.found st)) with (Fs.files st).
  destruct (RenamePdfs.extract_text_from_pdf _ _) as [text|] eqn:Htext;
    [|eexists; split; [reflexivity | apply skipped_step; exact Hpdf]].
  destruct (RenamePdfs.generate_new_name_from_content text) as [base|];
    [|eexists; split; [reflexivity | apply skipped_step; exact Hpdf]].
  apply pattern_extract_file in Htext as (pages & Hold & _).
  eapply plan_step; eassumption.
Qed.

Lemma service_process_file_step client folder dry_run filename st :
  exists st1, RenamePdf.process_file client folder dry_run filename st = Some st1 /\
              file_step folder filename st st1.
Proof.
  unfold RenamePdf.process_file.
  destruct (Fs.is_pdf filename) eqn:Hpdf;
    [|exists st; split; [reflexivity | unfold file_step; rewrite Hpdf; reflexivity]].
  cbv zeta. change (Fs.files (Fs.found st)) with (Fs.files st).
  destruct (RenamePdf.extract_text_from_pdf _ _) as [[|c text]|] eqn:Htext;
    try (eexists; split; [reflexivity | apply skipped_step; exact Hpdf]).
  destruct (RenamePdf.get_title_via_chatgpt client (c :: text)) as [[|d title]|];
    try (eexists; split; [reflexivity | apply skipped_step; exact Hpdf]).
  destruct (RenamePdf.is_valid_filename (d :: title)); cbn [negb];
    [|eexists; split; [reflexivity | apply skipped_step; exact Hpdf]].
  apply service_extract_file in Htext as (pages & Hold & _).
  eapply plan_step; eassumption.
Qed.

Lemma pattern_process_files_steps folder dry_run listing : forall st,
  exists st', RenamePdfs.process_files folder dry_run listing st = Some st' /\
              file_steps folder listing st st'.
Proof.
  induction listing as [|filename listing IH]; intros st.
  - exists st. split; [reflexivity | constructor].
  - cbn [RenamePdfs.process_files].
    destruct (pattern_process_file_step folder dry_run filename st) as (st1 & -> & H1).
    destruct (IH st1) as (st2 & H & H2). exists st2. split; [exact H|].
    econstructor; eassumption.
Qed.

Lemma service_process_files_steps client folder dry_run listing : forall st,
  exists st', RenamePdf.process_files client folder dry_run listing st = Some st' /\
              file_steps folder listing st st'.
Proof.
  induction listing as [|filename listing IH]; intros st.
  - exists st. split; [reflexivity | constructor].
  - cbn [RenamePdf.process_files].
    destruct (service_process_file_step client folder dry_run filename st)
      as (st1 & -> & H1).
    destruct (IH st1) as (st2 & H & H2). exists st2. split; [exact H|].
    econstructor; eassumption.
Qed.

Lemma steps_counters folder listing st st' :
  file_steps folder listing st st' ->
  Fs.pdf_files_found st' = Fs.pdf_files_found st + count_pdf listing /\
  Fs.renamed_count st' + Fs.skipped_count st'
    = Fs.renamed_count st + Fs.skipped_count st + count_pdf listing /\
  length (Fs.printed st') = length (Fs.printed st) + count_pdf listing.
Proof.
  unfold count_pdf. induction 1 as [st|filename listing st st1 st2 Hstep _ IH].
  - cbn. lia.
  - rewrite filter_cons. unfold file_step in Hstep.
    destruct (Fs.is_pdf filename) eqn:Hpdf.
    + rewrite decide_True by reflexivity. cbn [length]. lia.
    + rewrite decide_False by discriminate. subst st1. exact IH.
Qed.


(** X7. A run of either script counts every PDF name of the folder
    listing exactly once: the number found is the number of names ending
    in [.pdf] (in any case), each of them is counted as renamed or as
    skipped, and the outcome of each is printed once. *)
Theorem run_counts_every_pdf_once (client : option RenamePdf.service)
    (fs : gmap str Fs.node) (folder_path : str) (dry_run : bool) :
  let expected :=
    if Fs.isdir fs folder_path then count_pdf (Fs.listdir fs folder_path) else 0 in
  (exists st, RenamePdfs.rename_pdf_files_in_folder fs folder_path dry_run = Some st /\
              Fs.pdf_files_found st = expected /\
              Fs.renamed_count st + Fs.skipped_count st = expected /\
              length (Fs.printed st) = expected) /\
  (exists st, RenamePdf.rename_pdfs_in_folder client fs folder_path dry_run = Some st /\
              Fs.pdf_files_found st = expected /\
              Fs.renamed_count st + Fs.skipped_count st = expected /\
              length (Fs.printed st) = expected).
Proof.
  unfold RenamePdfs.rename_pdf_files_in_folder, RenamePdf.rename_pdfs_in_folder.
  destruct (Fs.isdir fs folder_path); cbv zeta.
  - split.
    + destruct (pattern_process_files_steps folder_path dry_run
                  (Fs.listdir fs folder_path) (Fs.start fs)) as (st & H & Hs).
      exists st. split; [exact H|]. apply steps_counters in Hs. cbn in Hs. exact Hs.
    + destruct (service_process_files_steps client folder_path dry_run
                  (Fs.listdir fs folder_path) (Fs.start fs)) as (st & H & Hs).
      exists st. split; [exact H|]. apply steps_counters in Hs. cbn in Hs. exact Hs.
  - split; exists (Fs.start fs); repeat split.
Qed.


(** ** Files that already have their name, and runs without a client *)

Lemma is_pdf_with_extension base : Fs.is_pdf (base ++ py ".pdf") = true.
Proof.
  unfold Fs.is_pdf, endswith, lower. rewrite map_app, length_app.
  apply bool_decide_eq_true.
  replace (length (map lower_char base) + length (map lower_char (py ".pdf"))
           - length (py ".pdf")) with (length (map lower_char base)) by (cbn; lia).
  rewrite drop_app_length. reflexivity.
Qed.

Lemma is_pdf_numbered base c : Fs.is_pdf (Fs.numbered base c) = true.
Proof. unfold Fs.numbered. apply is_pdf_with_extension. Qed.

Lemma taken_self fs old : Fs.taken fs old old = false.
Proof.
  unfold Fs.taken. rewrite bool_decide_eq_true_2 by reflexivity. apply andb_false_r.
Qed.

(** The plan of a file that already has the first free name of its base
    is its own path. *)
Lemma resolve_collisions_own_name fs folder base name :
  (name = base ++ py ".pdf" \/
   exists c, 1 <= c /\ name = Fs.numbered base c /\
     Fs.taken fs (Fs.path_join folder name) (Fs.path_join folder (base ++ py ".pdf")) = true /\
     forall j, 1 <= j < c ->
       Fs.taken fs (Fs.path_join folder name) (Fs.path_join folder (Fs.numbered base j)) = true) ->
  Fs.resolve_collisions fs folder (Fs.path_join folder name) base
  = Some (name, Fs.path_join folder name).
Proof.
  intros Hname.
  destruct (resolve_collisions_spec fs folder (Fs.path_join folder name) base)
    as (n & p & -> & -> & Hfree & Hshape).
  destruct Hname as [-> | (c & Hc & -> & Hfirst & Hlower)].
  - destruct Hshape as [(_ & ->) | (Htaken & _)]; [reflexivity|].
    rewrite taken_self in Htaken. discriminate.
  - destruct Hshape as [(Htaken & _) | (_ & c' & Hc' & -> & Hall)];
      [rewrite Hfirst in Htaken; discriminate|].
    destruct (Nat.lt_trichotomy c' c) as [Hlt | [-> | Hgt]]; [| reflexivity |].
    + rewrite Hlower in Hfree by lia. discriminate.
    + specialize (Hall c ltac:(lia)). rewrite taken_self in Hall. discriminate.
Qed.

Lemma finish_file_own_path dry_run filename old name st :
  Fs.finish_file dry_run filename old (name, old) st
  = Fs.skipped (Fs.AlreadyNamed filename) st.
Proof.
  unfold Fs.finish_file. rewrite bool_decide_eq_true_2 by reflexivity. reflexivity.
Qed.

(** X9. Pattern variant: a file whose name is already the name derived
    from its text (the base with the extension, or the base with the
    suffix [_c] while the plain name and all smaller suffixes are taken
    by other entries) is left alone, in a dry and in a live run, and is
    counted as skipped. *)
Theorem pattern_run_leaves_named_file (folder_path : str) (dry_run : bool)
    (filename text base : str) (st : Fs.run) :
  RenamePdfs.extract_text_from_pdf (Fs.files st) (Fs.path_join folder_path filename)
    = Some text ->
  RenamePdfs.generate_new_name_from_content text = Some base ->
  (filename = base ++ py ".pdf" \/
   exists c, 1 <= c /\ filename = Fs.numbered base c /\
     Fs.taken (Fs.files st) (Fs.path_join folder_path filename)
              (Fs.path_join folder_path (base ++ py ".pdf")) = true /\
     forall j, 1 <= j < c ->
       Fs.taken (Fs.files st) (Fs.path_join folder_path filename)
                (Fs.path_join folder_path (Fs.numbered base j)) = true) ->
  RenamePdfs.process_file folder_path dry_run filename st
  = Some (Fs.skipped (Fs.AlreadyNamed filename) (Fs.found st)).
Proof.
  intros Htext Hbase Hname. unfold RenamePdfs.process_file.
  assert (Hpdf : Fs.is_pdf filename = true).
  { destruct Hname as [-> | (c & _ & -> & _)];
      [apply is_pdf_with_extension | apply is_pdf_numbered]. }
  rewrite Hpdf. cbv zeta. change (Fs.files (Fs.found st)) with (Fs.files st).
  rewrite Htext, Hbase, (resolve_collisions_own_name _ _ _ _ Hname).
  cbn [mbind option_bind]. rewrite finish_file_own_path. reflexivity.
Qed.

Lemma pattern_run_leaves_named_file_witness :
  RenamePdfs.process_file (py "/docs") false (py "Quarterly_Report.pdf") (Fs.start named_fs)
  = Some (Fs.skipped (Fs.AlreadyNamed (py "Quarterly_Report.pdf"))
                     (Fs.found (Fs.start named_fs))).
Proof.
  apply (pattern_run_leaves_named_file (py "/docs") false (py "Quarterly_Report.pdf")
           (py "Quarterly Report") (py "Quarterly_Report")).
  - vm_compute. reflexivity.
  - vm_compute. reflexivity.
  - left. vm_compute. reflexivity.
Defined.

(** X10. Service variant: a file whose name is already the accepted
    title with the extension (or with the first free suffix, as above)
    is left alone, in a dry and in a live run, and is counted as
    skipped. *)
Theorem service_run_leaves_named_file (client : option RenamePdf.service)
    (folder_path : str) (dry_run : bool) (filename text title : str) (st : Fs.run) :
  RenamePdf.extract_text_from_pdf (Fs.files st) (Fs.path_join folder_path filename)
    = Some text ->
  text <> [] ->
  RenamePdf.get_title_via_chatgpt client text = Some title ->
  RenamePdf.is_valid_filename title = true ->
  (filename = title ++ py ".pdf" \/
   exists c, 1 <= c /\ filename = Fs.numbered title c /\
     Fs.taken (Fs.files st) (Fs.path_join folder_path filename)
              (Fs.path_join folder_path (title ++ py ".pdf")) = true /\
     forall j, 1 <= j < c ->
       Fs.taken (Fs.files st) (Fs.path_join folder_path filename)
                (Fs.path_join folder_path (Fs.numbered title j)) = true) ->
  RenamePdf.process_file client folder_path dry_run filename st
  = Some (Fs.skipped (Fs.AlreadyNamed filename) (Fs.found st)).
Proof.
  intros Htext Hne Htitle Hvalid Hname. unfold RenamePdf.process_file.
  assert (Hpdf : Fs.is_pdf filename = true).
  { destruct Hname as [-> | (c & _ & -> & _)];
      [apply is_pdf_with_extension | apply is_pdf_numbered]. }
  rewrite Hpdf. cbv zeta. change (Fs.files (Fs.found st)) with (Fs.files st).
  rewrite Htext. destruct text as [|ch text]; [contradiction|]. rewrite Htitle.
  destruct title as [|d title].
  { apply is_valid_filename_spec in Hvalid as [Hv _]. contradiction. }
  rewrite Hvalid. cbn [negb].
  rewrite (resolve_collisions_own_name _ _ _ _ Hname).
  cbn [mbind option_bind]. rewrite finish_file_own_path. reflexivity.
Qed.

Lemma service_run_leaves_named_file_witness :
  RenamePdf.process_file (Some report_service) (py "/docs") false (py "Report.pdf")
    (Fs.start reports_fs)
  = Some (Fs.skipped (Fs.AlreadyNamed (py "Report.pdf")) (Fs.found (Fs.start reports_fs))).
Proof.
  apply (service_run_leaves_named_file (Some report_service) (py "/docs") false
           (py "Report.pdf") (py "old report") (py "Report")).
  - vm_compute. reflexivity.
  - discriminate.
  - vm_compute. reflexivity.
  - vm_compute. reflexivity.
  - left. vm_compute. reflexivity.
Defined.

(** X11. Without a configured client the service variant renames
    nothing: whatever the folder holds and whether the run is dry or
    live, the file system is as before, no file is counted as renamed
    and every PDF name is counted as skipped. *)
Theorem service_run_without_client (folder_path : str) (dry_run : bool)
    (listing : list str) (st : Fs.run) :
  exists st',
    RenamePdf.process_files None folder_path dry_run listing st = Some st' /\
    Fs.files st' = Fs.files st /\
    Fs.renamed_count st' = Fs.renamed_count st /\
    Fs.skipped_count st' = Fs.skipped_count st + count_pdf listing.
Proof.
  revert st. unfold count_pdf.
  induction listing as [|filename listing IH]; intros st.
  - exists st. cbn. repeat split; lia.
  - cbn [RenamePdf.process_files]. unfold RenamePdf.process_file.
    rewrite filter_cons. destruct (Fs.is_pdf filename) eqn:Hpdf.
    + rewrite decide_True by reflexivity. cbv zeta.
      set (st1 := Fs.skipped (Fs.SkippedNoText filename) (Fs.found st)).
      set (st2 := Fs.skipped (Fs.NoNameFound filename) (Fs.found st)).
      assert (H1 : exists st', RenamePdf.process_files None folder_path dry_run listing st1
                               = Some st' /\ Fs.files st' = Fs.files st /\
                               Fs.renamed_count st' = Fs.renamed_count st /\
                               Fs.skipped_count st' = Fs.skipped_count st
                                 + length (filename :: filter (fun f => Fs.is_pdf f = true) listing)).
      { destruct (IH st1) as (st' & H & Hf & Hr & Hs). exists st'.
        repeat split; [exact H | exact Hf | exact Hr |]. rewrite Hs. cbn. lia. }
      assert (H2 : exists st', RenamePdf.process_files None folder_path dry_run listing st2
                               = Some st' /\ Fs.files st' = Fs.files st /\
                               Fs.renamed_count st' = Fs.renamed_count st /\
                               Fs.skipped_count st' = Fs.skipped_count st
                                 + length (filename :: filter (fun f => Fs.is_pdf f = true) listing)).
      { destruct (IH st2) as (st' & H & Hf & Hr & Hs). exists st'.
        repeat split; [exact H | exact Hf | exact Hr |]. rewrite Hs. cbn. lia. }
      destruct (RenamePdf.extract_text_from_pdf _ _) as [[|c text]|]; cbn; assumption.
    + rewrite decide_False by discriminate. cbn. apply IH.
Qed.

(** ** What a dry run announces and what a live run does *)

Lemma collision_loop_stop fuel fs folder old base counter name path :
  Fs.taken fs old path = false ->
  Fs.collision_loop fuel fs folder old base counter name path = Some (name, path).
Proof. intros H. destruct fuel; cbn [Fs.collision_loop]; rewrite H; reflexivity. Qed.


Lemma taken_absent fs old path : fs !! path = None -> Fs.taken fs old path = false.
Proof. intros H. unfold Fs.taken, Fs.exists_. rewrite H. reflexivity. Qed.









(** ** Names of the pattern strategy *)

Lemma replace_no_source a b s : is_char a b = false -> contains a (replace a b s) = false.
Proof.
  intros Hab. unfold contains, replace. induction s as [|c s IH]; [reflexivity|].
  cbn [map existsb]. rewrite IH, orb_false_r.
  destruct (is_char a c) eqn:E; [exact Hab | exact E].
Qed.

Lemma contains_false_not_in a s : contains a s = false <-> ~ In a s.
Proof.
  unfold contains. split.
  - intros H Hin. assert (existsb (is_char a) s = true); [|congruence].
    apply existsb_exists. exists a. split; [exact Hin | apply is_char_refl].
  - intros H. destruct (existsb (is_char a) s) eqn:E; [|reflexivity].
    apply existsb_exists in E as (c & Hin & Hc). apply is_char_true in Hc. subst c.
    contradiction.
Qed.

Lemma sanitize_keeps_absent a raw :
  a <> "_"%char -> contains a raw = false -> contains a (sanitize_filename raw) = false.
Proof.
  intros Ha H. apply contains_false_not_in. intros Hin.
  rewrite sanitize_filename_trimmed in Hin.
  apply take_in, trimmed_in, squeeze_in, replace_invalid_in in Hin as [_ [->|Hin]].
  - contradiction.
  - apply contains_false_not_in in H. contradiction.
Qed.

(** X13. A name derived by the pattern strategy never contains a space,
    has at most 200 characters and none of the nine characters the
    sanitizer replaces. *)
Theorem pattern_name_has_no_space (text name : str) :
  RenamePdfs.generate_new_name_from_content text = Some name ->
  contains " " name = false /\ length name <= 200 /\ has_invalid_char name = false.
Proof.
  intros H.
  assert (Hraw : exists parts,
    name = sanitize_filename (replace " " "_" (join (py "_") parts))).
  { revert H. unfold RenamePdfs.generate_new_name_from_content.
    destruct text as [|c text]; [discriminate|]. cbv zeta.
    set (parts := if RenamePdfs.truthy _ then _ else _).
    destruct parts as [|part parts'].
    - destruct (hd [] _) as [|d line]; [discriminate|].
      destruct (strip is_space (take 50 (d :: line))) as [|e title]; intros [= <-].
      + exists []. reflexivity.
      + exists [e :: title]. reflexivity.
    - intros [= <-]. exists (part :: parts'). reflexivity. }
  destruct Hraw as (parts & ->). split; [|split].
  - apply sanitize_keeps_absent; [discriminate|]. apply replace_no_source. reflexivity.
  - apply sanitize_length.
  - apply sanitize_no_invalid.
Qed.

Lemma pattern_name_has_no_space_witness :
  contains " " (py "Quarterly_report_Q3_2024_results") = false /\
  length (py "Quarterly_report_Q3_2024_results") <= 200 /\
  has_invalid_char (py "Quarterly_report_Q3_2024_results") = false.
Proof.
  apply (pattern_name_has_no_space (py "Quarterly report: Q3/2024 results")).
  vm_compute. reflexivity.
Defined.

(** ** Moving the files to another folder *)

(** Among the first [size fs + 1] values of an injective naming one is
    no entry of the file system. *)
Lemma free_among (fs : gmap str Fs.node) (cand : nat -> str) :
  (forall c1 c2, cand c1 = cand c2 -> c1 = c2) ->
  exists c, 1 <= c <= S (size fs) /\ Fs.exists_ fs (cand c) = false.
Proof.
  intros Hinj. set (l := seq 1 (S (size fs))).
  destruct (decide (Exists (fun c => Fs.exists_ fs (cand c) = false) l)) as [He|Hn].
  - apply Exists_exists in He as (c & Hin & Hc). exists c. split; [|exact Hc].
    apply elem_of_seq in Hin. lia.
  - exfalso. apply not_Exists_Forall in Hn; [|intros c; apply _].
    assert (Hsub : list_to_set (cand <$> l) ⊆ dom fs).
    { intros p Hp. apply elem_of_list_to_set, list_elem_of_fmap in Hp as (c & -> & Hc).
      rewrite Forall_forall in Hn. specialize (Hn c Hc). cbn in Hn.
      apply exists_dom. destruct (Fs.exists_ fs (cand c)); [reflexivity | contradiction]. }
    apply subseteq_size in Hsub. rewrite size_dom in Hsub.
    rewrite size_list_to_set in Hsub.
    + rewrite length_fmap in Hsub. unfold l in Hsub. rewrite length_seq in Hsub. lia.
    + apply NoDup_fmap_2; [exact Hinj | apply NoDup_seq].
Qed.

Lemma suffixed_inj filename c1 c2 :
  RenamePdfMove.suffixed filename c1 = RenamePdfMove.suffixed filename c2 -> c1 = c2.
Proof.
  unfold RenamePdfMove.suffixed. destruct (RenamePdfMove.splitext filename) as [name ext].
  intros H. do 2 apply app_inv_head in H. apply app_inv_tail in H.
  apply decimal_inj. exact H.
Qed.

Lemma suffixed_head filename :
  exists c, forall n, exists b, RenamePdfMove.suffixed filename n = c :: b.
Proof.
  unfold RenamePdfMove.suffixed. destruct (RenamePdfMove.splitext filename) as [[|c name] ext].
  - exists "_"%char. intros n. eexists. reflexivity.
  - exists c. intros n. eexists. reflexivity.
Qed.

Lemma dest_candidate_inj dest filename c1 c2 :
  Fs.path_join dest (RenamePdfMove.suffixed filename c1)
  = Fs.path_join dest (RenamePdfMove.suffixed filename c2) -> c1 = c2.
Proof.
  destruct (suffixed_head filename) as (c & Hc).
  destruct (path_join_prefix dest c) as (pre & Hpre).
  destruct (Hc c1) as (b1 & E1), (Hc c2) as (b2 & E2).
  rewrite E1, E2, !Hpre, <- E1, <- E2. intros H%app_inv_head.
  eapply suffixed_inj. exact H.
Qed.

Lemma dest_loop_stop fuel fs dest filename counter path :
  Fs.exists_ fs path = false ->
  RenamePdfMove.dest_loop fuel fs dest filename counter path = Some path.
Proof. intros H. destruct fuel; cbn [RenamePdfMove.dest_loop]; rewrite H; reflexivity. Qed.

Lemma dest_loop_next fuel fs dest filename counter path :
  Fs.exists_ fs path = true ->
  RenamePdfMove.dest_loop (S fuel) fs dest filename counter path
  = RenamePdfMove.dest_loop fuel fs dest filename (S counter)
      (Fs.path_join dest (RenamePdfMove.suffixed filename counter)).
Proof. intros H. cbn [RenamePdfMove.dest_loop]. rewrite H. reflexivity. Qed.

Lemma dest_loop_spec fs dest filename fuel : forall counter path free,
  counter <= free < counter + fuel ->
  Fs.exists_ fs (Fs.path_join dest (RenamePdfMove.suffixed filename free)) = false ->
  exists path', RenamePdfMove.dest_loop fuel fs dest filename counter path = Some path' /\
                Fs.exists_ fs path' = false.
Proof.
  induction fuel as [|fuel IH]; intros counter path free Hrange Hfree; [lia|].
  destruct (Fs.exists_ fs path) eqn:Hp.
  - rewrite dest_loop_next by exact Hp.
    destruct (decide (counter = free)) as [->|Hne].
    + rewrite dest_loop_stop by exact Hfree. eauto.
    + apply (IH (S counter) _ free); [lia | exact Hfree].
  - rewrite dest_loop_stop by exact Hp. eauto.
Qed.

Lemma dest_loop_total fs dest filename :
  exists path,
    RenamePdfMove.dest_loop (S (size fs)) fs dest filename 1 (Fs.path_join dest filename)
    = Some path /\ Fs.exists_ fs path = false.
Proof.
  destruct (free_among fs (fun c => Fs.path_join dest (RenamePdfMove.suffixed filename c)))
    as (c & Hc & Hfree); [apply dest_candidate_inj|].
  apply (dest_loop_spec fs dest filename (S (size fs)) 1 _ c); [lia | exact Hfree].
Qed.

(** Putting the content of one path at a path that was no entry. *)
Lemma relocation_keeps (fs : gmap str Fs.node) old new node :
  fs !! old = Some node -> fs !! new = None ->
  size (<[new := node]> (delete old fs)) = size fs /\
  (forall q n, q <> old -> fs !! q = Some n ->
               (<[new := node]> (delete old fs)) !! q = Some n).
Proof.
  intros Hold Hnew. split.
  - rewrite map_size_insert_None by (rewrite lookup_delete_ne; congruence).
    rewrite map_size_delete_Some by eauto.
    assert (size fs <> 0) by (apply map_size_ne_0_lookup_2 with old; eauto). lia.
  - intros q n Hq Hl. rewrite lookup_insert_ne by congruence.
    rewrite lookup_delete_ne by congruence. exact Hl.
Qed.

(** One turn of the move loop, for a source that is no directory. *)
Lemma move_file_step src dest filename st :
  RenamePdfMove.entries st !! Fs.path_join src filename <> Some Fs.Dir ->
  exists st1,
    RenamePdfMove.move_file src dest filename st = Some st1 /\
    RenamePdfMove.moved_count st1 + length (RenamePdfMove.failed st1)
      = RenamePdfMove.moved_count st + length (RenamePdfMove.failed st)
        + (if Fs.is_pdf filename then 1 else 0) /\
    (RenamePdfMove.entries st1 = RenamePdfMove.entries st \/
     Fs.is_pdf filename = true /\
     exists new pages,
       RenamePdfMove.entries st !! Fs.path_join src filename = Some (Fs.File pages) /\
       RenamePdfMove.entries st !! new = None /\
       RenamePdfMove.entries st1
       = <[new := Fs.File pages]> (delete (Fs.path_join src filename)
                                         (RenamePdfMove.entries st))).
Proof.
  intros Hnodir. unfold RenamePdfMove.move_file.
  destruct (Fs.is_pdf filename) eqn:Hpdf; cbn [negb];
    [|exists st; repeat split; [lia | left; reflexivity]].
  destruct (dest_loop_total (RenamePdfMove.entries st) dest filename) as (path & -> & Hfree).
  cbn [mbind option_bind]. unfold RenamePdfMove.shutil_move. rewrite Hfree.
  destruct (RenamePdfMove.entries st !! Fs.path_join src filename) as [[|pages]|] eqn:Hold.
  - contradiction.
  - eexists. split; [reflexivity|]. cbn. split; [lia|]. right. split; [reflexivity|].
    exists path, pages. repeat split. apply exists_false. exact Hfree.
  - eexists. split; [reflexivity|]. cbn. split; [lia|]. left. reflexivity.
Qed.

(** X14. The move loop never overwrites and never loses anything.  Over
    any listing whose PDF names are not directories of the source
    folder, it ends; the file system has as many entries as before;
    every entry other than the listed PDF files is where it was; every
    content is still there under some path; and each PDF name is counted
    once, as moved or as failed. *)
Theorem move_never_overwrites (src_folder dest_folder : str) (listing : list str) :
  forall st,
  (forall filename, In filename listing -> Fs.is_pdf filename = true ->
     RenamePdfMove.entries st !! Fs.path_join src_folder filename <> Some Fs.Dir) ->
  exists st',
    RenamePdfMove.move_files src_folder dest_folder listing st = Some st' /\
    size (RenamePdfMove.entries st') = size (RenamePdfMove.entries st) /\
    (forall q n, RenamePdfMove.entries st !! q = Some n ->
       (forall filename, In filename listing -> Fs.is_pdf filename = true ->
                         q <> Fs.path_join src_folder filename) ->
       RenamePdfMove.entries st' !! q = Some n) /\
    (forall q n, RenamePdfMove.entries st !! q = Some n ->
       exists q', RenamePdfMove.entries st' !! q' = Some n) /\
    RenamePdfMove.moved_count st' + length (RenamePdfMove.failed st')
      = RenamePdfMove.moved_count st + length (RenamePdfMove.failed st) + count_pdf listing.
Proof.
  unfold count_pdf. induction listing as [|filename listing IH]; intros st Hnodir.
  - exists st. cbn. repeat split; eauto; lia.
  - cbn [RenamePdfMove.move_files].
    assert (Hdir : Fs.is_pdf filename = true ->
              RenamePdfMove.entries st !! Fs.path_join src_folder filename <> Some Fs.Dir)
      by (apply Hnodir; left; reflexivity).
    destruct (Fs.is_pdf filename) eqn:Hpdf.
    + destruct (move_file_step src_folder dest_folder filename st (Hdir eq_refl))
        as (st1 & -> & Hcount & Hfs).
      rewrite Hpdf in Hcount. cbn [mbind option_bind].
      rewrite filter_cons, decide_True by exact Hpdf. cbn [length].
      destruct Hfs as [Hsame | (_ & new & pages & Hold & Hnew & Hfs)].
      * destruct (IH st1) as (st' & -> & Hsize & Hkeep & Hloss & Hcnt).
        { intros f Hf Hp. rewrite Hsame. apply Hnodir; [right; exact Hf | exact Hp]. }
        exists st'. rewrite Hsame in *. repeat split; try assumption; [|lia].
        intros q n Hq Hother. apply Hkeep; [exact Hq|].
        intros f Hf. apply Hother. right. exact Hf.
      * destruct (relocation_keeps _ _ _ _ Hold Hnew) as (Hsz & Hmove).
        rewrite <- Hfs in Hsz, Hmove.
        destruct (IH st1) as (st' & -> & Hsize & Hkeep & Hloss & Hcnt).
        { intros f Hf Hp. rewrite Hfs.
          destruct (decide (Fs.path_join src_folder f = new)) as [->|Hn].
          - rewrite lookup_insert_eq. discriminate.
          - rewrite lookup_insert_ne by congruence.
            destruct (decide (Fs.path_join src_folder f = Fs.path_join src_folder filename))
              as [->|Ho].
            + rewrite lookup_delete_eq. discriminate.
            + rewrite lookup_delete_ne by congruence.
              apply Hnodir; [right; exact Hf | exact Hp]. }
        exists st'. repeat split; [congruence | | | lia].
        -- intros q n Hq Hother. apply Hkeep.
           ++ apply Hmove; [|exact Hq]. apply Hother; [left; reflexivity | exact Hpdf].
           ++ intros f Hf. apply Hother. right. exact Hf.
        -- intros q n Hq.
           destruct (decide (q = Fs.path_join src_folder filename)) as [->|Hne].
           ++ rewrite Hold in Hq. injection Hq as <-. apply (Hloss new).
              rewrite Hfs. apply lookup_insert_eq.
           ++ apply (Hloss q). apply Hmove; assumption.
    + unfold RenamePdfMove.move_file. rewrite Hpdf. cbn [negb mbind option_bind].
      rewrite filter_cons, decide_False by (rewrite Hpdf; discriminate).
      destruct (IH st) as (st' & -> & Hrest).
      { intros f Hf Hp. apply Hnodir; [right; exact Hf | exact Hp]. }
      exists st'. split; [reflexivity|].
      destruct Hrest as (Hsize & Hkeep & Hloss & Hcnt). repeat split; try assumption.
      intros q n Hq Hother. apply Hkeep; [exact Hq|].
      intros f Hf. apply Hother. right. exact Hf.
Qed.

Lemma move_never_overwrites_witness :
  exists st',
    RenamePdfMove.move_files (py "/docs") (py "/out") [py "a.pdf"; py "notes.txt"; py ".pdf"]
      (RenamePdfMove.Moving move_fs 0 []) = Some st' /\
    size (RenamePdfMove.entries st') = size move_fs /\
    (forall q n, move_fs !! q = Some n ->
       (forall filename, In filename [py "a.pdf"; py "notes.txt"; py ".pdf"] ->
                         Fs.is_pdf filename = true ->
                         q <> Fs.path_join (py "/docs") filename) ->
       RenamePdfMove.entries st' !! q = Some n) /\
    (forall q n, move_fs !! q = Some n ->
       exists q', RenamePdfMove.entries st' !! q' = Some n) /\
    RenamePdfMove.moved_count st' + length (RenamePdfMove.failed st')
      = 0 + 0 + count_pdf [py "a.pdf"; py "notes.txt"; py ".pdf"].
Proof.
  apply (move_never_overwrites (py "/docs") (py "/out")
           [py "a.pdf"; py "notes.txt"; py ".pdf"] (RenamePdfMove.Moving move_fs 0 [])).
  intros filename [<-|[<-|[<-|[]]]] _; vm_compute; discriminate.
Defined.



(** ** The names tried when a moved file collides *)

Lemma rfind_from_app c s1 : forall s2 i found,
  RenamePdfMove.rfind_from c (s1 ++ s2) i found
  = RenamePdfMove.rfind_from c s2 (i + length s1) (RenamePdfMove.rfind_from c s1 i found).
Proof.
  induction s1 as [|d s1 IH]; intros s2 i found; cbn [app RenamePdfMove.rfind_from length].
  - rewrite Nat.add_0_r. reflexivity.
  - rewrite IH. f_equal. lia.
Qed.

Lemma rfind_from_absent c s : forall i found,
  existsb (is_char c) s = false -> RenamePdfMove.rfind_from c s i found = found.
Proof.
  induction s as [|d s IH]; intros i found H; [reflexivity|].
  cbn [existsb] in H. apply orb_false_iff in H as [Hd Hs].
  cbn [RenamePdfMove.rfind_from]. rewrite Hd. apply IH. exact Hs.
Qed.

Lemma rfind_last c stem d rest :
  is_char c d = true -> existsb (is_char c) rest = false ->
  RenamePdfMove.rfind c (stem ++ d :: rest) = Some (length stem).
Proof.
  intros Hd Hrest. unfold RenamePdfMove.rfind. rewrite rfind_from_app.
  cbn [RenamePdfMove.rfind_from]. rewrite Hd. apply rfind_from_absent. exact Hrest.
Qed.

Lemma lower_char_dot c : lower_char c = "."%char -> c = "."%char.
Proof.
  destruct c as [b0 b1 b2 b3 b4 b5 b6 b7].
  destruct b0, b1, b2, b3, b4, b5, b6, b7; vm_compute; congruence.
Qed.

Lemma lower_char_letter c :
  lower_char c = "p"%char \/ lower_char c = "d"%char \/ lower_char c = "f"%char ->
  RenamePdfMove.is_dot c = false /\ is_char Fs.slash c = false /\ is_digit c = false.
Proof.
  destruct c as [b0 b1 b2 b3 b4 b5 b6 b7].
  destruct b0, b1, b2, b3, b4, b5, b6, b7; vm_compute;
    intros [H|[H|H]]; first [discriminate H | repeat split].
Qed.

(** A PDF name is a stem followed by a dot and the three letters, in
    either case. *)
Lemma is_pdf_split filename :
  Fs.is_pdf filename = true ->
  exists e1 e2 e3,
    filename = take (length filename - 4) filename ++ ["."%char; e1; e2; e3] /\
    lower_char e1 = "p"%char /\ lower_char e2 = "d"%char /\ lower_char e3 = "f"%char.
Proof.
  unfold Fs.is_pdf, endswith, lower. rewrite bool_decide_eq_true, length_map.
  change (length (py ".pdf")) with 4. rewrite skipn_map. intros E.
  pose proof (take_drop (length filename - 4) filename) as Htd.
  destruct (drop (length filename - 4) filename) as [|e0 [|e1 [|e2 [|e3 [|e4 r]]]]];
    try discriminate E.
  cbn in E. injection E as H0 H1 H2 H3. apply lower_char_dot in H0. subst e0.
  exists e1, e2, e3. split; [symmetry; exact Htd|]. repeat split; assumption.
Qed.

Lemma splitext_pdf filename :
  Fs.is_pdf filename = true -> contains Fs.slash filename = false ->
  RenamePdfMove.splitext filename
  = if existsb (fun c => negb (RenamePdfMove.is_dot c)) (take (length filename - 4) filename)
    then (take (length filename - 4) filename, drop (length filename - 4) filename)
    else (filename, []).
Proof.
  intros Hpdf Hslash. destruct (is_pdf_split filename Hpdf) as (e1 & e2 & e3 & E & H1 & H2 & H3).
  set (stem := take (length filename - 4) filename) in *.
  assert (Hlen : length stem = length filename - 4).
  { unfold stem. rewrite length_take. apply (f_equal (@length ascii)) in E.
    rewrite length_app in E. cbn [length] in E. lia. }
  destruct (lower_char_letter e1 (or_introl H1)) as (D1 & _).
  destruct (lower_char_letter e2 (or_intror (or_introl H2))) as (D2 & _).
  destruct (lower_char_letter e3 (or_intror (or_intror H3))) as (D3 & _).
  unfold RenamePdfMove.splitext.
  assert (Hs : RenamePdfMove.rfind Fs.slash filename = None).
  { unfold RenamePdfMove.rfind. apply rfind_from_absent. exact Hslash. }
  assert (Hd : RenamePdfMove.rfind "." filename = Some (length stem)).
  { rewrite E. apply rfind_last; [reflexivity|].
    cbn [existsb]. unfold RenamePdfMove.is_dot in D1, D2, D3. rewrite D1, D2, D3. reflexivity. }
  rewrite Hs, Hd. cbn [Nat.leb andb]. rewrite Nat.sub_0_r, drop_0, Hlen.
  fold stem. reflexivity.
Qed.

Lemma pretty_N_go_digits x : forall s,
  forallb is_digit (py s) = true -> forallb is_digit (py (pretty_N_go x s)) = true.
Proof.
  induction (N.lt_wf_0 x) as [x _ IH]; intros s Hs.
  assert (x = 0 \/ 0 < x)%N as [->|Hx] by lia; [rewrite pretty_N_go_0; exact Hs|].
  rewrite pretty_N_go_step by exact Hx. apply IH; [apply N.div_lt; lia|].
  unfold py. cbn [list_ascii_of_string forallb]. unfold py in Hs. rewrite Hs, andb_true_r.
  unfold pretty_N_char. repeat case_match; reflexivity.
Qed.

Lemma pretty_N_go_length x : forall s,
  String.length s <= String.length (pretty_N_go x s).
Proof.
  induction (N.lt_wf_0 x) as [x _ IH]; intros s.
  assert (x = 0 \/ 0 < x)%N as [->|Hx] by lia; [rewrite pretty_N_go_0; lia|].
  rewrite pretty_N_go_step by exact Hx.
  etransitivity; [|apply IH; apply N.div_lt; lia]. cbn. lia.
Qed.

(** A number in decimal is a non-empty string of digits. *)
Lemma decimal_digits n : decimal n <> [] /\ forallb is_digit (decimal n) = true.
Proof.
  unfold decimal, pretty, pretty_nat, pretty, pretty_N.
  destruct (decide (N.of_nat n = 0%N)) as [E|E]; [split; [discriminate | reflexivity]|].
  split; [|apply pretty_N_go_digits; reflexivity].
  rewrite pretty_N_go_step by lia.
  pose proof (pretty_N_go_length (N.of_nat n `div` 10)
                (String (pretty_N_char (N.of_nat n `mod` 10)) EmptyString)) as H.
  destruct (pretty_N_go _ _); [cbn in H; lia | discriminate].
Qed.

Lemma is_pdf_last s d : Fs.is_pdf (s ++ [d]) = true -> lower_char d = "f"%char.
Proof.
  intros H. destruct (is_pdf_split _ H) as (e1 & e2 & e3 & E & _ & _ & H3).
  set (stem := take _ _) in E.
  change (stem ++ ["."%char; e1; e2; e3]) with (stem ++ ["."%char; e1; e2] ++ [e3]) in E.
  rewrite app_assoc in E. apply app_inj_tail in E as [_ ->]. exact H3.
Qed.

Lemma not_pdf_after_number s n : Fs.is_pdf (s ++ py "_" ++ decimal n) = false.
Proof.
  destruct (decimal_digits n) as (Hne & Hdig).
  destruct (exists_last Hne) as (ds & c & E). rewrite E in *.
  destruct (Fs.is_pdf _) eqn:H; [|reflexivity].
  rewrite !app_assoc in H. apply is_pdf_last in H.
  rewrite forallb_app in Hdig. apply andb_true_iff in Hdig as [_ Hc].
  cbn [forallb] in Hc. rewrite andb_true_r in Hc.
  destruct (lower_char_letter c (or_intror (or_intror H))) as (_ & _ & Hd). congruence.
Qed.

(** X16. For a PDF name without a slash, the name tried at a collision
    keeps the extension when the stem has a character other than a dot
    (stem, underscore, counter, extension); a name made of dots before
    the extension, such as [.pdf], gets the counter after the whole name
    and is then no PDF name any more. *)
Theorem collision_name_of_pdf (filename : str) (counter : nat) :
  Fs.is_pdf filename = true -> contains Fs.slash filename = false ->
  let stem := take (length filename - 4) filename in
  let ext := drop (length filename - 4) filename in
  let plain := existsb (fun c => negb (RenamePdfMove.is_dot c)) stem in
  RenamePdfMove.suffixed filename counter
  = (if plain then stem ++ py "_" ++ decimal counter ++ ext
     else filename ++ py "_" ++ decimal counter) /\
  Fs.is_pdf (RenamePdfMove.suffixed filename counter) = plain.
Proof.
  intros Hpdf Hslash. cbv zeta. unfold RenamePdfMove.suffixed.
  rewrite (splitext_pdf filename Hpdf Hslash).
  destruct (existsb _ (take (length filename - 4) filename)) eqn:Hplain.
  - split; [reflexivity|].
    destruct (is_pdf_split filename Hpdf) as (e1 & e2 & e3 & E & H1 & H2 & H3).
    assert (Hext : drop (length filename - 4) filename = ["."%char; e1; e2; e3]).
    { rewrite E at 2. rewrite drop_app_length'; [reflexivity|].
      rewrite length_take. apply (f_equal (@length ascii)) in E.
      rewrite length_app in E. cbn [length] in E. lia. }
    rewrite Hext. unfold Fs.is_pdf, endswith, lower. apply bool_decide_eq_true.
    rewrite !app_assoc, map_app, length_app. cbn [map length].
    rewrite H1, H2, H3. change (length (py ".pdf")) with 4.
    replace (length (map lower_char
              ((take (length filename - 4) filename ++ py "_") ++ decimal counter)) + 4 - 4)
      with (length (map lower_char
              ((take (length filename - 4) filename ++ py "_") ++ decimal counter))) by lia.
    rewrite drop_app_length. reflexivity.
  - split; [rewrite app_nil_r; reflexivity|].
    rewrite app_nil_r. apply not_pdf_after_number.
Qed.

Lemma collision_name_of_pdf_witness :
  RenamePdfMove.suffixed (py ".pdf") 1 = py ".pdf" ++ py "_" ++ decimal 1 /\
  Fs.is_pdf (RenamePdfMove.suffixed (py ".pdf") 1) = false.
Proof.
  apply (collision_name_of_pdf (py ".pdf") 1); vm_compute; reflexivity.
Defined.

(** ** The prompts of the two scripts *)

Lemma pattern_dry_run fs folder :
  exists st, RenamePdfs.rename_pdf_files_in_folder fs folder true = Some st /\
             Fs.files st = fs.
Proof.
  unfold RenamePdfs.rename_pdf_files_in_folder. destruct (Fs.isdir fs folder).
  - destruct (pattern_process_files_keeps folder true (Fs.listdir fs folder) (Fs.start fs))
      as (st & H & _ & Hk). exists st. split; [exact H | exact (Hk eq_refl)].
  - exists (Fs.start fs). split; reflexivity.
Qed.

Lemma service_dry_run client fs folder :
  exists st, RenamePdf.rename_pdfs_in_folder client fs folder true = Some st /\
             Fs.files st = fs.
Proof.
  unfold RenamePdf.rename_pdfs_in_folder. destruct (Fs.isdir fs folder).
  - destruct (service_process_files_keeps client folder true (Fs.listdir fs folder)
                (Fs.start fs)) as (st & H & _ & Hk).
    exists st. split; [exact H | exact (Hk eq_refl)].
  - exists (Fs.start fs). split; reflexivity.
Qed.

(** X17. The pattern script changes nothing unless it is told to: when
    the answer to the dry-run question is not [n] and the answer to the
    confirmation is not [y] (after trimming, in either case of the
    letter; a missing answer counts as neither), the script makes no
    live call and leaves the file system as it was. *)
Theorem rename_pdfs_main_needs_consent (answers : list str) (fs : gmap str Fs.node) :
  Scripts.normalized (nth 1 answers []) <> py "n" ->
  Scripts.normalized (nth 2 answers []) <> py "y" ->
  exists s, Scripts.rename_pdfs_main answers fs = Some s /\
            Scripts.disk s = fs /\
            Forall (fun call => fst call = true) (Scripts.calls s).
Proof.
  intros Hn Hy. unfold Scripts.rename_pdfs_main.
  destruct answers as [|folder_line [|choice answers]];
    try (eexists; repeat split; constructor).
  cbn [nth] in Hn, Hy. cbv zeta.
  rewrite bool_decide_eq_false_2 by exact Hn. cbn [negb].
  destruct (pattern_dry_run fs (strip is_space folder_line)) as (st & -> & Hfs).
  cbn [mbind option_bind].
  destruct answers as [|final answers].
  - eexists. repeat split; [exact Hfs | repeat constructor].
  - cbn [nth] in Hy. rewrite bool_decide_eq_false_2 by exact Hy.
    eexists. repeat split; [exact Hfs | repeat constructor].
Qed.

Lemma rename_pdfs_main_needs_consent_witness :
  exists s, Scripts.rename_pdfs_main [py " /docs "; []; py " No "] twin_fs = Some s /\
            Scripts.disk s = twin_fs /\
            Forall (fun call => fst call = true) (Scripts.calls s).
Proof.
  apply rename_pdfs_main_needs_consent; vm_compute; discriminate.
Defined.

(** X18. The service script changes nothing unless it is told to: under
    the same two answers it makes no live call, never asks about moving
    the files (whatever further answers are waiting) and leaves the file
    system as it was. *)
Theorem renamepdf_main_needs_consent (client : option RenamePdf.service)
    (answers : list str) (fs : gmap str Fs.node) :
  Scripts.normalized (nth 1 answers []) <> py "n" ->
  Scripts.normalized (nth 2 answers []) <> py "y" ->
  exists s, Scripts.renamepdf_main client answers fs = Some s /\
            Scripts.disk s = fs /\
            Scripts.move s = None /\
            Forall (fun call => fst call = true) (Scripts.calls s).
Proof.
  intros Hn Hy. unfold Scripts.renamepdf_main.
  destruct answers as [|folder_line [|choice answers]];
    try (eexists; repeat split; constructor).
  cbn [nth] in Hn, Hy. cbv zeta.
  rewrite bool_decide_eq_false_2 by exact Hn. cbn [negb].
  destruct (service_dry_run client fs (strip is_space folder_line)) as (st & -> & Hfs).
  cbn [mbind option_bind].
  destruct answers as [|final answers].
  - eexists. repeat split; [exact Hfs | repeat constructor].
  - cbn [nth] in Hy. rewrite bool_decide_eq_false_2 by exact Hy.
    eexists. repeat split; [exact Hfs | repeat constructor].
Qed.

Lemma renamepdf_main_needs_consent_witness :
  exists s, Scripts.renamepdf_main (Some report_service)
              [py "/docs"; py "y"; py "n"; py "y"; py "/out"] reports_fs = Some s /\
            Scripts.disk s = reports_fs /\
            Scripts.move s = None /\
            Forall (fun call => fst call = true) (Scripts.calls s).
Proof.
  apply renamepdf_main_needs_consent; vm_compute; discriminate.
Defined.

(** ** Which answers of the service are accepted *)

Lemma squeeze_keeps b s c : In c s -> is_char "_" c = false -> In c (squeeze b s).
Proof.
  revert b. induction s as [|d s IH]; intros b; [intros []|]. cbn [squeeze].
  intros [->|Hin] Hc.
  - rewrite Hc. left. reflexivity.
  - destruct (is_char "_" d), b; cbn [In]; auto.
Qed.

Lemma forallb_in {A} (p : A -> bool) l x : forallb p l = true -> In x l -> p x = true.
Proof. rewrite forallb_forall. auto. Qed.

Lemma strip_keeps p s c : In c s -> p c = false -> In c (strip p s).
Proof.
  intros Hin Hc. unfold strip.
  destruct (lstrip_suffix p s) as (pre & Hs & Hpre).
  destruct (rstrip_prefix p (lstrip p s)) as (suf & Ht & Hsuf).
  rewrite Hs in Hin. apply in_app_or in Hin as [Hin|Hin].
  { rewrite (forallb_in _ _ _ Hpre Hin) in Hc. discriminate. }
  rewrite Ht in Hin. apply in_app_or in Hin as [Hin|Hin]; [exact Hin|].
  rewrite (forallb_in _ _ _ Hsuf Hin) in Hc. discriminate.
Qed.

Lemma sep_not_underscore c : is_sep c = false -> is_char "_" c = false.
Proof.
  intros H. destruct (is_char "_" c) eqn:E; [|reflexivity].
  apply is_char_true in E. subst c. discriminate H.
Qed.

Lemma trimmed_keeps name c :
  In c name -> is_sep c = false -> one_of invalid_chars c = false -> In c (trimmed name).
Proof.
  intros Hin Hsep Hinv. unfold trimmed. apply strip_keeps; [|exact Hsep].
  apply squeeze_keeps; [|apply sep_not_underscore; exact Hsep].
  unfold replace_invalid. apply in_map_iff. exists c. rewrite Hinv. auto.
Qed.

Lemma sep_is_name_char c : is_sep c = true -> RenamePdf.name_char c = true.
Proof.
  destruct c as [b0 b1 b2 b3 b4 b5 b6 b7].
  destruct b0, b1, b2, b3, b4, b5, b6, b7; vm_compute; congruence.
Qed.

(** X19. Which raw titles pass the character check after sanitizing.
    For a title of at most 200 characters, the sanitized title is valid
    exactly when it is not empty and every character of the raw title is
    a letter, a digit, a space, an underscore or one of the nine
    characters that the sanitizer turns into underscores: those nine
    are forgiven, any other punctuation refuses the file. *)
Theorem sanitized_title_valid_iff (title : str) :
  length title <= 200 ->
  (RenamePdf.is_valid_filename (sanitize_filename title) = true <->
   sanitize_filename title <> [] /\
   forallb (fun c => RenamePdf.name_char c || one_of invalid_chars c) title = true).
Proof.
  intros Hlen.
  assert (Hsan : sanitize_filename title = trimmed title).
  { rewrite sanitize_filename_trimmed. apply take_ge.
    pose proof (trimmed_length title). lia. }
  rewrite is_valid_filename_spec. split; intros [Hne Hall]; (split; [exact Hne|]).
  - apply forallb_forall. intros c Hin.
    destruct (one_of invalid_chars c) eqn:Hinv; [apply orb_true_r|].
    rewrite orb_false_r. destruct (is_sep c) eqn:Hsep; [apply sep_is_name_char; exact Hsep|].
    apply (forallb_in _ _ _ Hall). rewrite Hsan. apply trimmed_keeps; assumption.
  - apply forallb_forall. intros c Hin. rewrite Hsan in Hin.
    apply trimmed_in, squeeze_in, replace_invalid_in in Hin as [Hinv [->|Hin]];
      [reflexivity|].
    pose proof (forallb_in _ _ _ Hall Hin) as H. cbn beta in H.
    rewrite Hinv, orb_false_r in H. exact H.
Qed.

Lemma sanitized_title_valid_iff_witness :
  RenamePdf.is_valid_filename (sanitize_filename (py "Acme/Bridge: survey?")) = true <->
  sanitize_filename (py "Acme/Bridge: survey?") <> [] /\
  forallb (fun c => RenamePdf.name_char c || one_of invalid_chars c)
          (py "Acme/Bridge: survey?") = true.
Proof. apply sanitized_title_valid_iff. vm_compute. lia. Defined.

(** ** What a live rename does *)



(** X21. Service variant, live run: a PDF with text whose title is
    accepted and is no entry of the folder is renamed to the title with
    the extension; content, report and counters as in the pattern
    variant. *)
Theorem service_live_rename (client : option RenamePdf.service)
    (folder_path filename title : str) (pages : list str) (st : Fs.run) :
  Fs.is_pdf filename = true ->
  Fs.files st !! Fs.path_join folder_path filename = Some (Fs.File (Some pages)) ->
  concat pages <> [] ->
  RenamePdf.get_title_via_chatgpt client (concat pages) = Some title ->
  RenamePdf.is_valid_filename title = true ->
  Fs.files st !! Fs.path_join folder_path (title ++ py ".pdf") = None ->
  exists st1,
    RenamePdf.process_file client folder_path false filename st = Some st1 /\
    Fs.files st1 !! Fs.path_join folder_path (title ++ py ".pdf")
      = Some (Fs.File (Some pages)) /\
    Fs.files st1 !! Fs.path_join folder_path filename = None /\
    Fs.printed st1 = Fs.Renamed filename (title ++ py ".pdf") :: Fs.printed st /\
    Fs.renamed_count st1 = S (Fs.renamed_count st) /\
    Fs.skipped_count st1 = Fs.skipped_count st.
Proof.
  intros Hpdf Hold Htext Htitle Hvalid Hfree.
  unfold RenamePdf.process_file. rewrite Hpdf. cbv zeta.
  change (Fs.files (Fs.found st)) with (Fs.files st).
  unfold RenamePdf.extract_text_from_pdf. rewrite Hold.
  destruct (concat pages) as [|c text] eqn:Hc; [contradiction|]. rewrite Htitle.
  destruct title as [|d title].
  { apply is_valid_filename_spec in Hvalid as [Hv _]. contradiction. }
  rewrite Hvalid. cbn [negb]. unfold Fs.resolve_collisions.
  rewrite collision_loop_stop by (apply taken_absent; exact Hfree).
  cbn [mbind option_bind]. unfold Fs.finish_file.
  rewrite bool_decide_eq_false_2 by (intros E; rewrite E in Hfree; congruence).
  change (Fs.files (Fs.found st)) with (Fs.files st).
  unfold Fs.rename. rewrite Hold, Hfree.
  eexists. split; [reflexivity|]. cbn [Fs.files Fs.renamed Fs.printed Fs.found
    Fs.renamed_count Fs.skipped_count]. repeat split.
  - apply lookup_insert_eq.
  - rewrite lookup_insert_ne by (intros E; rewrite E in Hfree; congruence).
    apply lookup_delete_eq.
Qed.

Lemma service_live_rename_witness :
  exists st1,
    RenamePdf.process_file (Some report_service) (py "/docs") false (py "a.pdf")
      (Fs.start pair_fs) = Some st1 /\
    Fs.files st1 !! Fs.path_join (py "/docs") (py "Report" ++ py ".pdf")
      = Some (Fs.File (Some [py "first report"])) /\
    Fs.files st1 !! Fs.path_join (py "/docs") (py "a.pdf") = None /\
    Fs.printed st1 = Fs.Renamed (py "a.pdf") (py "Report" ++ py ".pdf")
                       :: Fs.printed (Fs.start pair_fs) /\
    Fs.renamed_count st1 = S (Fs.renamed_count (Fs.start pair_fs)) /\
    Fs.skipped_count st1 = Fs.skipped_count (Fs.start pair_fs).
Proof.
  apply (service_live_rename (Some report_service) (py "/docs") (py "a.pdf") (py "Report")
           [py "first report"] (Fs.start pair_fs));
    first [vm_compute; reflexivity | vm_compute; discriminate].
Defined.

(** ** The date part of a pattern name *)

Lemma replace_keeps_absent a b c s :
  is_char c b = false -> contains c s = false -> contains c (replace a b s) = false.
Proof.
  intros Hb. unfold contains, replace. induction s as [|d s IH]; [reflexivity|].
  cbn [map existsb]. intros [Hd Hs]%orb_false_iff. rewrite (IH Hs), orb_false_r.
  destruct (is_char a d); [exact Hb | exact Hd].
Qed.

Lemma basic_conversion_separators m :
  contains "/" (RenamePdfs.basic_conversion m) = false /\
  contains "." (RenamePdfs.basic_conversion m) = false.
Proof.
  unfold RenamePdfs.basic_conversion. split.
  - apply replace_keeps_absent; [reflexivity|]. apply replace_no_source. reflexivity.
  - apply replace_no_source. reflexivity.
Qed.

Lemma digits_no_separator s c :
  is_digit c = false -> forallb is_digit s = true -> contains c s = false.
Proof.
  intros Hc Hs. apply contains_false_not_in. intros Hin.
  rewrite (forallb_in _ _ _ Hs Hin) in Hc. discriminate.
Qed.

Lemma zero_pad_digits w n : forallb is_digit (Datetime.zero_pad w n) = true.
Proof.
  unfold Datetime.zero_pad. rewrite forallb_app. apply andb_true_iff. split.
  - induction (w - length (decimal n)) as [|k IH]; [reflexivity|]. cbn. exact IH.
  - apply decimal_digits.
Qed.

Lemma contains_app c s t : contains c (s ++ t) = contains c s || contains c t.
Proof. unfold contains. apply existsb_app. Qed.

Lemma strftime_separators dt c :
  is_digit c = false -> is_char c "-" = false ->
  contains c (Datetime.strftime_Ymd dt) = false.
Proof.
  intros Hd Hc. unfold Datetime.strftime_Ymd. rewrite !contains_app.
  rewrite (digits_no_separator _ c Hd (proj2 (decimal_digits _))).
  rewrite !(digits_no_separator _ c Hd (zero_pad_digits _ _)).
  unfold contains, py. cbn [list_ascii_of_string existsb]. rewrite Hc. reflexivity.
Qed.

Lemma find_date_separators patterns text : forall found d,
  (forall d0, found = Some d0 -> contains "/" d0 = false /\ contains "." d0 = false) ->
  RenamePdfs.find_date patterns text found = Some d ->
  contains "/" d = false /\ contains "." d = false.
Proof.
  induction patterns as [|pattern patterns IH]; intros found d Hfound;
    cbn [RenamePdfs.find_date].
  - intros ->. apply Hfound. reflexivity.
  - destruct (Re.search pattern text) as [m|]; [|apply IH; exact Hfound].
    destruct (RenamePdfs.normalize_date m) as [[dt|]|] eqn:E.
    + intros [= <-]. split; apply strftime_separators; reflexivity.
    + intros [= <-]. apply basic_conversion_separators.
    + apply IH. intros d0 [= <-]. apply basic_conversion_separators.
Qed.

(** X22. The date part of a pattern name never holds a slash or a dot:
    whatever date the three date patterns find in a text, the part
    that goes into the name is either the year-month-day form made of
    digits and hyphens or the matched text with slashes and dots turned
    into hyphens. *)
Theorem date_part_has_no_slash_or_dot (text d : str) :
  RenamePdfs.find_date RenamePdfs.date_patterns text None = Some d ->
  contains "/" d = false /\ contains "." d = false.
Proof.
  apply find_date_separators. intros d0 [=].
Qed.

Lemma date_part_has_no_slash_or_dot_witness :
  contains "/" (py "5-11-23") = false /\ contains "." (py "5-11-23") = false.
Proof.
  apply (date_part_has_no_slash_or_dot (py "paid 5/11/23 in full") (py "5-11-23")).
  vm_compute. reflexivity.
Defined.

(** ** Creating the destination folder *)

Lemma split_path_length p :
  length (fst (RenamePdfMove.split_path p)) + length (snd (RenamePdfMove.split_path p))
  <= length p.
Proof.
  unfold RenamePdfMove.split_path. cbv zeta. cbn [fst snd].
  set (i := match RenamePdfMove.rfind Fs.slash p with Some j => S j | None => 0 end).
  pose proof (take_drop i p) as Htd. apply (f_equal (@length _)) in Htd.
  rewrite length_app in Htd.
  destruct (RenamePdf.nonempty (take i p) && _); [|lia].
  destruct (rstrip_prefix (is_char Fs.slash) (take i p)) as (suf & Hs & _).
  apply (f_equal (@length _)) in Hs. rewrite length_app in Hs. lia.
Qed.

Lemma nonempty_length s : RenamePdf.nonempty s = true -> 0 < length s.
Proof. destruct s; [discriminate | cbn; lia]. Qed.

(** The directory the recursion goes to, and whether it goes there. *)
Lemma makedirs_head_shorter fs name head tail :
  (let '(head0, tail0) := RenamePdfMove.split_path name in
   if RenamePdf.nonempty tail0 then (head0, tail0) else RenamePdfMove.split_path head0)
  = (head, tail) ->
  RenamePdf.nonempty head && RenamePdf.nonempty tail
    && negb (RenamePdfMove.path_exists fs head) = true ->
  length head < length name.
Proof.
  intros Hsplit Hd. apply andb_true_iff in Hd as [Hd _].
  apply andb_true_iff in Hd as [_ Ht%nonempty_length].
  pose proof (split_path_length name) as H1.
  destruct (RenamePdfMove.split_path name) as [head0 tail0]. cbn [fst snd] in H1.
  destruct (RenamePdf.nonempty tail0).
  - injection Hsplit as <- <-. lia.
  - pose proof (split_path_length head0) as H2. rewrite Hsplit in H2.
    cbn [fst snd] in H2. lia.
Qed.

Lemma mkdir_spec fs name fs2 :
  RenamePdfMove.mkdir fs name = Some fs2 ->
  fs !! name = None /\ fs2 = <[name := Fs.Dir]> fs.
Proof.
  unfold RenamePdfMove.mkdir, RenamePdfMove.path_exists.
  destruct (negb (RenamePdf.nonempty name)); [discriminate|]. cbn [orb].
  destruct (Fs.exists_ fs name) eqn:E; [discriminate|]. apply exists_false in E.
  cbn [orb]. destruct (RenamePdfMove.is_root name); [discriminate|].
  destruct (_ || _); [|discriminate]. intros [= <-]. auto.
Qed.

Lemma grown_refl fs : grown fs fs.
Proof. split; auto. Qed.

Lemma grown_trans fs fs1 fs2 : grown fs fs1 -> grown fs1 fs2 -> grown fs fs2.
Proof.
  intros [A1 B1] [A2 B2]. split; [auto|].
  intros q n H. destruct (B2 q n H) as [H1|H1]; auto.
Qed.

Lemma grown_mkdir fs name fs2 : RenamePdfMove.mkdir fs name = Some fs2 -> grown fs fs2.
Proof.
  intros [Hnone ->]%mkdir_spec. split; intros q n H.
  - rewrite lookup_insert_ne by congruence. exact H.
  - destruct (decide (name = q)) as [->|Hq].
    + rewrite lookup_insert_eq in H. right. congruence.
    + rewrite lookup_insert_ne in H by exact Hq. auto.
Qed.

Lemma makedirs_grown fuel : forall fs name,
  grown fs (fst (RenamePdfMove.makedirs fuel fs name)).
Proof.
  induction fuel as [|fuel IH]; intros fs name; cbn [RenamePdfMove.makedirs];
    destruct (RenamePdfMove.split_path name) as [head0 tail0];
    destruct (if RenamePdf.nonempty tail0 then (head0, tail0)
              else RenamePdfMove.split_path head0) as [head tail];
    destruct (RenamePdf.nonempty head && RenamePdf.nonempty tail
              && negb (RenamePdfMove.path_exists fs head)) eqn:Hd; cbn [negb andb].
  - apply grown_refl.
  - destruct (RenamePdfMove.mkdir fs name) eqn:E; cbn [fst];
      [eapply grown_mkdir; exact E | apply grown_refl].
  - pose proof (IH fs head) as Hrec.
    destruct (RenamePdfMove.makedirs fuel fs head) as [fs1 ok]. cbn [fst] in Hrec.
    destruct ok; cbn [negb]; [|exact Hrec].
    destruct (bool_decide (tail = py ".")); [exact Hrec|].
    destruct (RenamePdfMove.mkdir fs1 name) eqn:E; cbn [fst]; [|exact Hrec].
    eapply grown_trans; [exact Hrec | eapply grown_mkdir; exact E].
  - destruct (RenamePdfMove.mkdir fs name) eqn:E; cbn [fst];
      [eapply grown_mkdir; exact E | apply grown_refl].
Qed.

Lemma makedirs_S fuel fs name :
  RenamePdfMove.makedirs (S fuel) fs name
  = let '(head, tail) :=
      let '(head0, tail0) := RenamePdfMove.split_path name in
      if RenamePdf.nonempty tail0 then (head0, tail0) else RenamePdfMove.split_path head0 in
    let descend :=
      RenamePdf.nonempty head && RenamePdf.nonempty tail
        && negb (RenamePdfMove.path_exists fs head) in
    let '(fs1, ok) :=
      if descend then RenamePdfMove.makedirs fuel fs head else (fs, true) in
    if negb ok then (fs1, false)
    else if descend && bool_decide (tail = py ".") then (fs1, true)
    else match RenamePdfMove.mkdir fs1 name with
         | Some fs2 => (fs2, true)
         | None => (fs1, RenamePdfMove.path_isdir fs1 name)
         end.
Proof.
  cbn [RenamePdfMove.makedirs]. destruct (RenamePdfMove.split_path name) as [head0 tail0].
  reflexivity.
Qed.

(** The fuel given by the caller, the length of the path, is enough. *)
Lemma makedirs_fuel fuel : forall fs name,
  length name <= fuel ->
  RenamePdfMove.makedirs (S fuel) fs name = RenamePdfMove.makedirs fuel fs name.
Proof.
  induction fuel as [|fuel IH]; intros fs name Hlen.
  - destruct name; [vm_compute; reflexivity | cbn in Hlen; lia].
  - rewrite (makedirs_S (S fuel)), (makedirs_S fuel).
    destruct (let '(head0, tail0) := RenamePdfMove.split_path name in
              if RenamePdf.nonempty tail0 then (head0, tail0)
              else RenamePdfMove.split_path head0) as [head tail] eqn:Hs.
    cbv zeta.
    destruct (RenamePdf.nonempty head && RenamePdf.nonempty tail
              && negb (RenamePdfMove.path_exists fs head)) eqn:Hd; [|reflexivity].
    pose proof (makedirs_head_shorter fs name head tail Hs Hd) as Hshort.
    rewrite (IH fs head) by lia. reflexivity.
Qed.

Lemma makedirs_more_fuel extra : forall fs name,
  RenamePdfMove.makedirs (length name + extra) fs name
  = RenamePdfMove.makedirs (length name) fs name.
Proof.
  induction extra as [|extra IH]; intros fs name.
  - rewrite Nat.add_0_r. reflexivity.
  - rewrite Nat.add_succ_r, makedirs_fuel by lia. apply IH.
Qed.

Lemma move_file_total src dest filename st :
  exists st', RenamePdfMove.move_file src dest filename st = Some st'.
Proof.
  unfold RenamePdfMove.move_file. destruct (Fs.is_pdf filename); cbn [negb]; [|eauto].
  destruct (dest_loop_total (RenamePdfMove.entries st) dest filename) as (path & -> & _).
  cbn [mbind option_bind]. destruct (RenamePdfMove.shutil_move _ _ _); eauto.
Qed.

Lemma move_files_total src dest listing : forall st,
  exists st', RenamePdfMove.move_files src dest listing st = Some st'.
Proof.
  induction listing as [|filename listing IH]; intros st; cbn [RenamePdfMove.move_files];
    [eauto|].
  destruct (move_file_total src dest filename st) as (st1 & ->).
  cbn [mbind option_bind]. apply IH.
Qed.

(** X23. How a call of the move operation can end.  It always ends.
    Creating the destination only adds directories and never touches an
    entry that was there.  When the destination cannot be created the
    call returns, and when the source folder cannot be listed the call
    is left by the exception, in both cases with no file moved; only
    otherwise does the loop run, over the listing of the source folder
    and starting from a count of zero.  A destination that is a
    directory already is not created again.  The recursion that creates
    the missing directories gives the same result with any larger
    bound, so that no failure comes from the bound. *)
Theorem move_pdfs_to_folder_outcomes (fs : gmap str Fs.node) (src_folder dest_folder : str) :
  (forall extra,
     RenamePdfMove.makedirs (length dest_folder + extra) fs dest_folder
     = RenamePdfMove.makedirs (length dest_folder) fs dest_folder) /\
  exists result,
    RenamePdfMove.move_pdfs_to_folder fs src_folder dest_folder = Some result /\
    match result with
    | RenamePdfMove.CreationFailed fs1 =>
        grown fs fs1 /\ RenamePdfMove.path_isdir fs dest_folder = false
    | RenamePdfMove.ListingRaised fs1 =>
        grown fs fs1 /\ RenamePdfMove.path_isdir fs1 src_folder = false
    | RenamePdfMove.Moved st =>
        exists fs1,
          grown fs fs1 /\
          (RenamePdfMove.path_isdir fs dest_folder = true -> fs1 = fs) /\
          RenamePdfMove.path_isdir fs1 src_folder = true /\
          RenamePdfMove.move_files src_folder dest_folder (Fs.listdir fs1 src_folder)
            (RenamePdfMove.Moving fs1 0 []) = Some st
    end.
Proof.
  split; [intros extra; apply makedirs_more_fuel|].
  unfold RenamePdfMove.move_pdfs_to_folder.
  assert (Hmake : exists fs1 ok,
            (if RenamePdfMove.path_isdir fs dest_folder then (fs, true)
             else RenamePdfMove.makedirs (length dest_folder) fs dest_folder) = (fs1, ok) /\
            grown fs fs1 /\
            (RenamePdfMove.path_isdir fs dest_folder = true -> fs1 = fs /\ ok = true)).
  { destruct (RenamePdfMove.path_isdir fs dest_folder).
    - exists fs, true. split; [reflexivity|]. split; [apply grown_refl | auto].
    - pose proof (makedirs_grown (length dest_folder) fs dest_folder) as Hg.
      destruct (RenamePdfMove.makedirs _ fs dest_folder) as [fs1 ok].
      exists fs1, ok. split; [reflexivity|]. split; [exact Hg | discriminate]. }
  destruct Hmake as (fs1 & ok & -> & Hg & Hsame).
  destruct ok; cbn [negb].
  - destruct (RenamePdfMove.path_isdir fs1 src_folder) eqn:Hsrc; cbn [negb].
    + destruct (move_files_total src_folder dest_folder (Fs.listdir fs1 src_folder)
                  (RenamePdfMove.Moving fs1 0 [])) as (st & Hst).
      rewrite Hst. eexists. split; [reflexivity|].
      exists fs1. split; [exact Hg|]. split; [|split; [exact Hsrc | exact Hst]].
      intros H. apply Hsame. exact H.
    + eexists. split; [reflexivity|]. split; [exact Hg | exact Hsrc].
  - eexists. split; [reflexivity|]. split; [exact Hg|].
    destruct (RenamePdfMove.path_isdir fs dest_folder); [|reflexivity].
    destruct Hsame as [_ H]; [reflexivity | discriminate].
Qed.
